(** * DGit: the commit / storage / restore pipeline

    A shallow embedding of the Go sources of DGit (packages [staging],
    [commit], [restore], [log] and [photoshop]) together with the properties
    its specification states about them.

    Conventions.
    - A Go [string] and a Go [[]byte] are both sequences of 8-bit bytes; they
      are Rocq [string]s here (a [string] is a list of [ascii], one per byte).
    - Go [int] and [int64] values are [Z]; where the source does arithmetic
      that can leave the 64-bit range this is written out with [wrap64].
      Slice offsets are kept unbounded: every offset the decoders compute is
      bounded by the length of an in-memory buffer.
    - Go [float64] values are Rocq's primitive binary64 floats.
    - The [.dgit] directory is a record with one finite map per directory
      the managers address ([VersionsDir], [CacheDir], [ObjectsDir],
      [DeltaDir]); [filepath.Join dir name] is a lookup of [name] in the map
      of [dir].  [commits/v<N>.json] is a map from [N] to the decoded record.
    - Libraries the program links against (LZ4, Zstandard, bsdiff, ZIP, JSON,
      SHA-256, the clock) are the fields of the class [External]. *)

From Stdlib Require Import ZArith Lia Bool String Ascii List Floats Uint63.
From stdpp Require Import gmap strings list pretty.

Local Open Scope Z_scope.

(** ** Go's [strings], [strconv] and [path/filepath] functions used by DGit *)

Module Go.

Abbreviation bytes := string.

Inductive result (A : Type) : Type :=
| Ok (a : A)
| Err (msg : string).
Arguments Ok {A} a.
Arguments Err {A} msg.

Definition is_ok {A} (r : result A) : bool :=
  match r with Ok _ => true | Err _ => false end.

Definition len (s : string) : Z := Z.of_nat (String.length s).

(** [s[lo:hi]] *)
Definition slice (s : string) (lo hi : Z) : string :=
  String.substring (Z.to_nat lo) (Z.to_nat (hi - lo)) s.

(** [s[lo:]] *)
Definition slice_from (s : string) (lo : Z) : string := slice s lo (len s).

Fixpoint HasPrefix (s p : string) : bool :=
  match p with
  | EmptyString => true
  | String c p' =>
      match s with
      | EmptyString => false
      | String d s' => Ascii.eqb c d && HasPrefix s' p'
      end
  end.

Definition HasSuffix (s suffix : string) : bool :=
  (len suffix <=? len s) && String.eqb (slice_from s (len s - len suffix)) suffix.

(** [strings.Index]: offset of the first occurrence, [-1] when absent. *)
Fixpoint Index (s sub : string) : Z :=
  match s with
  | EmptyString => if HasPrefix EmptyString sub then 0 else -1
  | String _ s' =>
      if HasPrefix s sub then 0
      else let i := Index s' sub in if i <? 0 then -1 else i + 1
  end.

Definition Contains (s sub : string) : bool := 0 <=? Index s sub.

(** [strings.Split s sep] for a non-empty separator; [skip] counts the
    bytes of a separator that has been matched and is being dropped. *)
Fixpoint Split_from (sep s : string) (skip : nat) : list string :=
  match s with
  | EmptyString => [EmptyString]
  | String c s' =>
      match skip with
      | S k => Split_from sep s' k
      | O =>
          if HasPrefix s sep
          then EmptyString :: Split_from sep s' (String.length sep - 1)
          else match Split_from sep s' 0 with
               | h :: t => String c h :: t
               | [] => [String c EmptyString]
               end
      end
  end.

Definition Split (s sep : string) : list string := Split_from sep s 0.

Definition TrimPrefix (s p : string) : string :=
  if HasPrefix s p then slice_from s (len p) else s.

Definition TrimSuffix (s suffix : string) : string :=
  if HasSuffix s suffix then slice s 0 (len s - len suffix) else s.

(** [strings.ToLower] restricted to ASCII: bytes outside [A-Z] are kept. *)
Definition lower_byte (c : ascii) : ascii :=
  let n := N_of_ascii c in
  if ((65 <=? n) && (n <=? 90))%N then ascii_of_N (n + 32) else c.

Fixpoint ToLowerASCII (s : string) : string :=
  match s with
  | EmptyString => EmptyString
  | String c s' => String (lower_byte c) (ToLowerASCII s')
  end.

Definition is_slash (c : ascii) : bool := Ascii.eqb c "/"%char.

(** [filepath.Ext]: the suffix from the last dot of the last element. *)
Fixpoint Ext (path : string) : string :=
  match path with
  | EmptyString => EmptyString
  | String c rest =>
      match Ext rest with
      | EmptyString =>
          if Contains rest "/" then EmptyString
          else if Ascii.eqb c "."%char then path else EmptyString
      | e => e
      end
  end.

Fixpoint strip_trailing_slashes (s : string) : string :=
  match s with
  | EmptyString => EmptyString
  | String c r =>
      match strip_trailing_slashes r with
      | EmptyString => if is_slash c then EmptyString else String c EmptyString
      | r' => String c r'
      end
  end.

Fixpoint last_element (s : string) : string :=
  match s with
  | EmptyString => EmptyString
  | String c r =>
      if Contains r "/" then last_element r
      else if is_slash c then r else s
  end.

(** [filepath.Base] (Unix separators, no volume names). *)
Definition Base (path : string) : string :=
  match path with
  | EmptyString => "."
  | _ =>
      match last_element (strip_trailing_slashes path) with
      | EmptyString => "/"
      | e => e
      end
  end.

(** [strings.ReplaceAll s "\\" "/"] *)
Fixpoint backslashes_to_slashes (s : string) : string :=
  match s with
  | EmptyString => EmptyString
  | String c r =>
      String (if Ascii.eqb c "\"%char then "/"%char else c) (backslashes_to_slashes r)
  end.

Fixpoint trim_leading_slashes (s : string) : string :=
  match s with
  | EmptyString => EmptyString
  | String c r => if is_slash c then trim_leading_slashes r else s
  end.

(** [strings.Trim s "/"] *)
Definition Trim_slashes (s : string) : string :=
  strip_trailing_slashes (trim_leading_slashes s).

(** [strconv.Itoa], [fmt.Sprintf "%d"] *)
Definition Itoa (z : Z) : string := pretty z.

Definition digit_of (c : ascii) : option Z :=
  let n := N_of_ascii c in
  if ((48 <=? n) && (n <=? 57))%N then Some (Z.of_N n - 48) else None.

Fixpoint parse_digits (s : string) (acc : Z) : option Z :=
  match s with
  | EmptyString => Some acc
  | String c s' =>
      match digit_of c with
      | Some d => parse_digits s' (acc * 10 + d)
      | None => None
      end
  end.

Definition int64_min : Z := - 2 ^ 63.
Definition int64_max : Z := 2 ^ 63 - 1.

Definition in_int64 (z : Z) : bool := (int64_min <=? z) && (z <=? int64_max).

(** Two's complement reduction to the [int64] range. *)
Definition wrap64 (z : Z) : Z := (z + 2 ^ 63) mod 2 ^ 64 - 2 ^ 63.

(** [strconv.ParseInt s 10 64]: an optional sign, then one or more decimal
    digits; [None] stands for a syntax or a range error. *)
Definition ParseInt (s : string) : option Z :=
  let digits_of (neg : bool) (d : string) :=
    match d with
    | EmptyString => None
    | _ => match parse_digits d 0 with
           | Some v => let v' := if neg then - v else v in
                       if in_int64 v' then Some v' else None
           | None => None
           end
    end in
  match s with
  | String "+"%char d => digits_of false d
  | String "-"%char d => digits_of true d
  | _ => digits_of false s
  end.

(** [strconv.Atoi] on a 64-bit platform. *)
Definition Atoi (s : string) : option Z := ParseInt s.

(** The conversion [float64(n)] of a size [0 <= n < 2^63], rounded to
    nearest even as Go does. *)
Definition float64 (n : Z) : float := PrimFloat.of_uint63 (Uint63.of_Z n).

End Go.

Import Go.

(** ** Files outside [.dgit] *)

Module OS.

(** A file of the user's working tree: what reads and [os.Stat] return. *)
Record File : Type := {
  data : bytes;
  modtime : Z  (** [ModTime()], as Unix seconds *)
}.

(** The files outside [.dgit], by absolute path; an absent path can be
    neither opened nor stat'ed. *)
Abbreviation World := (gmap string File).

Definition LF : string := String "010"%char EmptyString.

End OS.

Import OS.

(** ** The libraries DGit links against *)

(** A decoded JSON document ([map[string]interface{}] and what it nests). *)
#[local] Unset Elimination Schemes.
Inductive JSON : Type :=
| JNull
| JBool (b : bool)
| JNum (n : Z)
| JStr (s : string)
| JArr (items : list JSON)
| JObj (fields : list (string * JSON)).
#[local] Set Elimination Schemes.

(** Each codec is a pair of total functions on whole byte sequences: what a
    streaming writer has emitted once it is closed, and what [io.ReadAll] of
    the matching reader returns ([None] when the reader reports an error). *)
Class External : Type := {
  (** [hex.EncodeToString] of a SHA-256 digest *)
  sha256_hex : bytes -> string;
  (** [strings.ToLower] (Unicode aware) *)
  ToLower : string -> string;
  (** [filepath.Clean] *)
  filepath_Clean : string -> string;
  (** [github.com/pierrec/lz4/v4]: frame writer at [Level1], frame reader *)
  lz4_compress : bytes -> bytes;
  lz4_decompress : bytes -> option bytes;
  (** [github.com/klauspost/compress/zstd] *)
  zstd_compress : bytes -> bytes;
  zstd_decompress : bytes -> option bytes;
  (** [github.com/kr/binarydist]: [Diff old new] and [Patch old patch] *)
  bsdiff : bytes -> bytes -> bytes;
  bspatch : bytes -> bytes -> option bytes;
  (** [archive/zip]: an archive as its entries, name and content, in order *)
  zip_write : list (string * bytes) -> bytes;
  zip_read : bytes -> option (list (string * bytes));
  (** [encoding/json]: [MarshalIndent] and [Unmarshal] *)
  json_MarshalIndent : JSON -> bytes;
  json_Unmarshal : bytes -> option JSON;
  (** [time.Time.Format "2006-01-02T15:04:05"] and [Format time.RFC3339] *)
  time_format : Z -> string;
  time_rfc3339 : Z -> string;
  (** [time.Now()], also the modification time of a file created now *)
  time_now : Z;
  (** [scanner.ScanFile]: whether the metadata scan of a file succeeds *)
  scan_succeeds : World -> string -> bool;
  (** the [author] entry of the repository configuration, when present *)
  config_author : option string
}.

(** The round-trip laws of the codecs. *)
Class ExternalLaws (E : External) : Prop := {
  lz4_roundtrip : forall b, lz4_decompress (lz4_compress b) = Some b;
  zstd_roundtrip : forall b, zstd_decompress (zstd_compress b) = Some b
}.

(** ** Package [staging] *)

Module Staging.

Definition SmallFileSize : Z := 50 * 1024 * 1024.
Definition MediumFileSize : Z := 200 * 1024 * 1024.
Definition LargeFileSize : Z := 500 * 1024 * 1024.
Definition HashSampleSize : Z := 64 * 1024.

Record StagedFile : Type := {
  Path : string;
  AbsolutePath : string;
  FileType : string;
  Size : Z;
  ModTime : Z
}.

(** [file.Seek off; file.Read buf] with [len buf = n] on a regular file:
    the bytes from [off], at most [n] of them. *)
Definition read_at (content : bytes) (off n : Z) : bytes :=
  slice content off (Z.min (off + n) (len content)).

(** The bytes [generateFileHash] writes into the hasher, in order. *)
Definition generateFileHash_fed (path : string) (f : File) : bytes :=
  let size := len (data f) in
  let hasher :=
    "path:" +:+ path +:+ ":size:" +:+ Itoa size +:+
    ":modtime:" +:+ Itoa (modtime f) +:+ ":" in
  if size >? LargeFileSize then
    let hasher := hasher +:+ read_at (data f) 0 HashSampleSize in
    let hasher :=
      if size >? 128 * 1024
      then hasher +:+ read_at (data f) (size / 2) 4096
      else hasher in
    let hasher :=
      if size >? 128 * 1024
      then hasher +:+ read_at (data f) (size - HashSampleSize) HashSampleSize
      else hasher in
    hasher
  else if size >? 10 * 1024 * 1024 then
    let hasher := hasher +:+ read_at (data f) 0 (32 * 1024) in
    let hasher :=
      if size >? 64 * 1024
      then hasher +:+ read_at (data f) (size - 32 * 1024) (32 * 1024)
      else hasher in
    hasher
  else
    hasher +:+ data f.

Definition generateFileHash `{External} (w : World) (path : string)
  : result string :=
  match w !! path with
  | None => Err "failed to open file for hashing"
  | Some f => Ok (sha256_hex (generateFileHash_fed path f))
  end.

End Staging.

Import Staging.

(** ** Package [photoshop]: the PSD parser *)

Module Photoshop.

Record PSDInfo : Type := {
  Width : Z;
  Height : Z;
  Channels : Z;
  Bits : Z;
  LayerCount : Z;
  LayerNames : list string
}.

Record DetailedLayer : Type := {
  ID : Z;
  Name : string;
  Position : Z * Z * Z * Z;  (** top, left, bottom, right *)
  BlendMode : string;
  Opacity : Z;
  Visible : bool;
  ContentHash : string;
  LayerType : string
}.

(** *** Big-endian fields *)

Definition byte_val (c : ascii) : Z := Z.of_N (N_of_ascii c).

Fixpoint be_uint (s : bytes) (acc : Z) : Z :=
  match s with
  | EmptyString => acc
  | String c r => be_uint r (acc * 256 + byte_val c)
  end.

Definition be_unsigned (s : bytes) : Z := be_uint s 0.

Definition be_signed (s : bytes) : Z :=
  let u := be_unsigned s in
  let bits := 8 * len s in
  if u <? 2 ^ (bits - 1) then u else u - 2 ^ bits.

Fixpoint be_uint16s (s : bytes) : list Z :=
  match s with
  | String a (String b r) => (byte_val a * 256 + byte_val b) :: be_uint16s r
  | _ => []
  end.

(** *** [unicode/utf16.Decode] followed by [string(runes)] *)

Definition is_high_surrogate (u : Z) : bool := (0xD800 <=? u) && (u <? 0xDC00).
Definition is_low_surrogate (u : Z) : bool := (0xDC00 <=? u) && (u <? 0xE000).

Fixpoint utf16_Decode (s : list Z) : list Z :=
  match s with
  | [] => []
  | u :: rest =>
      if is_high_surrogate u then
        match rest with
        | u2 :: rest' =>
            if is_low_surrogate u2
            then ((u - 0xD800) * 1024 + (u2 - 0xDC00) + 0x10000) :: utf16_Decode rest'
            else 0xFFFD :: utf16_Decode rest
        | [] => [0xFFFD]
        end
      else if is_low_surrogate u then 0xFFFD :: utf16_Decode rest
      else u :: utf16_Decode rest
  end.

Definition chr (z : Z) : ascii := ascii_of_N (Z.to_N z).

Definition utf8_encode (r : Z) : string :=
  if r <? 0x80 then String (chr r) EmptyString
  else if r <? 0x800 then
    String (chr (0xC0 + r / 64)) (String (chr (0x80 + r mod 64)) EmptyString)
  else if r <? 0x10000 then
    String (chr (0xE0 + r / 4096))
      (String (chr (0x80 + (r / 64) mod 64))
         (String (chr (0x80 + r mod 64)) EmptyString))
  else
    String (chr (0xF0 + r / 262144))
      (String (chr (0x80 + (r / 4096) mod 64))
         (String (chr (0x80 + (r / 64) mod 64))
            (String (chr (0x80 + r mod 64)) EmptyString))).

Definition string_of_runes (rs : list Z) : string :=
  fold_right (fun r acc => utf8_encode r +:+ acc) EmptyString rs.

(** *** An open file: its content and the offset of the handle *)

Section Reader.

Variable content : bytes.

(** A computation on the handle: a value or an error, and the offset
    the handle is left at (also after an error). *)
Definition Reader (A : Type) : Type := Z -> result A * Z.

Definition ret {A} (a : A) : Reader A := fun pos => (Ok a, pos).

Definition fail {A} (msg : string) : Reader A := fun pos => (Err msg, pos).

Definition bind {A B} (m : Reader A) (k : A -> Reader B) : Reader B :=
  fun pos =>
    match m pos with
    | (Ok a, pos') => k a pos'
    | (Err e, pos') => (Err e, pos')
    end.

(** Run [m] and hand its outcome to the caller instead of failing. *)
Definition try {A} (m : Reader A) : Reader (result A) :=
  fun pos => let '(r, pos') := m pos in (Ok r, pos').

(** [file.Seek(0, io.SeekCurrent)] *)
Definition tell : Reader Z := fun pos => (Ok pos, pos).

(** [file.Seek(off, io.SeekCurrent)]: past the end is allowed, before
    the start is an error. *)
Definition Seek_current (off : Z) : Reader Z :=
  fun pos => if pos + off <? 0 then (Err "seek: invalid argument", pos)
             else (Ok (pos + off), pos + off).

(** [file.Seek(off, io.SeekStart)] *)
Definition Seek_start (off : Z) : Reader Z :=
  fun pos => if off <? 0 then (Err "seek: invalid argument", pos)
             else (Ok off, off).

(** [binary.Read] of a fixed-size value of [n] bytes ([io.ReadFull]):
    all [n] bytes or an error; a short read leaves the handle at the end
    of the file. *)
Definition binary_Read (n : Z) : Reader bytes :=
  fun pos =>
    if pos + n <=? len content then (Ok (slice content pos (pos + n)), pos + n)
    else (Err "unexpected EOF", Z.max pos (len content)).

Definition read_u32 : Reader Z :=
  bind (binary_Read 4) (fun b => ret (be_unsigned b)).

Definition zeros (n : Z) : bytes :=
  string_of_list_ascii (repeat Ascii.zero (Z.to_nat n)).

(** [file.Read(buf)] into a fresh zeroed buffer of [n >= 1] bytes: an
    error only at the end of the file, otherwise what is there. *)
Definition file_Read (n : Z) : Reader bytes :=
  fun pos =>
    if len content <=? pos then (Err "EOF", pos)
    else
      let got := slice content pos (Z.min (pos + n) (len content)) in
      (Ok (got +:+ zeros (n - len got)), pos + len got).

End Reader.

Declare Scope reader_scope.
Delimit Scope reader_scope with reader.
Notation "'do' x <- m ; k" := (bind m (fun x => k))
  (at level 10, x name, m at level 100, k at level 200) : reader_scope.
Notation "'run' m ; k" := (bind m (fun _ => k))
  (at level 10, m at level 100, k at level 200) : reader_scope.
Local Open Scope reader_scope.

(** *** Layer names *)

Definition findUnicodeLayerName_step (content : bytes) (startPos maxBytes : Z)
    (continue : Reader string) : Reader string :=
  do currentPos <- tell ;
  if currentPos - startPos >=? maxBytes - 8 then fail "break" else
  do signature <- binary_Read content 4 ;
  if negb (String.eqb signature "8BIM") && negb (String.eqb signature "8B64") then
    run Seek_current (-3) ; continue
  else
    do key <- binary_Read content 4 ;
    do dataLength <- read_u32 content ;
    let skip : Reader string :=
      run Seek_current dataLength ;
      run (if dataLength mod 2 =? 0 then ret 0 else Seek_current 1) ;
      continue in
    if String.eqb key "luni" then
      do unicodeLength <- read_u32 content ;
      if (0 <? unicodeLength) && (unicodeLength <? 1000) then
        do utf16Data <- binary_Read content (2 * unicodeLength) ;
        ret (string_of_runes (utf16_Decode (be_uint16s utf16Data)))
      else skip
    else skip.

Fixpoint findUnicodeLayerName_loop (content : bytes) (startPos maxBytes : Z)
    (fuel : nat) : Reader string :=
  match fuel with
  | O => fail "break"
  | S fuel' =>
      findUnicodeLayerName_step content startPos maxBytes
        (findUnicodeLayerName_loop content startPos maxBytes fuel')
  end.

(** Every iteration of the search loop moves the handle forward and stops
    at the end of the file, so [length content + 1] iterations are enough.
    The deferred [Seek] puts the handle at the end of the searched range
    on every return. *)
Definition findUnicodeLayerName (content : bytes) (maxBytes : Z) : Reader string :=
  do startPos <- tell ;
  do found <- try (findUnicodeLayerName_loop content startPos maxBytes
                     (S (String.length content))) ;
  run Seek_start (startPos + maxBytes) ;
  match found with
  | Ok name => ret name
  | Err _ => fail "unicode layer name not found"
  end.

Definition extractLayerNameFromExtraData (content : bytes) (extraDataLength : Z)
  : Reader string :=
  do startPos <- tell ;
  do layerMaskLength <- read_u32 content ;
  run Seek_current layerMaskLength ;
  do blendingRangesLength <- read_u32 content ;
  run Seek_current blendingRangesLength ;
  do nameLengthByte <- binary_Read content 1 ;
  let nameLength := be_unsigned nameLengthByte in
  if nameLength =? 0 then ret "Unnamed Layer" else
  do nameBytes <- file_Read content nameLength ;
  let paddingNeeded := (4 - ((1 + nameLength) mod 4)) mod 4 in
  run (if 0 <? paddingNeeded then Seek_current paddingNeeded else ret 0) ;
  do currentPos <- tell ;
  let remainingBytes := extraDataLength - (currentPos - startPos) in
  if 0 <? remainingBytes then
    do unicode <- try (findUnicodeLayerName content remainingBytes) ;
    match unicode with
    | Ok unicodeName =>
        if negb (String.eqb unicodeName EmptyString) then ret unicodeName
        else ret nameBytes
    | Err _ => ret nameBytes
    end
  else ret nameBytes.

Definition default_layer_name (i : Z) : string := "Layer " +:+ Itoa (i + 1).

(** The fixed part of a layer record, up to the extra-data length. *)
Record layerRecordHead : Type := {
  Top : Z; Left : Z; Bottom : Z; Right : Z;
  RecChannels : Z;
  blendModeKey : string;
  layerFlags : bytes;
  extraDataLength : Z
}.

Definition read_layer_head (content : bytes) : Reader layerRecordHead :=
  do layerRec <- binary_Read content 18 ;
  let channels := be_unsigned (slice layerRec 16 18) in
  run Seek_current (channels * 6) ;
  do blendModeSignature <- binary_Read content 4 ;
  do key <- binary_Read content 4 ;
  do flags <- binary_Read content 4 ;
  do extra <- read_u32 content ;
  ret {| Top := be_signed (slice layerRec 0 4);
         Left := be_signed (slice layerRec 4 8);
         Bottom := be_signed (slice layerRec 8 12);
         Right := be_signed (slice layerRec 12 16);
         RecChannels := channels;
         blendModeKey := key;
         layerFlags := flags;
         extraDataLength := extra |}.

Fixpoint parseLayerNames_from (content : bytes) (i : Z) (remaining : nat)
  : Reader (list string) :=
  match remaining with
  | O => ret []
  | S remaining' =>
      do head <- read_layer_head content ;
      do name <-
        (if extraDataLength head =? 0 then ret (default_layer_name i)
         else
           do extracted <- try (extractLayerNameFromExtraData content (extraDataLength head)) ;
           match extracted with
           | Ok layerName => ret layerName
           | Err _ => run Seek_current (extraDataLength head) ; ret (default_layer_name i)
           end) ;
      do rest <- parseLayerNames_from content (i + 1) remaining' ;
      ret (name :: rest)
  end.

Definition parseLayerNames (content : bytes) (layerCount : Z) : Reader (list string) :=
  parseLayerNames_from content 0 (Z.to_nat layerCount).

Fixpoint default_names (i : Z) (n : nat) : list string :=
  match n with
  | O => []
  | S n' => default_layer_name i :: default_names (i + 1) n'
  end.

Definition GetPSDInfo_read (content : bytes) : Reader PSDInfo :=
  do header <- binary_Read content 26 ;
  let Signature := slice header 0 4 in
  let Version := be_unsigned (slice header 4 6) in
  let info (count : Z) (names : list string) :=
    {| Width := be_unsigned (slice header 18 22);
       Height := be_unsigned (slice header 14 18);
       Channels := be_unsigned (slice header 12 14);
       Bits := be_unsigned (slice header 22 24);
       LayerCount := count;
       LayerNames := names |} in
  if negb (String.eqb Signature "8BPS") then fail "invalid PSD file signature" else
  if negb (Version =? 1) && negb (Version =? 2) then fail "unsupported PSD file version" else
  do colorModeDataLength <- read_u32 content ;
  run Seek_current colorModeDataLength ;
  do imageResourcesLength <- read_u32 content ;
  run Seek_current imageResourcesLength ;
  do layerAndMaskInfoLength <- read_u32 content ;
  if layerAndMaskInfoLength =? 0 then ret (info 0 []) else
  do layerInfoLength <- read_u32 content ;
  do layerCountRaw <- binary_Read content 2 ;
  let layerCount := Z.abs (be_signed layerCountRaw) in
  do parsed <- try (parseLayerNames content layerCount) ;
  match parsed with
  | Ok layerNames => ret (info layerCount layerNames)
  | Err _ => ret (info layerCount (default_names 0 (Z.to_nat layerCount)))
  end.

Definition GetPSDInfo (w : World) (filePath : string) : result PSDInfo :=
  match w !! filePath with
  | None => Err "failed to open PSD file"
  | Some f => fst (GetPSDInfo_read (data f) 0)
  end.

(** *** Detailed layers *)

Definition blendModes : list (string * string) :=
  [ ("norm", "normal"); ("dark", "darken"); ("lite", "lighten");
    ("hue ", "hue"); ("sat ", "saturation"); ("colr", "color");
    ("lum ", "luminosity"); ("mul ", "multiply"); ("scrn", "screen");
    ("over", "overlay"); ("sLit", "soft light"); ("hLit", "hard light");
    ("diff", "difference"); ("smud", "exclusion") ].

Fixpoint assoc (k : string) (l : list (string * string)) : option string :=
  match l with
  | [] => None
  | (k', v) :: l' => if String.eqb k k' then Some v else assoc k l'
  end.

Definition mapBlendMode (blendModeKey : string) : string :=
  match assoc blendModeKey blendModes with
  | Some readable => readable
  | None => "normal"
  end.

Definition determineLayerType `{External} (layerName blendMode : string) : string :=
  let layerNameLower := ToLower layerName in
  if Contains layerNameLower "text" || Contains layerNameLower "txt" then "text"
  else if Contains layerNameLower "adjustment" || Contains layerNameLower "adj"
  then "adjustment"
  else if String.eqb layerNameLower "background" || Contains layerNameLower "bg"
  then "background"
  else if negb (String.eqb blendMode "normal") then "effect"
  else "normal".

(** [filePath] is stat'ed for its modification time; [None] when the stat
    fails. *)
Definition generateLayerContentHash `{External} (mtime : option Z)
    (filePath : string) (layerIndex : Z) (layerName : string) : string :=
  let fed := filePath +:+ ":" +:+ Itoa layerIndex +:+ ":" +:+ layerName +:+
             match mtime with
             | Some t => time_format t
             | None => EmptyString
             end in
  slice (sha256_hex fed) 0 16.

Definition skipToLayerInfo (content : bytes) : Reader Z :=
  run Seek_start 26 ;
  do colorModeDataLength <- read_u32 content ;
  run Seek_current colorModeDataLength ;
  do imageResourcesLength <- read_u32 content ;
  run Seek_current imageResourcesLength ;
  do layerAndMaskInfoLength <- read_u32 content ;
  do layerInfoLength <- read_u32 content ;
  Seek_current 2.

Definition testbit_byte (c : ascii) (mask : Z) : bool :=
  negb (Z.land (byte_val c) mask =? 0).

Definition parseIndividualLayer `{External} (content : bytes) (mtime : option Z)
    (layerIndex : Z) (filePath : string) : Reader DetailedLayer :=
  do head <- read_layer_head content ;
  let opacity := be_unsigned (slice (layerFlags head) 0 1) in
  let visible :=
    match String.get 2 (layerFlags head) with
    | Some b => negb (testbit_byte b 2)
    | None => true
    end in
  let blendMode := blendModeKey head in
  let readableBlendMode := mapBlendMode blendMode in
  do layerName <-
    (if 0 <? extraDataLength head then
       do startPos <- tell ;
       do extracted <- try (extractLayerNameFromExtraData content (extraDataLength head)) ;
       match extracted with
       | Ok extractedName =>
           if negb (String.eqb extractedName EmptyString) then ret extractedName
           else run Seek_start (startPos + extraDataLength head) ;
                ret (default_layer_name layerIndex)
       | Err _ => run Seek_start (startPos + extraDataLength head) ;
                  ret (default_layer_name layerIndex)
       end
     else ret (default_layer_name layerIndex)) ;
  let contentHash := generateLayerContentHash mtime filePath layerIndex layerName in
  let layerType := determineLayerType layerName blendMode in
  ret {| ID := layerIndex;
         Name := layerName;
         Position := (Top head, Left head, Bottom head, Right head);
         BlendMode := readableBlendMode;
         Opacity := opacity;
         Visible := visible;
         ContentHash := contentHash;
         LayerType := layerType |}.

Definition placeholder_layer `{External} (mtime : option Z) (filePath : string)
    (i : Z) : DetailedLayer :=
  {| ID := i;
     Name := default_layer_name i;
     Position := (0, 0, 100, 100);
     BlendMode := "normal";
     Opacity := 255;
     Visible := true;
     ContentHash := generateLayerContentHash mtime filePath i "unknown";
     LayerType := "normal" |}.

Fixpoint parseDetailedLayers_from `{External} (content : bytes) (mtime : option Z)
    (filePath : string) (i : Z) (remaining : nat) : Reader (list DetailedLayer) :=
  match remaining with
  | O => ret []
  | S remaining' =>
      do parsed <- try (parseIndividualLayer content mtime i filePath) ;
      let layer :=
        match parsed with
        | Ok l => l
        | Err _ => placeholder_layer mtime filePath i
        end in
      do rest <- parseDetailedLayers_from content mtime filePath (i + 1) remaining' ;
      ret (layer :: rest)
  end.

Definition parseDetailedLayers `{External} (content : bytes) (mtime : option Z)
    (layerCount : Z) (filePath : string) : Reader (list DetailedLayer) :=
  if layerCount =? 0 then ret [] else
  run Seek_start 0 ;
  run skipToLayerInfo content ;
  parseDetailedLayers_from content mtime filePath 0 (Z.to_nat layerCount).

Fixpoint createBasicLayersFromNames_from `{External} (mtime : option Z)
    (filePath : string) (i : Z) (layerNames : list string) : list DetailedLayer :=
  match layerNames with
  | [] => []
  | name :: rest =>
      {| ID := i;
         Name := name;
         Position := (0, 0, 100, 100);
         BlendMode := "normal";
         Opacity := 255;
         Visible := true;
         ContentHash := generateLayerContentHash mtime filePath i name;
         LayerType := determineLayerType name "normal" |}
      :: createBasicLayersFromNames_from mtime filePath (i + 1) rest
  end.

Definition createBasicLayersFromNames `{External} (mtime : option Z)
    (layerNames : list string) (filePath : string) : list DetailedLayer :=
  createBasicLayersFromNames_from mtime filePath 0 layerNames.

(** [GetDetailedPSDInfo] of a file that holds [f]; only the layers of the
    result are used by the callers in package [commit]. *)
Definition GetDetailedPSDInfo_of `{External} (filePath : string) (f : File)
  : result (list DetailedLayer) :=
  match fst (GetPSDInfo_read (data f) 0) with
  | Err e => Err ("failed to get basic PSD info: " +:+ e)
  | Ok basicInfo =>
      match fst (parseDetailedLayers (data f) (Some (modtime f))
                   (LayerCount basicInfo) filePath 0) with
      | Ok layers => Ok layers
      | Err _ => Ok (createBasicLayersFromNames (Some (modtime f))
                       (LayerNames basicInfo) filePath)
      end
  end.

End Photoshop.


(** ** Package [log]: commit records and the [.dgit] directory *)

Module Log.

(** [CreatedAt], [CompressionTime] and [SpeedImprovement] are readings of the
    clock and are left out. *)
Record CompressionResult : Type := {
  Strategy : string;
  OutputFile : string;
  OriginalSize : Z;
  CompressedSize : Z;
  CompressionRatio : float;
  BaseVersion : Z;
  CacheLevel : string
}.

(** One entry of [Commit.Metadata]: the detailed scan of the file, or the
    basic record with [scan_error] when [ScanFile] failed. *)
Inductive FileMeta : Type :=
| MetaScanned (size : Z)
| MetaScanError (type : string) (size : Z).

Record Commit : Type := {
  Hash : string;
  Message : string;
  Author : string;
  FilesCount : Z;
  Version : Z;
  Metadata : gmap string FileMeta;
  ParentHash : string;
  SnapshotZip : string;
  CompressionInfo : option CompressionResult
}.

(** The directories of [.dgit] that hold artifacts. *)
Inductive Dir : Type := Versions | Cache | Objects | Deltas.

(** The [.dgit] directory: [versions/], [cache/], [objects/] (its files, not
    its subdirectory), [objects/deltas/], [commits/] and [HEAD]. *)
Record Repo : Type := {
  VersionsDir : gmap string bytes;
  CacheDir : gmap string bytes;
  ObjectsDir : gmap string bytes;
  DeltaDir : gmap string bytes;
  CommitsDir : gmap Z Commit;
  HeadFile : option string
}.

(** A repository as [dgit init] leaves it. *)
Definition NewRepo : Repo :=
  {| VersionsDir := ∅; CacheDir := ∅; ObjectsDir := ∅; DeltaDir := ∅;
     CommitsDir := ∅; HeadFile := None |}.

Definition dir_files (r : Repo) (d : Dir) : gmap string bytes :=
  match d with
  | Versions => VersionsDir r
  | Cache => CacheDir r
  | Objects => ObjectsDir r
  | Deltas => DeltaDir r
  end.

Definition update_dir (d : Dir) (f : gmap string bytes -> gmap string bytes)
    (r : Repo) : Repo :=
  {| VersionsDir := match d with Versions => f (VersionsDir r) | _ => VersionsDir r end;
     CacheDir := match d with Cache => f (CacheDir r) | _ => CacheDir r end;
     ObjectsDir := match d with Objects => f (ObjectsDir r) | _ => ObjectsDir r end;
     DeltaDir := match d with Deltas => f (DeltaDir r) | _ => DeltaDir r end;
     CommitsDir := CommitsDir r;
     HeadFile := HeadFile r |}.

(** A path inside [.dgit]: [filepath.Join dir name]. *)
Definition StoredPath : Type := Dir * string.

(** [os.Create] followed by the writes, or [os.WriteFile] *)
Definition write_file (p : StoredPath) (content : bytes) (r : Repo) : Repo :=
  update_dir (fst p) (insert (snd p) content) r.

(** [os.Remove], its error ignored *)
Definition remove_file (p : StoredPath) (r : Repo) : Repo :=
  update_dir (fst p) (delete (snd p)) r.

Definition read_file (r : Repo) (p : StoredPath) : option bytes :=
  dir_files r (fst p) !! snd p.

Definition fileExists (r : Repo) (p : StoredPath) : bool :=
  match read_file r p with Some _ => true | None => false end.

(** [LogManager.GetCommit]: load [commits/v<version>.json]. *)
Definition GetCommit (r : Repo) (version : Z) : result Commit :=
  match CommitsDir r !! version with
  | Some c => Ok c
  | None => Err "open commits/v<N>.json: no such file"
  end.

(** The artifact names of version [v]. *)
Definition lz4_name (v : Z) : string := "v" +:+ Itoa v +:+ ".lz4".
Definition zstd_name (v : Z) : string := "v" +:+ Itoa v +:+ "_optimized.zstd".
Definition zip_name (v : Z) : string := "v" +:+ Itoa v +:+ ".zip".
Definition bsdiff_name (v base : Z) : string :=
  "v" +:+ Itoa v +:+ "_from_v" +:+ Itoa base +:+ ".bsdiff".
Definition psd_smart_name (v base : Z) : string :=
  "v" +:+ Itoa v +:+ "_from_v" +:+ Itoa base +:+ ".psd_smart".

End Log.

Import Log.


(** ** Package [commit] *)

Module Commit.

Import Photoshop.

Definition SmallFileThreshold : Z := 50 * 1024 * 1024.
Definition MediumFileThreshold : Z := 200 * 1024 * 1024.
Definition LargeFileThreshold : Z := 500 * 1024 * 1024.

Record CommitManager : Type := {
  DgitDir : string;
  MaxDeltaChainLength : Z;
  enableBackgroundOpt : bool
}.

Definition NewCommitManager (dgitDir : string) : CommitManager :=
  {| DgitDir := dgitDir; MaxDeltaChainLength := 5; enableBackgroundOpt := true |}.

Record LayerChange : Type := {
  LayerID : Z;
  LayerName : string;
  ChangeType : string;
  OldHash : string;
  NewHash : string;
  PropertyChanges : list (string * JSON)
}.

Record ChangeAnalysis : Type := {
  TotalLayers : Z;
  ChangedLayers : list LayerChange;
  AddedLayers : list LayerChange;
  DeletedLayers : list LayerChange;
  UnchangedCount : Z;
  ChangesSummary : string
}.

Section WithExternal.

Context `{External}.

(** *** Strategy selection *)

Fixpoint shouldUseLZ4_files (files : list StagedFile) : bool :=
  match files with
  | [] => true
  | file :: rest =>
      if Size file >? SmallFileThreshold then false
      else
        let ext := ToLower (Ext (Path file)) in
        if String.eqb ext ".psd" || String.eqb ext ".ai" || String.eqb ext ".sketch"
        then false
        else shouldUseLZ4_files rest
  end.

Definition shouldUseLZ4 (files : list StagedFile) (version : Z) : bool :=
  if version =? 1 then true else shouldUseLZ4_files files.

Fixpoint selectDeltaAlgorithm (files : list StagedFile) : string :=
  match files with
  | [] => "bsdiff"
  | f :: rest =>
      if String.eqb (ToLower (Ext (Path f))) ".psd" then "psd_smart"
      else selectDeltaAlgorithm rest
  end.

(** [getDeltaChainLength]: the versions from [ver] down that have no legacy
    [objects/v<N>.zip]; the loop runs for [v = ver, ver - 1, ..., 1]. *)
Fixpoint getDeltaChainLength_loop (r : Repo) (v : Z) (iterations : nat) (count : Z) : Z :=
  match iterations with
  | O => count
  | S iterations' =>
      if fileExists r (Objects, zip_name v) then count
      else getDeltaChainLength_loop r (v - 1) iterations' (count + 1)
  end.

Definition getDeltaChainLength (r : Repo) (ver : Z) : Z :=
  getDeltaChainLength_loop r ver (Z.to_nat ver) 0.

Definition shouldCreateNewSnapshot (cm : CommitManager) (r : Repo) (ver : Z) : bool :=
  getDeltaChainLength r ver >=? MaxDeltaChainLength cm.

(** *** The LZ4 container *)

(** One record of the container: the header line, then the content. *)
Definition file_record (path : string) (fileContent : bytes) : bytes :=
  "FILE:" +:+ path +:+ ":" +:+ Itoa (len fileContent) +:+ LF +:+ fileContent.

(** One iteration of the loop of [compressWithLZ4]: what has been written
    through the LZ4 writer so far, and [originalSize]. *)
Definition compressWithLZ4_file (w : World) (acc : bytes * Z) (file : StagedFile)
  : bytes * Z :=
  match w !! AbsolutePath file with
  | None => acc  (* Warning: failed to open *)
  | Some f =>
      let fileContent := data f in
      let actualSize := len fileContent in
      (fst acc +:+ file_record (Path file) fileContent, snd acc + actualSize)
  end.

Definition compressWithLZ4 (w : World) (files : list StagedFile) (version : Z)
    (r : Repo) : result CompressionResult * Repo :=
  let versionPath := (Versions, lz4_name version) in
  let '(written, originalSize) :=
    fold_left (compressWithLZ4_file w) files (EmptyString, 0) in
  let r := write_file versionPath (lz4_compress written) r in
  let compressedSize := len (lz4_compress written) in
  if originalSize =? 0 then
    (Err "no data to compress", remove_file versionPath r)
  else
    let compressionRatio := (float64 compressedSize / float64 originalSize)%float in
    if (1.2 <? compressionRatio)%float then
      (Err "compression failed: file became larger", remove_file versionPath r)
    else if compressedSize =? 0 then
      (Err "compression failed: output file is empty", remove_file versionPath r)
    else
      (Ok {| Strategy := "lz4";
             OutputFile := lz4_name version;
             OriginalSize := originalSize;
             CompressedSize := compressedSize;
             CompressionRatio := compressionRatio;
             BaseVersion := 0;
             CacheLevel := "versions" |}, r).

Definition createTempLZ4File_file (w : World) (written : bytes) (file : StagedFile)
  : bytes :=
  match w !! AbsolutePath file with
  | None => written  (* Warning: failed to open *)
  | Some f => written +:+ file_record (Path file) (data f)
  end.

Definition createTempLZ4File (w : World) (files : list StagedFile)
    (outputPath : StoredPath) (r : Repo) : Repo :=
  write_file outputPath
    (lz4_compress (fold_left (createTempLZ4File_file w) files EmptyString)) r.

(** *** Stored versions *)

Definition findVersionInStorage (r : Repo) (version : Z) : option StoredPath :=
  if fileExists r (Versions, lz4_name version) then Some (Versions, lz4_name version)
  else if fileExists r (Cache, lz4_name version) then Some (Cache, lz4_name version)
  else if fileExists r (Cache, zstd_name version) then Some (Cache, zstd_name version)
  else if fileExists r (Objects, zip_name version) then Some (Objects, zip_name version)
  else None.

(** What reading the reader of [openStoredFile] to its end returns: the
    decompressed content for [.lz4] and [.zstd], the file itself otherwise;
    [None] when the decompression fails. *)
Definition openStoredFile_contents (path : StoredPath) (raw : bytes) : option bytes :=
  if HasSuffix (snd path) ".lz4" then lz4_decompress raw
  else if HasSuffix (snd path) ".zstd" then zstd_decompress raw
  else Some raw.

Fixpoint sum_sizes (files : list StagedFile) : Z :=
  match files with
  | [] => 0
  | f :: rest => Size f + sum_sizes rest
  end.

Definition calculateCompressionResult (strategy : string) (outputFile : StoredPath)
    (files : list StagedFile) (baseVersion : Z) (r : Repo)
  : result CompressionResult :=
  let originalSize := sum_sizes files in
  match read_file r outputFile with
  | None => Err "stat: no such file"
  | Some info =>
      let compressedSize := len info in
      Ok {| Strategy := strategy;
            OutputFile := snd outputFile;
            OriginalSize := originalSize;
            CompressedSize := compressedSize;
            CompressionRatio := (float64 compressedSize / float64 originalSize)%float;
            BaseVersion := baseVersion;
            CacheLevel := "cache" |}
  end.

(** *** The binary-patch delta *)

Definition createBsdiffDelta (w : World) (files : list StagedFile)
    (version baseVersion : Z) (r : Repo) : result CompressionResult * Repo :=
  let tempCurrent := (Cache, "temp_v" +:+ Itoa version +:+ ".lz4") in
  (* [defer os.Remove(tempCurrent)] runs on every return below *)
  let finish (out : result CompressionResult * Repo) :=
    (fst out, remove_file tempCurrent (snd out)) in
  let r := createTempLZ4File w files tempCurrent r in
  match findVersionInStorage r baseVersion with
  | None => finish (Err "base version not found", r)
  | Some basePath =>
      let deltaPath := (Cache, bsdiff_name version baseVersion) in
      match read_file r basePath, read_file r tempCurrent with
      | Some baseRaw, Some currentFile =>
          let r := write_file deltaPath EmptyString r in
          match openStoredFile_contents basePath baseRaw with
          | None => finish (Err "bsdiff delta failed", r)
          | Some baseFile =>
              let r := write_file deltaPath (bsdiff baseFile currentFile) r in
              finish (calculateCompressionResult "bsdiff" deltaPath files baseVersion r, r)
          end
      | _, _ => finish (Err "open: no such file", r)
      end
  end.

(** *** The PSD smart delta *)

Fixpoint find_psd (files : list StagedFile) : option StagedFile :=
  match files with
  | [] => None
  | f :: rest =>
      if String.eqb (ToLower (Ext (Path f))) ".psd" then Some f else find_psd rest
  end.

Definition extractPSDLayerInfo (psdPath : string) (f : option File)
  : result (list DetailedLayer) :=
  match f with
  | None => Err "failed to parse PSD file"
  | Some f =>
      match GetDetailedPSDInfo_of psdPath f with
      | Ok layers => Ok layers
      | Err e => Err ("failed to parse PSD file: " +:+ e)
      end
  end.

(** The loop of [extractStructuredStreamToPSD] over what is left of the
    buffered reader.  The outcome is the content written to the output file
    (if it was created) and the error, if any. *)
Fixpoint extractStructuredStreamToPSD_loop (rest : bytes) (originalFilePath : string)
    (fuel : nat) : option bytes * result unit :=
  let targetFileName := Base originalFilePath in
  let not_found := (None, Err "target file not found in structured stream") in
  match fuel with
  | O => not_found
  | S fuel' =>
      let i := Index rest LF in
      if i <? 0 then not_found  (* [ReadString] reports [io.EOF] *)
      else
        let headerLine := slice rest 0 i in
        let rest := slice_from rest (i + 1) in
        let continue := extractStructuredStreamToPSD_loop rest originalFilePath fuel' in
        if negb (HasPrefix headerLine "FILE:") then continue
        else
          match Split headerLine ":" with
          | [_; filePath; sizeField] =>
              match ParseInt sizeField with
              | None => continue
              | Some fileSize =>
                  if fileSize <=? 0 then continue
                  else if String.eqb (Base filePath) targetFileName
                          || String.eqb filePath originalFilePath then
                    if fileSize <=? len rest
                    then (Some (slice rest 0 fileSize), Ok tt)
                    else (Some rest, Err "failed to extract file content")
                  else if fileSize <=? len rest
                  then extractStructuredStreamToPSD_loop (slice_from rest fileSize)
                         originalFilePath fuel'
                  else (None, Err "failed to skip file content")
              end
          | _ => continue
          end
  end.

(** Every iteration consumes at least the line terminator. *)
Definition extractStructuredStreamToPSD (streamData : bytes) (originalFilePath : string)
  : option bytes * result unit :=
  extractStructuredStreamToPSD_loop streamData originalFilePath
    (S (String.length streamData)).

(** [extractStreamToPSD] on the decompressed stream ([None]: the reader
    failed). *)
Definition extractStreamToPSD (stream : option bytes) (originalFilePath : string)
  : option bytes * result unit :=
  match stream with
  | None => (None, Err "failed to read stream chunk")
  | Some streamData =>
      let firstChunkStr := slice streamData 0 (Z.min 4096 (len streamData)) in
      if Contains firstChunkStr "FILE:"
      then extractStructuredStreamToPSD streamData originalFilePath
      else (Some streamData, Ok tt)
  end.

Fixpoint find_zip_entry (entries : list (string * bytes)) (originalFilePath : string)
  : option bytes :=
  match entries with
  | [] => None
  | (name, content) :: rest =>
      if String.eqb (Base name) (Base originalFilePath) || String.eqb name originalFilePath
      then Some content
      else find_zip_entry rest originalFilePath
  end.

Definition extractCachedFileToPSD (cachedPath : StoredPath) (raw : bytes)
    (originalFilePath : string) : option bytes * result unit :=
  if HasSuffix (snd cachedPath) ".lz4" then
    extractStreamToPSD (lz4_decompress raw) originalFilePath
  else if HasSuffix (snd cachedPath) ".zstd" then
    extractStreamToPSD (zstd_decompress raw) originalFilePath
  else if HasSuffix (snd cachedPath) ".zip" then
    match zip_read raw with
    | None => (None, Err "failed to open ZIP file")
    | Some entries =>
        match find_zip_entry entries originalFilePath with
        | Some content => (Some content, Ok tt)
        | None => (None, Err "target file not found in ZIP archive")
        end
    end
  else (None, Err "unsupported cache file format").

Definition temp_psd_name (baseVersion : Z) : string :=
  "temp/temp_v" +:+ Itoa baseVersion +:+ ".psd".

Definition extractPreviousVersionLayers (cm : CommitManager) (baseVersion : Z)
    (filePath : string) (r : Repo) : result (list DetailedLayer) * Repo :=
  match findVersionInStorage r baseVersion with
  | None => (Err "previous version not found in storage", r)
  | Some basePath =>
      let tempPSDPath := (Cache, temp_psd_name baseVersion) in
      let tempPSDName := DgitDir cm +:+ "/cache/" +:+ temp_psd_name baseVersion in
      match read_file r basePath with
      | None => (Err "open: no such file", remove_file tempPSDPath r)
      | Some raw =>
          let '(output, err) := extractCachedFileToPSD basePath raw filePath in
          let r := match output with
                   | Some content => write_file tempPSDPath content r
                   | None => r
                   end in
          (* [defer os.Remove(tempPSDPath)] *)
          let r' := remove_file tempPSDPath r in
          match err with
          | Err e => (Err ("failed to extract cached file: " +:+ e), r')
          | Ok _ =>
              let tempFile :=
                match read_file r tempPSDPath with
                | Some content => Some {| data := content; modtime := time_now |}
                | None => None
                end in
              match extractPSDLayerInfo tempPSDName tempFile with
              | Ok previousLayers => (Ok previousLayers, r')
              | Err e => (Err ("failed to parse previous PSD layers: " +:+ e), r')
              end
          end
      end
  end.

(** The last layer of the list with the given name: the entry a Go map
    filled in list order holds for that key. *)
Definition layer_named (name : string) (layers : list DetailedLayer)
  : option DetailedLayer :=
  fold_left (fun found layer => if String.eqb (Name layer) name then Some layer else found)
    layers None.

Definition json_position (p : Z * Z * Z * Z) : JSON :=
  let '(t, l, b, r) := p in JArr [JNum t; JNum l; JNum b; JNum r].

Definition property_change (old new : JSON) : JSON :=
  JObj [("old", old); ("new", new)].

Definition detectPropertyChanges (oldLayer newLayer : DetailedLayer)
  : list (string * JSON) :=
  (if Opacity oldLayer =? Opacity newLayer then []
   else [("opacity", property_change (JNum (Opacity oldLayer)) (JNum (Opacity newLayer)))])
  ++ (if Bool.eqb (Visible oldLayer) (Visible newLayer) then []
      else [("visibility",
             property_change (JBool (Visible oldLayer)) (JBool (Visible newLayer)))])
  ++ (if String.eqb (BlendMode oldLayer) (BlendMode newLayer) then []
      else [("blend_mode",
             property_change (JStr (BlendMode oldLayer)) (JStr (BlendMode newLayer)))])
  ++ (if bool_decide (Position oldLayer = Position newLayer) then []
      else [("position",
             property_change (json_position (Position oldLayer))
               (json_position (Position newLayer)))]).

Definition count_of {A} (l : list A) : Z := Z.of_nat (length l).

Definition generateChangesSummary (changed added deleted : list LayerChange) : string :=
  let totalChanges := count_of changed + count_of added + count_of deleted in
  if totalChanges =? 0 then "No layer changes detected"
  else
    Itoa totalChanges +:+ " layer(s) changed"
    +:+ (if 0 <? count_of added then ", " +:+ Itoa (count_of added) +:+ " added"
         else EmptyString)
    +:+ (if 0 <? count_of deleted then ", " +:+ Itoa (count_of deleted) +:+ " deleted"
         else EmptyString)
    +:+ (if 0 <? count_of changed then ", " +:+ Itoa (count_of changed) +:+ " modified"
         else EmptyString).

Definition compareLayerVersions (oldLayers newLayers : list DetailedLayer)
  : ChangeAnalysis :=
  let added :=
    omap (fun newLayer =>
            match layer_named (Name newLayer) oldLayers with
            | None => Some {| LayerID := ID newLayer; LayerName := Name newLayer;
                              ChangeType := "added"; OldHash := EmptyString;
                              NewHash := ContentHash newLayer;
                              PropertyChanges := [] |}
            | Some _ => None
            end) newLayers in
  let deleted :=
    omap (fun oldLayer =>
            match layer_named (Name oldLayer) newLayers with
            | None => Some {| LayerID := ID oldLayer; LayerName := Name oldLayer;
                              ChangeType := "deleted"; OldHash := ContentHash oldLayer;
                              NewHash := EmptyString;
                              PropertyChanges := [] |}
            | Some _ => None
            end) oldLayers in
  let changed :=
    omap (fun newLayer =>
            match layer_named (Name newLayer) oldLayers with
            | Some oldLayer =>
                if String.eqb (ContentHash oldLayer) (ContentHash newLayer) then None
                else Some {| LayerID := ID newLayer; LayerName := Name newLayer;
                             ChangeType := "modified";
                             OldHash := ContentHash oldLayer;
                             NewHash := ContentHash newLayer;
                             PropertyChanges := detectPropertyChanges oldLayer newLayer |}
            | None => None
            end) newLayers in
  {| TotalLayers := count_of newLayers;
     ChangedLayers := changed;
     AddedLayers := added;
     DeletedLayers := deleted;
     UnchangedCount := count_of newLayers - count_of changed - count_of added;
     ChangesSummary := generateChangesSummary changed added deleted |}.

Definition json_omit_empty (key value : string) : list (string * JSON) :=
  if String.eqb value EmptyString then [] else [(key, JStr value)].

Definition json_of_change (c : LayerChange) : JSON :=
  JObj ([("layer_id", JNum (LayerID c)); ("layer_name", JStr (LayerName c));
         ("change_type", JStr (ChangeType c))]
        ++ json_omit_empty "old_hash" (OldHash c)
        ++ json_omit_empty "new_hash" (NewHash c)
        ++ match PropertyChanges c with
           | [] => []
           | changes => [("property_changes", JObj changes)]
           end).

Definition json_of_analysis (a : ChangeAnalysis) : JSON :=
  JObj [("total_layers", JNum (TotalLayers a));
        ("changed_layers", JArr (map json_of_change (ChangedLayers a)));
        ("added_layers", JArr (map json_of_change (AddedLayers a)));
        ("deleted_layers", JArr (map json_of_change (DeletedLayers a)));
        ("unchanged_count", JNum (UnchangedCount a));
        ("changes_summary", JStr (ChangesSummary a))].

Definition smart_delta_header : string := "PSD_SMART_DELTA_V1".
Definition binaryDataMarker : string := LF +:+ "BINARY_DATA:" +:+ LF.

(** [createSmartDeltaFile]: the size of the file written, or the error of
    reading the staged PSD (the file then holds the part before the payload). *)
Definition createSmartDeltaFile (w : World) (deltaPath : StoredPath)
    (psdFile : StagedFile) (analysis : ChangeAnalysis) (baseVersion version : Z)
    (r : Repo) : result Z * Repo :=
  let deltaMetadata :=
    JObj [("type", JStr "psd_smart_delta");
          ("from_version", JNum baseVersion);
          ("to_version", JNum version);
          ("file_path", JStr (Path psdFile));
          ("original_size", JNum (Size psdFile));
          ("timestamp", JStr (time_rfc3339 time_now));
          ("layer_analysis", json_of_analysis analysis)] in
  let metadataBytes := json_MarshalIndent deltaMetadata in
  let head :=
    smart_delta_header +:+ LF +:+
    "METADATA_LENGTH:" +:+ Itoa (len metadataBytes) +:+ LF +:+
    metadataBytes +:+ binaryDataMarker in
  match w !! AbsolutePath psdFile with
  | None => (Err "open: no such file", write_file deltaPath head r)
  | Some f =>
      let content := head +:+ lz4_compress (data f) in
      (Ok (len content), write_file deltaPath content r)
  end.

Definition fallbackToBinaryDelta := createBsdiffDelta.

Definition createPSDSmartDelta (cm : CommitManager) (w : World)
    (files : list StagedFile) (version baseVersion : Z) (r : Repo)
  : result CompressionResult * Repo :=
  match find_psd files with
  | None => (Err "no PSD file found", r)
  | Some psdFile =>
      match extractPSDLayerInfo (AbsolutePath psdFile) (w !! AbsolutePath psdFile) with
      | Err _ => fallbackToBinaryDelta w files version baseVersion r
      | Ok currentLayers =>
          match extractPreviousVersionLayers cm baseVersion (Path psdFile) r with
          | (Err _, r) => fallbackToBinaryDelta w files version baseVersion r
          | (Ok previousLayers, r) =>
              let changeAnalysis := compareLayerVersions previousLayers currentLayers in
              let deltaPath := (Cache, psd_smart_name version baseVersion) in
              match createSmartDeltaFile w deltaPath psdFile changeAnalysis
                      baseVersion version r with
              | (Err e, r) => (Err ("failed to create smart delta file: " +:+ e), r)
              | (Ok deltaSize, r) =>
                  (Ok {| Strategy := "psd_smart";
                         OutputFile := psd_smart_name version baseVersion;
                         OriginalSize := Size psdFile;
                         CompressedSize := deltaSize;
                         CompressionRatio :=
                           (float64 deltaSize / float64 (Size psdFile))%float;
                         BaseVersion := baseVersion;
                         CacheLevel := "cache" |}, r)
              end
          end
      end
  end.

(** *** Snapshots and commits *)

Definition createDelta (cm : CommitManager) (w : World) (files : list StagedFile)
    (version baseVersion : Z) (r : Repo) : result CompressionResult * Repo :=
  let algorithm := selectDeltaAlgorithm files in
  if String.eqb algorithm "psd_smart" then
    createPSDSmartDelta cm w files version baseVersion r
  else if String.eqb algorithm "bsdiff" then
    createBsdiffDelta w files version baseVersion r
  else (Err "no suitable delta algorithm", r).

Definition createSnapshot (cm : CommitManager) (w : World) (files : list StagedFile)
    (version prevVersion : Z) (r : Repo) : result CompressionResult * Repo :=
  if shouldUseLZ4 files version then compressWithLZ4 w files version r
  else if (version >? 1) && negb (shouldCreateNewSnapshot cm r prevVersion) then
    match createDelta cm w files version prevVersion r with
    | (Ok deltaResult, r) =>
        if (CompressionRatio deltaResult <=? 0.7)%float then (Ok deltaResult, r)
        else
          (* clean up the inefficient delta and fall back to LZ4 *)
          let r := remove_file (Deltas, OutputFile deltaResult) r in
          compressWithLZ4 w files version r
    | (Err _, r) => compressWithLZ4 w files version r
    end
  else compressWithLZ4 w files version r.

(** [GetCurrentVersion]: the largest [N] with a [commits/v<N>.json]. *)
Definition GetCurrentVersion (r : Repo) : Z :=
  map_fold (fun n _ maxVersion => if n >? maxVersion then n else maxVersion)
    0 (CommitsDir r).

Definition generateCommitHash (msg : string) (files : list StagedFile) (ver : Z)
  : string :=
  let fed :=
    msg +:+ Itoa ver +:+ time_rfc3339 time_now +:+
    fold_right (fun f acc =>
                  AbsolutePath f +:+ Itoa (Size f) +:+ time_rfc3339 (ModTime f) +:+ acc)
      EmptyString files in
  slice (sha256_hex fed) 0 12.

Definition getAuthor : string :=
  match config_author with
  | Some a => a
  | None => "DGit User"
  end.

Definition getCurrentCommitHash (r : Repo) : string :=
  match HeadFile r with
  | Some d => d
  | None => EmptyString
  end.

Fixpoint scanFilesMetadata (w : World) (files : list StagedFile)
    (md : gmap string FileMeta) : gmap string FileMeta :=
  match files with
  | [] => md
  | f :: rest =>
      let entry :=
        if scan_succeeds w (AbsolutePath f) then MetaScanned (Size f)
        else MetaScanError (FileType f) (Size f) in
      scanFilesMetadata w rest (<[Path f := entry]> md)
  end.

Definition saveCommitMetadata (c : Commit) (r : Repo) : Repo :=
  {| VersionsDir := VersionsDir r; CacheDir := CacheDir r;
     ObjectsDir := ObjectsDir r; DeltaDir := DeltaDir r;
     CommitsDir := <[Version c := c]> (CommitsDir r);
     HeadFile := HeadFile r |}.

Definition updateHead (hash : string) (r : Repo) : Repo :=
  {| VersionsDir := VersionsDir r; CacheDir := CacheDir r;
     ObjectsDir := ObjectsDir r; DeltaDir := DeltaDir r;
     CommitsDir := CommitsDir r;
     HeadFile := Some hash |}.

Definition CreateCommit (cm : CommitManager) (w : World) (message : string)
    (stagedFiles : list StagedFile) (r : Repo) : result Commit * Repo :=
  match stagedFiles with
  | [] => (Err "no files staged for commit", r)
  | _ =>
      let currentVersion := GetCurrentVersion r in
      let newVersion := currentVersion + 1 in
      let hash := generateCommitHash message stagedFiles newVersion in
      let author := getAuthor in
      let meta := scanFilesMetadata w stagedFiles ∅ in
      match createSnapshot cm w stagedFiles newVersion currentVersion r with
      | (Err e, r) => (Err ("snapshot creation failed: " +:+ e), r)
      | (Ok compressionResult, r') =>
          let commit :=
            {| Hash := hash;
               Message := message;
               Author := author;
               FilesCount := count_of stagedFiles;
               Version := newVersion;
               Metadata := meta;
               ParentHash := getCurrentCommitHash r;
               SnapshotZip :=
                 if String.eqb (Strategy compressionResult) "zip"
                 then OutputFile compressionResult else EmptyString;
               CompressionInfo := Some compressionResult |} in
          (Ok commit, updateHead hash (saveCommitMetadata commit r'))
      end
  end.

(** [optimizeToCache], the body of the background task started after an
    LZ4 commit: re-encode [versions/<OutputFile>] as
    [cache/v<N>_optimized.zstd]. *)
Definition optimizeToCache (version : Z) (result : CompressionResult) (r : Repo) : Repo :=
  if negb (String.eqb (Strategy result) "lz4") then r
  else
    match read_file r (Versions, OutputFile result) with
    | None => r
    | Some versionFile =>
        let copied :=
          match lz4_decompress versionFile with
          | Some content => content
          | None => EmptyString
          end in
        write_file (Cache, zstd_name version) (zstd_compress copied) r
    end.

End WithExternal.

End Commit.


(** ** Package [restore] *)

Module Restore.

Record RestoreResult : Type := {
  RestoredFiles : list string;
  SkippedFiles : list string;
  ErrorFiles : gmap string string;
  RestoreMethod : string;
  TotalFilesCount : Z;
  SourceVersion : Z;
  SourceCommitHash : string;
  CacheHitLevel : string;
  DataTransferred : Z
}.

(** What a restore has done so far: the [RestoreResult] every stage mutates
    through the one pointer it shares, and the files written below the
    working directory, keyed by the entry path joined to it. *)
Record State : Type := {
  result_of : RestoreResult;
  written : gmap string bytes
}.

Record RestorationStep : Type := {
  Type_ : string;
  File_ : StoredPath;
  Version_ : Z
}.

Definition set_method (method level : string) (st : State) : State :=
  let res := result_of st in
  {| result_of :=
       {| RestoredFiles := RestoredFiles res; SkippedFiles := SkippedFiles res;
          ErrorFiles := ErrorFiles res; RestoreMethod := method;
          TotalFilesCount := TotalFilesCount res; SourceVersion := SourceVersion res;
          SourceCommitHash := SourceCommitHash res; CacheHitLevel := level;
          DataTransferred := DataTransferred res |};
     written := written st |}.

Definition set_transferred (n : Z) (st : State) : State :=
  let res := result_of st in
  {| result_of :=
       {| RestoredFiles := RestoredFiles res; SkippedFiles := SkippedFiles res;
          ErrorFiles := ErrorFiles res; RestoreMethod := RestoreMethod res;
          TotalFilesCount := TotalFilesCount res; SourceVersion := SourceVersion res;
          SourceCommitHash := SourceCommitHash res; CacheHitLevel := CacheHitLevel res;
          DataTransferred := n |};
     written := written st |}.

Definition set_total (n : Z) (st : State) : State :=
  let res := result_of st in
  {| result_of :=
       {| RestoredFiles := RestoredFiles res; SkippedFiles := SkippedFiles res;
          ErrorFiles := ErrorFiles res; RestoreMethod := RestoreMethod res;
          TotalFilesCount := n; SourceVersion := SourceVersion res;
          SourceCommitHash := SourceCommitHash res; CacheHitLevel := CacheHitLevel res;
          DataTransferred := DataTransferred res |};
     written := written st |}.

(** [result.SkippedFiles = append(result.SkippedFiles, name)] *)
Definition add_skipped (name : string) (st : State) : State :=
  let res := result_of st in
  {| result_of :=
       {| RestoredFiles := RestoredFiles res; SkippedFiles := SkippedFiles res ++ [name];
          ErrorFiles := ErrorFiles res; RestoreMethod := RestoreMethod res;
          TotalFilesCount := TotalFilesCount res; SourceVersion := SourceVersion res;
          SourceCommitHash := SourceCommitHash res; CacheHitLevel := CacheHitLevel res;
          DataTransferred := DataTransferred res |};
     written := written st |}.

(** [result.ErrorFiles[name] = err] *)
Definition add_error (name msg : string) (st : State) : State :=
  let res := result_of st in
  {| result_of :=
       {| RestoredFiles := RestoredFiles res; SkippedFiles := SkippedFiles res;
          ErrorFiles := <[name := msg]> (ErrorFiles res);
          RestoreMethod := RestoreMethod res;
          TotalFilesCount := TotalFilesCount res; SourceVersion := SourceVersion res;
          SourceCommitHash := SourceCommitHash res; CacheHitLevel := CacheHitLevel res;
          DataTransferred := DataTransferred res |};
     written := written st |}.

(** A file written below the working directory ([os.MkdirAll] and
    [os.WriteFile] succeed), and its path appended to [RestoredFiles]. *)
Definition add_restored (name : string) (content : bytes) (st : State) : State :=
  let res := result_of st in
  {| result_of :=
       {| RestoredFiles := RestoredFiles res ++ [name]; SkippedFiles := SkippedFiles res;
          ErrorFiles := ErrorFiles res; RestoreMethod := RestoreMethod res;
          TotalFilesCount := TotalFilesCount res; SourceVersion := SourceVersion res;
          SourceCommitHash := SourceCommitHash res; CacheHitLevel := CacheHitLevel res;
          DataTransferred := DataTransferred res |};
     written := <[name := content]> (written st) |}.

Definition counted_total (st : State) : Z :=
  let res := result_of st in
  Z.of_nat (length (RestoredFiles res)) + Z.of_nat (length (SkippedFiles res))
  + Z.of_nat (size (ErrorFiles res)).

Definition new_state (commit : Commit) : State :=
  {| result_of :=
       {| RestoredFiles := []; SkippedFiles := []; ErrorFiles := ∅;
          RestoreMethod := EmptyString; TotalFilesCount := 0;
          SourceVersion := Version commit; SourceCommitHash := Hash commit;
          CacheHitLevel := EmptyString; DataTransferred := 0 |};
     written := ∅ |}.

Section WithExternal.

Context `{External}.

(** [parseInt64]: digits only, accumulated in an [int64]. *)
Fixpoint parseInt64_from (s : string) (result : Z) : Z :=
  match s with
  | EmptyString => result
  | String c s' =>
      match digit_of c with
      | Some d => parseInt64_from s' (wrap64 (wrap64 (result * 10) + d))
      | None => 0
      end
  end.

Definition parseInt64 (s : string) : Z := parseInt64_from s 0.

Fixpoint shouldRestoreFile (filePathInZip : string) (normalizedTargets : list string)
  : bool :=
  match normalizedTargets with
  | [] => false
  | target :: rest =>
      if String.eqb filePathInZip target then true
      else if String.eqb (Base filePathInZip) (Base target) then true
      else if HasSuffix target "/" && HasPrefix filePathInZip target then true
      else if Contains filePathInZip (Trim_slashes target) then true
      else shouldRestoreFile filePathInZip rest
  end.

(** [len(filesToRestore)] *)
Definition count_of_targets (filesToRestore : list string) : Z :=
  Z.of_nat (length filesToRestore).

(** *** The structured stream *)

(** The loop of [extractFilesFromStream]; [pos] is its cursor. *)
Fixpoint extractFilesFromStream_loop (streamData : bytes) (filesToRestore : list string)
    (normalizedTargets : list string) (pos : Z) (fuel : nat) (st : State) : State :=
  match fuel with
  | O => st
  | S fuel' =>
      if negb (pos <? len streamData) then st
      else
        let headerEnd := Index (slice_from streamData pos) LF in
        if headerEnd =? -1 then st
        else
          let headerEnd := headerEnd + pos in
          let headerLine := slice streamData pos headerEnd in
          let continue_at (pos : Z) (st : State) :=
            extractFilesFromStream_loop streamData filesToRestore normalizedTargets
              pos fuel' st in
          if negb (HasPrefix headerLine "FILE:") then continue_at (headerEnd + 1) st
          else
            match Split headerLine ":" with
            | [_; filePath; sizeField] =>
                let fileSize := parseInt64 sizeField in
                if fileSize <=? 0 then continue_at (headerEnd + 1) st
                else if (0 <? count_of_targets filesToRestore)
                        && negb (shouldRestoreFile filePath normalizedTargets) then
                  continue_at (headerEnd + 1 + fileSize) (add_skipped filePath st)
                else
                  let fileDataStart := headerEnd + 1 in
                  let fileDataEnd := fileDataStart + fileSize in
                  if fileDataEnd >? len streamData then st
                  else
                    let fileData := slice streamData fileDataStart fileDataEnd in
                    continue_at fileDataEnd (add_restored filePath fileData st)
            | _ => continue_at (headerEnd + 1) st
            end
  end.

(** [extractFilesFromStream] on the decompressed stream.  The cursor grows
    in every iteration, so [length + 1] iterations are enough. *)
Definition extractFilesFromStream (streamData : bytes) (filesToRestore : list string)
    (st : State) : State :=
  let st := set_transferred (len streamData) st in
  let normalizedTargets :=
    map (fun target => filepath_Clean (backslashes_to_slashes target)) filesToRestore in
  let st :=
    extractFilesFromStream_loop streamData filesToRestore normalizedTargets 0
      (S (String.length streamData)) st in
  set_total (counted_total st) st.

(** The loop of [createFileFromStructuredData]: the content to write for
    [targetFileName], or the error. *)
Fixpoint createFileFromStructuredData_loop (streamData : bytes) (targetFileName : string)
    (pos : Z) (fuel : nat) : result bytes :=
  let not_found := Err "file not found in structured data" in
  match fuel with
  | O => not_found
  | S fuel' =>
      if negb (pos <? len streamData) then not_found
      else
        let headerEnd := Index (slice_from streamData pos) LF in
        if headerEnd =? -1 then not_found
        else
          let headerEnd := headerEnd + pos in
          let headerLine := slice streamData pos headerEnd in
          let continue_at (pos : Z) :=
            createFileFromStructuredData_loop streamData targetFileName pos fuel' in
          if negb (HasPrefix headerLine "FILE:") then continue_at (headerEnd + 1)
          else
            match Split headerLine ":" with
            | [_; fileName; sizeField] =>
                match ParseInt sizeField with
                | None => continue_at (headerEnd + 1)
                | Some fileSize =>
                    if fileSize <=? 0 then continue_at (headerEnd + 1)
                    else if String.eqb fileName targetFileName
                            || String.eqb (Base fileName) (Base targetFileName) then
                      let fileDataStart := headerEnd + 1 in
                      let fileDataEnd := fileDataStart + fileSize in
                      if fileDataEnd >? len streamData
                      then Err "file data exceeds available data"
                      else Ok (slice streamData fileDataStart fileDataEnd)
                    else continue_at (headerEnd + 1 + fileSize)
                end
            | _ => continue_at (headerEnd + 1)
            end
  end.

Definition createFileFromStructuredData (streamData : bytes) (targetFileName : string)
  : result bytes :=
  createFileFromStructuredData_loop streamData targetFileName 0
    (S (String.length streamData)).

(** [shouldRestore] as [extractFromLZ4] and [restoreFromSmartDelta] compute
    it: one call of [shouldRestoreFile] per requested target. *)
Definition requested (filesToRestore : list string) (fileName : string) : bool :=
  match filesToRestore with
  | [] => true
  | _ => existsb (fun target => shouldRestoreFile fileName [target]) filesToRestore
  end.

(** One iteration of the loop of [extractFromLZ4] over [commit.Metadata]. *)
Definition extractFromLZ4_file (decompressedData : bytes) (filesToRestore : list string)
    (fileName : string) (st : State) : State :=
  if negb (requested filesToRestore fileName) then add_skipped fileName st
  else
    match createFileFromStructuredData decompressedData fileName with
    | Err e => add_error fileName e st
    | Ok fileData => add_restored fileName fileData st
    end.

(** [extractFromLZ4]; the keys of [commit.Metadata] are visited in the order
    of [map_to_list] (Go leaves the order of a map range open). *)
Definition extractFromLZ4 (r : Repo) (lz4Path : StoredPath) (filesToRestore : list string)
    (st : State) : result unit * State :=
  let fileName := snd lz4Path in
  let versionStr := TrimSuffix (TrimPrefix fileName "v") ".lz4" in
  match Atoi versionStr with
  | None => (Err "failed to parse version from filename", st)
  | Some version =>
      match GetCommit r version with
      | Err e => (Err ("failed to load commit: " +:+ e), st)
      | Ok commit =>
          match read_file r lz4Path with
          | None => (Err "failed to open LZ4 file", st)
          | Some file =>
              match lz4_decompress file with
              | None => (Err "failed to decompress LZ4 data", st)
              | Some decompressedData =>
                  let st := set_transferred (len decompressedData) st in
                  let st :=
                    fold_left
                      (fun st entry =>
                         extractFromLZ4_file decompressedData filesToRestore (fst entry) st)
                      (map_to_list (Metadata commit)) st in
                  (Ok tt, set_total (counted_total st) st)
              end
          end
      end
  end.

Definition extractFromZstd (r : Repo) (zstdPath : StoredPath) (filesToRestore : list string)
    (st : State) : result unit * State :=
  match read_file r zstdPath with
  | None => (Err "failed to open Zstd file", st)
  | Some file =>
      match zstd_decompress file with
      | None => (Err "failed to read stream", st)
      | Some streamData => (Ok tt, extractFilesFromStream streamData filesToRestore st)
      end
  end.

(** [tryVersionRestore] and [tryCacheRestore] return the shared result or
    [nil]; here: whether they returned it, and the state they leave. *)
Definition tryVersionRestore (r : Repo) (commit : Commit) (filesToRestore : list string)
    (st : State) : bool * State :=
  match CompressionInfo commit with
  | None => (false, st)
  | Some info =>
      if negb (String.eqb (Strategy info) "lz4") then (false, st)
      else
        let versionPath := (Versions, OutputFile info) in
        if negb (fileExists r versionPath) then (false, st)
        else
          let st := set_method "versions" "versions" st in
          match extractFromLZ4 r versionPath filesToRestore st with
          | (Err _, st) => (false, st)
          | (Ok _, st) => (true, st)
          end
  end.

Definition tryCacheRestore (r : Repo) (commit : Commit) (filesToRestore : list string)
    (st : State) : bool * State :=
  let lz4Path := (Cache, lz4_name (Version commit)) in
  let zstdPath := (Cache, zstd_name (Version commit)) in
  if fileExists r lz4Path then
    let st := set_method "cache" "cache" st in
    match extractFromLZ4 r lz4Path filesToRestore st with
    | (Err _, st) => (false, st)
    | (Ok _, st) => (true, st)
    end
  else if fileExists r zstdPath then
    let st := set_method "cache" "cache" st in
    match extractFromZstd r zstdPath filesToRestore st with
    | (Err _, st) => (false, st)
    | (Ok _, st) => (true, st)
    end
  else (false, st).

(** *** Smart deltas *)

Fixpoint json_field (key : string) (fields : list (string * JSON)) : option JSON :=
  match fields with
  | [] => None
  | (k, v) :: rest => if String.eqb k key then Some v else json_field key rest
  end.

Definition restoreFromSmartDelta (r : Repo) (commit : Commit)
    (filesToRestore : list string) (st : State) : result unit * State :=
  match CompressionInfo commit with
  | None => (Err "no compression info in commit", st)
  | Some info =>
      let deltaPath :=
        if fileExists r (Cache, OutputFile info) then Some (Cache, OutputFile info)
        else if fileExists r (Versions, OutputFile info)
        then Some (Versions, OutputFile info)
        else None in
      match deltaPath with
      | None => (Err "smart delta file not found", st)
      | Some deltaPath =>
          match read_file r deltaPath with
          | None => (Err "failed to read delta file", st)
          | Some deltaData =>
              match Split deltaData LF with
              | line0 :: line1 :: _ :: _ =>
                  if negb (String.eqb line0 "PSD_SMART_DELTA_V1") then
                    (Err "invalid smart delta header", st)
                  else if negb (HasPrefix line1 "METADATA_LENGTH:") then
                    (Err "invalid metadata length line", st)
                  else
                    match Atoi (TrimPrefix line1 "METADATA_LENGTH:") with
                    | None => (Err "failed to parse metadata length", st)
                    | Some metadataLength =>
                        let metadataStartPos := len line0 + 1 + len line1 + 1 in
                        if metadataStartPos + metadataLength >? len deltaData then
                          (Err "invalid metadata length: exceeds file size", st)
                        else
                          let metadataBytes :=
                            slice deltaData metadataStartPos
                              (metadataStartPos + metadataLength) in
                          match json_Unmarshal metadataBytes with
                          | Some (JObj deltaMetadata) =>
                              match json_field "file_path" deltaMetadata with
                              | Some (JStr filePath) =>
                                  match json_field "from_version" deltaMetadata with
                                  | Some (JNum baseVersion) =>
                                      let binaryDataPos :=
                                        Index deltaData Commit.binaryDataMarker in
                                      if binaryDataPos =? -1 then
                                        (Err "binary data marker not found", st)
                                      else
                                        let binaryDataPos :=
                                          binaryDataPos + len Commit.binaryDataMarker in
                                        let compressedData :=
                                          slice_from deltaData binaryDataPos in
                                        match lz4_decompress compressedData with
                                        | None => (Err "failed to decompress LZ4 data", st)
                                        | Some decompressedData =>
                                            if negb (requested filesToRestore filePath)
                                            then (Ok tt, add_skipped filePath st)
                                            else
                                              let st :=
                                                add_restored filePath decompressedData st in
                                              let st := set_total 1 st in
                                              (Ok tt,
                                               set_transferred (len decompressedData) st)
                                        end
                                  | _ => (Err "missing from_version in metadata", st)
                                  end
                              | _ => (Err "missing file_path in metadata", st)
                              end
                          | _ => (Err "failed to parse delta metadata", st)
                          end
                    end
              | _ => (Err "invalid smart delta format: too few lines", st)
              end
          end
      end
  end.

(** *** Delta chains *)

Definition step (type : string) (file : StoredPath) (version : Z) : RestorationStep :=
  {| Type_ := type; File_ := file; Version_ := version |}.

(** The loop of [findOptimizedRestorationPath]; [path] is the path built so
    far, [iterations] bounds the walk from [currentVersion] down to 1. *)
Fixpoint findOptimizedRestorationPath_loop (r : Repo) (currentVersion : Z)
    (path : list RestorationStep) (iterations : nat) : result (list RestorationStep) :=
  match iterations with
  | O => Ok path
  | S iterations' =>
      let versionPath := (Versions, lz4_name currentVersion) in
      let cachePath := (Cache, lz4_name currentVersion) in
      let optimizedPath := (Cache, zstd_name currentVersion) in
      let zipPath := (Objects, zip_name currentVersion) in
      let deltaPath := (Deltas, bsdiff_name currentVersion (currentVersion - 1)) in
      let smartDeltaPath := (Cache, psd_smart_name currentVersion (currentVersion - 1)) in
      if fileExists r versionPath then Ok (step "lz4" versionPath currentVersion :: path)
      else if fileExists r cachePath then Ok (step "lz4" cachePath currentVersion :: path)
      else if fileExists r optimizedPath
      then Ok (step "zstd" optimizedPath currentVersion :: path)
      else if fileExists r zipPath then Ok (step "zip" zipPath currentVersion :: path)
      else if fileExists r deltaPath then
        findOptimizedRestorationPath_loop r (currentVersion - 1)
          (step "bsdiff" deltaPath currentVersion :: path) iterations'
      else if fileExists r smartDeltaPath then
        findOptimizedRestorationPath_loop r (currentVersion - 1)
          (step "smart_delta" smartDeltaPath currentVersion :: path) iterations'
      else Err "missing restoration data for version"
  end.

Definition findOptimizedRestorationPath (r : Repo) (targetVersion : Z)
  : result (list RestorationStep) :=
  match findOptimizedRestorationPath_loop r targetVersion [] (Z.to_nat targetVersion) with
  | Ok [] => Err "no restoration path found for version"
  | other => other
  end.

(** The loop of [convertStreamToZip]: the entries created, in order. *)
Fixpoint convertStreamToZip_loop (streamData : bytes) (pos : Z) (fuel : nat)
  : list (string * bytes) :=
  match fuel with
  | O => []
  | S fuel' =>
      if negb (pos <? len streamData) then []
      else
        let headerEnd := Index (slice_from streamData pos) LF in
        if headerEnd =? -1 then []
        else
          let headerEnd := headerEnd + pos in
          let headerLine := slice streamData pos headerEnd in
          let continue_at (pos : Z) := convertStreamToZip_loop streamData pos fuel' in
          if negb (HasPrefix headerLine "FILE:") then continue_at (headerEnd + 1)
          else
            match Split headerLine ":" with
            | [_; filePath; sizeField] =>
                let fileSize := parseInt64 sizeField in
                if fileSize <=? 0 then continue_at (headerEnd + 1)
                else
                  let fileDataStart := headerEnd + 1 in
                  let fileDataEnd := fileDataStart + fileSize in
                  if fileDataEnd >? len streamData then []
                  else (filePath, slice streamData fileDataStart fileDataEnd)
                       :: continue_at fileDataEnd
            | _ => continue_at (headerEnd + 1)
            end
  end.

Definition convertStreamToZip (streamData : bytes) : bytes :=
  zip_write (convertStreamToZip_loop streamData 0 (S (String.length streamData))).

(** [applySmartDelta]: the content of the new working file. *)
Definition applySmartDelta (baseFile deltaData : bytes) : result bytes :=
  if negb (HasPrefix deltaData "PSD_SMART_DELTA_V1") then Ok baseFile
  else
    match Split deltaData LF with
    | _ :: line1 :: _ :: _ =>
        if negb (HasPrefix line1 "METADATA_LENGTH:") then Err "invalid metadata length line"
        else
          match Atoi (TrimPrefix line1 "METADATA_LENGTH:") with
          | None => Err "failed to parse metadata length"
          | Some _ =>
              let binaryDataPos := Index deltaData Commit.binaryDataMarker in
              if binaryDataPos =? -1 then Err "binary data marker not found"
              else
                match lz4_decompress
                        (slice_from deltaData
                           (binaryDataPos + len Commit.binaryDataMarker)) with
                | None => Err "failed to decompress LZ4 data"
                | Some decompressedData => Ok decompressedData
                end
          end
    | _ => Err "invalid smart delta format"
    end.

(** The loop of [executeOptimizedRestorationPath] over the steps after the
    base; [tempFile] is the content of the current working file. *)
Fixpoint apply_steps (r : Repo) (steps : list RestorationStep) (tempFile : bytes)
  : result bytes :=
  match steps with
  | [] => Ok tempFile
  | s :: rest =>
      if String.eqb (Type_ s) "bsdiff" then
        match read_file r (File_ s) with
        | None => Err "failed to open patch file"
        | Some patch =>
            match bspatch tempFile patch with
            | None => Err "binarydist patch failed"
            | Some next => apply_steps r rest next
            end
        end
      else if String.eqb (Type_ s) "smart_delta" then
        match read_file r (File_ s) with
        | None => Err "failed to read delta file"
        | Some deltaData =>
            match applySmartDelta tempFile deltaData with
            | Err e => Err e
            | Ok next => apply_steps r rest next
            end
        end
      else if String.eqb (Type_ s) "xdelta3"
      then Err "xdelta3 restoration not yet implemented"
      else Err "unknown restoration step type"
  end.

Definition executeOptimizedRestorationPath (r : Repo) (path : list RestorationStep)
  : result bytes :=
  match path with
  | [] => Err "index out of range"
  | baseStep :: steps =>
      match read_file r (File_ baseStep) with
      | None => Err "open: no such file"
      | Some raw =>
          let base :=
            if String.eqb (Type_ baseStep) "lz4" then
              match lz4_decompress raw with
              | Some streamData => Ok (convertStreamToZip streamData)
              | None => Err "lz4: invalid frame"
              end
            else if String.eqb (Type_ baseStep) "zstd" then
              match zstd_decompress raw with
              | Some streamData => Ok (convertStreamToZip streamData)
              | None => Err "zstd: invalid frame"
              end
            else if String.eqb (Type_ baseStep) "zip" then Ok raw
            else Err "unsupported base file type" in
          match base with
          | Err e => Err e
          | Ok tempFile => apply_steps r steps tempFile
          end
      end
  end.

(** The loop of [extractFilesFromZip] over the entries of the archive. *)
Fixpoint extractFilesFromZip_entries (entries : list (string * bytes))
    (filesToRestore normalizedTargets : list string) (st : State) : State :=
  match entries with
  | [] => st
  | (name, content) :: rest =>
      let filePathInZip := backslashes_to_slashes name in
      let st :=
        if (0 <? count_of_targets filesToRestore)
           && negb (shouldRestoreFile filePathInZip normalizedTargets)
        then add_skipped filePathInZip st
        else if HasSuffix name "/" then st  (* a directory *)
        else add_restored filePathInZip content st in
      extractFilesFromZip_entries rest filesToRestore normalizedTargets st
  end.

Definition extractFilesFromZip (zipFile : bytes) (filesToRestore : list string)
    (st : State) : result unit * State :=
  match zip_read zipFile with
  | None => (Err "failed to open ZIP file", st)
  | Some entries =>
      let normalizedTargets :=
        map (fun target => filepath_Clean (backslashes_to_slashes target))
          filesToRestore in
      let st := extractFilesFromZip_entries entries filesToRestore normalizedTargets st in
      (Ok tt, set_total (Z.of_nat (length entries)) st)
  end.

Definition restoreFromZip (r : Repo) (zipFileName : string) (filesToRestore : list string)
    (st : State) : result unit * State :=
  match read_file r (Objects, zipFileName) with
  | None => (Err "ZIP file not found", st)
  | Some zipFile => extractFilesFromZip zipFile filesToRestore st
  end.

Definition restoreFromOptimizedDeltaChain (r : Repo) (targetVersion : Z)
    (filesToRestore : list string) (st : State) : result unit * State :=
  match findOptimizedRestorationPath r targetVersion with
  | Err e => (Err e, st)
  | Ok restorationPath =>
      match executeOptimizedRestorationPath r restorationPath with
      | Err e => (Err e, st)
      | Ok tempFile => extractFilesFromZip tempFile filesToRestore st
      end
  end.

(** *** The entry points *)

Definition performFastRestore (r : Repo) (commit : Commit) (filesToRestore : list string)
    (version : Z) : result unit * State :=
  let st := new_state commit in
  match tryVersionRestore r commit filesToRestore st with
  | (true, st) => (Ok tt, st)
  | (false, st) =>
      match tryCacheRestore r commit filesToRestore st with
      | (true, st) => (Ok tt, st)
      | (false, st) =>
          let legacy (st : State) :=
            if negb (String.eqb (SnapshotZip commit) EmptyString) then
              restoreFromZip r (SnapshotZip commit) filesToRestore
                (set_method "zip" "miss" st)
            else (Err "no restoration method available for version", st) in
          match CompressionInfo commit with
          | None => legacy st
          | Some info =>
              let strategy := Strategy info in
              if String.eqb strategy "psd_smart"
                 || String.eqb strategy "design_smart_delta" then
                restoreFromSmartDelta r commit filesToRestore
                  (set_method "smart_delta" "smart" st)
              else if String.eqb strategy "bsdiff" || String.eqb strategy "xdelta3" then
                restoreFromOptimizedDeltaChain r version filesToRestore
                  (set_method "delta_chain" "miss" st)
              else if String.eqb strategy "zip" then
                restoreFromZip r (OutputFile info) filesToRestore
                  (set_method "zip" "miss" st)
              else legacy st
          end
      end
  end.

Definition parseCommitReference (commitRef : string) : result Z :=
  let plain :=
    match Atoi commitRef with
    | Some v => Ok v
    | None => Err "invalid commit reference"
    end in
  if HasPrefix commitRef "v" then
    match Atoi (TrimPrefix commitRef "v") with
    | Some v => Ok v
    | None => plain
    end
  else plain.

(** [RestoreFilesFromCommit]: the error, if any, and what was restored. *)
Definition RestoreFilesFromCommit (r : Repo) (commitHashOrVersion : string)
    (filesToRestore : list string) : result State :=
  match parseCommitReference commitHashOrVersion with
  | Err e => Err e
  | Ok version =>
      match GetCommit r version with
      | Err e => Err ("failed to load commit data: " +:+ e)
      | Ok commit =>
          match performFastRestore r commit filesToRestore version with
          | (Err e, _) => Err e
          | (Ok _, st) => Ok st
          end
      end
  end.

End WithExternal.

End Restore.

(** ** A concrete instance of the libraries

    Small lossless codecs that stand for the real ones when the pipeline is
    run on concrete inputs: a trailing run of zero bytes is stored as its
    length, an archive and a JSON document as length-prefixed fields. *)

Module Standin.

Fixpoint bits_of_positive (p : positive) : string :=
  match p with
  | xH => "1:"
  | xO q => String "0" (bits_of_positive q)
  | xI q => String "1" (bits_of_positive q)
  end.

Definition bits_of_nat (n : nat) : string :=
  match N.of_nat n with
  | N0 => ":"
  | Npos p => bits_of_positive p
  end.

(** The number at the head of [s], and what follows its terminator. *)
Fixpoint parse_bits (s : string) : option (N * string) :=
  match s with
  | String ":" rest => Some (N0, rest)
  | String "1" (String ":" rest) => Some (Npos xH, rest)
  | String "0" r =>
      match parse_bits r with
      | Some (Npos q, rest) => Some (Npos (xO q), rest)
      | _ => None
      end
  | String "1" r =>
      match parse_bits r with
      | Some (Npos q, rest) => Some (Npos (xI q), rest)
      | _ => None
      end
  | _ => None
  end.

(** [s] without its trailing zero bytes, and how many there were. *)
Fixpoint split_trailing_zeros (s : string) : string * nat :=
  match s with
  | EmptyString => (EmptyString, O)
  | String c r =>
      match split_trailing_zeros r with
      | (EmptyString, n) =>
          if Ascii.eqb c Ascii.zero then (EmptyString, S n)
          else (String c EmptyString, n)
      | (body, n) => (String c body, n)
      end
  end.

Fixpoint zero_bytes (n : nat) : string :=
  match n with
  | O => EmptyString
  | S n' => String Ascii.zero (zero_bytes n')
  end.

Definition compress (tag : string) (b : bytes) : bytes :=
  let '(body, n) := split_trailing_zeros b in
  tag +:+ bits_of_nat n +:+ body.

Definition decompress (tag : string) (b : bytes) : option bytes :=
  if HasPrefix b tag then
    match parse_bits (slice_from b (len tag)) with
    | Some (n, body) => Some (body +:+ zero_bytes (N.to_nat n))
    | None => None
    end
  else None.

(** A field: its length, a colon, its bytes. *)
Definition field (s : string) : string := Itoa (len s) +:+ ":" +:+ s.

(** The first field of [s] and what follows it. *)
Definition parse_field (s : string) : option (string * string) :=
  let i := Index s ":" in
  if i <? 0 then None
  else
    match Atoi (slice s 0 i) with
    | Some n =>
        if (0 <=? n) && (i + 1 + n <=? len s)
        then Some (slice s (i + 1) (i + 1 + n), slice_from s (i + 1 + n))
        else None
    | None => None
    end.

Definition archive (entries : list (string * bytes)) : bytes :=
  "PK" +:+ fold_right (fun e acc => field (fst e) +:+ field (snd e) +:+ acc)
             EmptyString entries.

Fixpoint archive_entries (s : string) (fuel : nat) : option (list (string * bytes)) :=
  match fuel with
  | O => None
  | S fuel' =>
      match s with
      | EmptyString => Some []
      | _ =>
          match parse_field s with
          | Some (name, rest) =>
              match parse_field rest with
              | Some (content, rest') =>
                  match archive_entries rest' fuel' with
                  | Some es => Some ((name, content) :: es)
                  | None => None
                  end
              | None => None
              end
          | None => None
          end
      end
  end.

Definition unarchive (b : bytes) : option (list (string * bytes)) :=
  if HasPrefix b "PK" then archive_entries (slice_from b 2) (S (String.length b)) else None.

Fixpoint json_write (j : JSON) : string :=
  match j with
  | JNull => "n"
  | JBool true => "t"
  | JBool false => "f"
  | JNum n => "#" +:+ field (Itoa n)
  | JStr s => "$" +:+ field s
  | JArr items =>
      "[" +:+ fold_right (fun item acc => json_write item +:+ acc) "]" items
  | JObj fields =>
      "{" +:+ fold_right (fun kv acc => field (fst kv) +:+ json_write (snd kv) +:+ acc)
                "}" fields
  end.

(** The document at the head of [s] and what follows it.  [items] and
    [members] read the rest of an array and of an object. *)
Fixpoint json_read (fuel : nat) (s : string) : option (JSON * string) :=
  match fuel with
  | O => None
  | S fuel' =>
      let items :=
        fix items (n : nat) (s : string) : option (list JSON * string) :=
          match n with
          | O => None
          | S n' =>
              match s with
              | String "]" rest => Some ([], rest)
              | _ =>
                  match json_read fuel' s with
                  | Some (item, rest) =>
                      match items n' rest with
                      | Some (l, rest') => Some (item :: l, rest')
                      | None => None
                      end
                  | None => None
                  end
              end
          end in
      let members :=
        fix members (n : nat) (s : string) : option (list (string * JSON) * string) :=
          match n with
          | O => None
          | S n' =>
              match s with
              | String "}" rest => Some ([], rest)
              | _ =>
                  match parse_field s with
                  | Some (key, rest) =>
                      match json_read fuel' rest with
                      | Some (value, rest') =>
                          match members n' rest' with
                          | Some (l, rest'') => Some ((key, value) :: l, rest'')
                          | None => None
                          end
                      | None => None
                      end
                  | None => None
                  end
              end
          end in
      match s with
      | String "n" rest => Some (JNull, rest)
      | String "t" rest => Some (JBool true, rest)
      | String "f" rest => Some (JBool false, rest)
      | String "#" rest =>
          match parse_field rest with
          | Some (digits, rest') =>
              match Atoi digits with
              | Some n => Some (JNum n, rest')
              | None => None
              end
          | None => None
          end
      | String "$" rest =>
          match parse_field rest with
          | Some (str, rest') => Some (JStr str, rest')
          | None => None
          end
      | String "[" rest =>
          match items (S (String.length rest)) rest with
          | Some (l, rest') => Some (JArr l, rest')
          | None => None
          end
      | String "{" rest =>
          match members (S (String.length rest)) rest with
          | Some (l, rest') => Some (JObj l, rest')
          | None => None
          end
      | _ => None
      end
  end.

Definition json_parse (b : bytes) : option JSON :=
  match json_read (S (String.length b)) b with
  | Some (j, EmptyString) => Some j
  | _ => None
  end.

(** A 64-digit checksum in place of the SHA-256 digest. *)
Fixpoint checksum (s : string) (acc : Z) : Z :=
  match s with
  | EmptyString => acc
  | String c r => checksum r ((acc * 131 + Z.of_N (N_of_ascii c) + 1) mod 10 ^ 64)
  end.

Definition digest (b : bytes) : string :=
  let d := Itoa (checksum b 7) in
  string_of_list_ascii (repeat "0"%char (64 - String.length d)) +:+ d.

#[export] Instance libraries : External := {|
  sha256_hex := digest;
  ToLower := ToLowerASCII;
  filepath_Clean := fun path => path;
  lz4_compress := compress "LZ4";
  lz4_decompress := decompress "LZ4";
  zstd_compress := compress "ZSTD";
  zstd_decompress := decompress "ZSTD";
  bsdiff := fun old new => "BSDIFF40" +:+ new;
  bspatch := fun old patch =>
    if HasPrefix patch "BSDIFF40" then Some (slice_from patch 8) else None;
  zip_write := archive;
  zip_read := unarchive;
  json_MarshalIndent := json_write;
  json_Unmarshal := json_parse;
  time_format := Itoa;
  time_rfc3339 := Itoa;
  time_now := 1700000000;
  scan_succeeds := fun w path => match w !! path with Some _ => true | None => false end;
  config_author := None
|}.

End Standin.

(** ** Sample inputs

    A working directory under [/work] and small files, on which the
    pipeline is run with the libraries of [Standin]. *)

Module Samples.

Import Commit Restore Standin.

Definition bytes_of (l : list nat) : bytes := string_of_list_ascii (map ascii_of_nat l).

Definition u32be (n : nat) : bytes := bytes_of [0; 0; 0; n]%nat.

(** A staged file whose content is [content]. *)
Definition staged_file (path : string) (content : bytes) : StagedFile :=
  {| Path := path; AbsolutePath := "/work/" +:+ path; FileType := "design";
     Size := len content; ModTime := 5 |}.

Definition staged (l : list (string * bytes)) : list StagedFile :=
  map (fun pc => staged_file (fst pc) (snd pc)) l.

Definition world (l : list (string * bytes)) : World :=
  list_to_map
    (map (fun pc => ("/work/" +:+ fst pc, {| data := snd pc; modtime := 5 |})) l).

Definition cm : CommitManager := NewCommitManager "/work/.dgit".

Definition ten : bytes := "0123456789".

Definition seventy : bytes := ten +:+ ten +:+ ten +:+ ten +:+ ten +:+ ten +:+ ten.

(** One text file of 70 bytes: its container is 80 bytes, its artifact 84. *)
Definition notes_70 : list (string * bytes) := [("a", seventy)].

(** One text file of 10 bytes: its container is 20 bytes, its artifact 24. *)
Definition notes_10 : list (string * bytes) := [("a", ten)].

(** The 26-byte header of a PSD file: 3 channels, 8 bits. *)
Definition psd_header (width height : nat) : bytes :=
  "8BPS" +:+ bytes_of [0; 1; 0; 0; 0; 0; 0; 0; 0; 3]%nat
  +:+ u32be height +:+ u32be width +:+ bytes_of [0; 8; 0; 3]%nat.

(** A PSD file without layers, and its image data. *)
Definition psd_flat : bytes :=
  psd_header 10 10 +:+ u32be 0 +:+ u32be 0 +:+ u32be 0 +:+ zero_bytes 1000.

(** The record of a layer at (1, 2, 3, 4) without channels, blend mode key
    [norm], opacity 255, named [Layer A]. *)
Definition layer_record : bytes :=
  u32be 1 +:+ u32be 2 +:+ u32be 3 +:+ u32be 4 +:+ bytes_of [0; 0]%nat
  +:+ "8BIM" +:+ "norm" +:+ bytes_of [255; 0; 0; 0]%nat
  +:+ u32be 16 +:+ u32be 0 +:+ u32be 0 +:+ bytes_of [7]%nat +:+ "Layer A".

(** A PSD file with that one layer. *)
Definition psd_layered : bytes :=
  psd_header 200 100 +:+ u32be 0 +:+ u32be 0 +:+ u32be 60 +:+ u32be 56
  +:+ bytes_of [0; 1]%nat +:+ layer_record +:+ zero_bytes 1000.

(** A design with a PSD file and a logo, committed twice. *)
Definition design_1 : list (string * bytes) :=
  [("design.psd", psd_flat); ("logo.ai", "%PDF-1.5 logo one")].

Definition design_2 : list (string * bytes) :=
  [("design.psd", psd_layered); ("logo.ai", "%PDF-1.5 logo two")].

Definition design_commit_1 : result Commit * Repo :=
  CreateCommit cm (world design_1) "first" (staged design_1) NewRepo.

Definition design_commit_2 : result Commit * Repo :=
  CreateCommit cm (world design_2) "second" (staged design_2) (snd design_commit_1).

(** A logo alone, committed twice; the second content differs in a few
    bytes, or is content that does not compress. *)
Definition logo_1 : list (string * bytes) :=
  [("logo.ai", "%PDF-1.5 logo one" +:+ zero_bytes 200)].

Definition logo_2 : list (string * bytes) :=
  [("logo.ai", "%PDF-1.5 logo two" +:+ zero_bytes 200)].

Definition logo_2_dense : list (string * bytes) :=
  [("logo.ai", seventy +:+ seventy +:+ seventy)].

Definition logo_commit_1 : result Commit * Repo :=
  CreateCommit cm (world logo_1) "first" (staged logo_1) NewRepo.

Definition logo_commit_2 : result Commit * Repo :=
  CreateCommit cm (world logo_2) "second" (staged logo_2) (snd logo_commit_1).

Definition logo_commit_2_dense : result Commit * Repo :=
  CreateCommit cm (world logo_2_dense) "second" (staged logo_2_dense) (snd logo_commit_1).

(** Text files: an empty one, one with a colon in its name, a plain one. *)
Definition texts : list (string * bytes) :=
  [("empty.txt", EmptyString); ("a:b.txt", "colon");
   ("notes.txt", "hello" +:+ zero_bytes 200)].

Definition texts_commit : result Commit * Repo :=
  CreateCommit cm (world texts) "first" (staged texts) NewRepo.

(** The empty text file and the plain one. *)
Definition empty_and_notes : list (string * bytes) :=
  [("empty.txt", EmptyString); ("notes.txt", "hello" +:+ zero_bytes 200)].

(** The state a restore starts from. *)
Definition fresh : State :=
  new_state {| Hash := EmptyString; Message := EmptyString; Author := EmptyString;
               FilesCount := 0; Version := 1; Metadata := ∅;
               ParentHash := EmptyString; SnapshotZip := EmptyString;
               CompressionInfo := None |}.

(** A readable text file staged together with a file that is not there. *)
Definition gone : StagedFile := staged_file "gone.txt" "hello".

Definition notes_and_gone : list StagedFile := staged notes_70 ++ [gone].

(** The value of a result, for the runs above that succeed. *)
Definition the_result (x : result CompressionResult) : CompressionResult :=
  match x with
  | Ok res => res
  | Err _ =>
      {| Strategy := EmptyString; OutputFile := EmptyString; OriginalSize := 0;
         CompressedSize := 0; CompressionRatio := 0%float; BaseVersion := 0;
         CacheLevel := EmptyString |}
  end.

End Samples.

(** * Properties *)

(** ** Strings *)

Section StringFacts.

Lemma append_cons (x : ascii) (a b : string) : String x a +:+ b = String x (a +:+ b).
Proof. reflexivity. Qed.

Lemma append_nil_l (b : string) : EmptyString +:+ b = b.
Proof. reflexivity. Qed.

Lemma append_assoc (a b c : string) : (a +:+ b) +:+ c = a +:+ (b +:+ c).
Proof.
  induction a as [|x a IH]; [reflexivity |].
  rewrite !append_cons. f_equal. exact IH.
Qed.

Lemma append_nil_r (a : string) : a +:+ EmptyString = a.
Proof.
  induction a as [|x a IH]; [reflexivity |].
  rewrite append_cons. f_equal. exact IH.
Qed.

Lemma length_append (a b : string) :
  String.length (a +:+ b) = (String.length a + String.length b)%nat.
Proof.
  induction a as [|x a IH]; [reflexivity |].
  rewrite append_cons. simpl. f_equal. exact IH.
Qed.

Lemma len_append (a b : string) : len (a +:+ b) = len a + len b.
Proof. unfold len. rewrite length_append. lia. Qed.

Lemma len_nonneg (a : string) : 0 <= len a.
Proof. unfold len. lia. Qed.

Lemma len_String (c : ascii) (a : string) : len (String c a) = 1 + len a.
Proof. unfold len. simpl String.length. lia. Qed.

Lemma substring_length_le (s : string) (n m : nat) :
  (String.length (String.substring n m s) <= m)%nat.
Proof.
  revert n m. induction s as [|c s IH]; intros [|n] [|m]; simpl; try lia.
  - specialize (IH 0%nat m). lia.
  - apply IH.
  - apply IH.
Qed.

Lemma substring_all (s : string) : String.substring 0 (String.length s) s = s.
Proof. induction s as [|c s IH]; simpl; [reflexivity | f_equal; exact IH]. Qed.

Lemma substring_skip_append (a b : string) (m : nat) :
  String.substring (String.length a) m (a +:+ b) = String.substring 0 m b.
Proof.
  induction a as [|c a IH]; [reflexivity |].
  rewrite append_cons. simpl. exact IH.
Qed.

Lemma substring_prefix_append (a b : string) :
  String.substring 0 (String.length a) (a +:+ b) = a.
Proof.
  induction a as [|c a IH]; [now destruct b |].
  rewrite append_cons. simpl. f_equal. exact IH.
Qed.

End StringFacts.

(** ** Binary64 arithmetic on sizes

    The two thresholds of the commit pipeline compare a quotient of two
    sizes, computed in [float64], with a decimal literal.  The lemmas below
    follow the IEEE 754 computation (conversion of both sizes, division
    with rounding to nearest even, comparison with the rounded literal) and
    show which integer comparison it decides. *)

Module Binary64.

Import SpecFloat FloatOps FloatAxioms.

Lemma digits2_pos_size (p : positive) : digits2_pos p = Pos.size p.
Proof. induction p as [p IH | p IH |]; simpl; congruence. Qed.

Lemma digits2_bounds (p : positive) :
  2 ^ (Zpos (digits2_pos p) - 1) <= Zpos p < 2 ^ Zpos (digits2_pos p).
Proof.
  rewrite digits2_pos_size.
  pose proof (Pos.size_gt p) as Hgt. pose proof (Pos.size_le p) as Hle.
  apply Pos2Z.pos_lt_pos in Hgt. apply Pos2Z.pos_le_pos in Hle.
  rewrite Pos2Z.inj_pow in Hgt, Hle. change (Zpos p~0) with (2 * Zpos p) in Hle.
  replace (Zpos (Pos.size p)) with (Zpos (Pos.size p) - 1 + 1) in Hle at 1 by lia.
  rewrite Z.pow_add_r in Hle by lia. change (2 ^ 1) with 2 in Hle. lia.
Qed.

Lemma digits2_unique (p : positive) (d : Z) :
  2 ^ (d - 1) <= Zpos p < 2 ^ d -> Zpos (digits2_pos p) = d.
Proof.
  intros [Hlo Hhi]. pose proof (digits2_bounds p) as [Hlo' Hhi'].
  assert (0 < d).
  { destruct (Z.ltb_spec 0 d); [assumption |].
    exfalso. assert (2 ^ d <= 2 ^ 0) by (destruct d; simpl; try lia; apply Z.pow_le_mono_r; lia).
    simpl in *. lia. }
  destruct (Z.lt_trichotomy (Zpos (digits2_pos p)) d) as [Hlt | [Heq | Hgt]]; [| exact Heq |].
  - exfalso. assert (2 ^ Zpos (digits2_pos p) <= 2 ^ (d - 1)) by (apply Z.pow_le_mono_r; lia). lia.
  - exfalso. assert (2 ^ d <= 2 ^ (Zpos (digits2_pos p) - 1)) by (apply Z.pow_le_mono_r; lia). lia.
Qed.

Lemma iter_xO_mul (p k : positive) : Zpos (Pos.iter xO p k) = Zpos p * 2 ^ Zpos k.
Proof.
  induction k as [| k IH] using Pos.peano_ind.
  - simpl. lia.
  - rewrite Pos.iter_succ, Pos2Z.inj_xO, IH, Pos2Z.inj_succ, Z.pow_succ_r by lia. lia.
Qed.

(** The two shifts of [binary_round_aux] on a mantissa of 53 or 54 bits. *)
Lemma shr_fexp_53 (m : positive) (e : Z) (l : location) :
  2 ^ 52 <= Zpos m < 2 ^ 53 -> -1074 <= e ->
  shr_fexp prec emax (Zpos m) e l = (shr_record_of_loc (Zpos m) l, e).
Proof.
  intros Hm He. unfold shr_fexp.
  replace (Zdigits2 (Zpos m)) with 53 by (symmetry; apply digits2_unique; exact Hm).
  unfold fexp, emin, prec, emax.
  replace (Z.max (53 + e - 53) (3 - 1024 - 53) - e) with 0 by lia.
  reflexivity.
Qed.

Lemma shr_fexp_54 (m : positive) (e : Z) (l : location) :
  2 ^ 53 <= Zpos m < 2 ^ 54 -> -1074 <= e ->
  shr_fexp prec emax (Zpos m) e l = (shr_1 (shr_record_of_loc (Zpos m) l), e + 1).
Proof.
  intros Hm He. unfold shr_fexp.
  replace (Zdigits2 (Zpos m)) with 54 by (symmetry; apply digits2_unique; exact Hm).
  unfold fexp, emin, prec, emax.
  replace (Z.max (54 + e - 53) (3 - 1024 - 53) - e) with 1 by lia.
  reflexivity.
Qed.

(** The last step of [binary_round_aux]: a rounded mantissa in
    [2^52, 2^53] is returned as it is, or renormalised when it is 2^53. *)
Lemma round_aux_finish (mr : Z) (e : Z) :
  2 ^ 52 <= mr <= 2 ^ 53 -> -1074 <= e <= 960 ->
  exists m k,
    (let '(mrs, e'') := shr_fexp prec emax mr e loc_Exact in
     match shr_m mrs with
     | Z0 => S754_zero false
     | Zpos m => if Z.leb e'' (emax - prec) then S754_finite false m e''
                 else S754_infinity false
     | Zneg _ => S754_nan
     end) = S754_finite false m (e + k)
    /\ 2 ^ 52 <= Zpos m < 2 ^ 53 /\ 0 <= k <= 1
    /\ Zpos m * 2 ^ k = mr.
Proof.
  intros Hmr He.
  destruct mr as [| p | p]; [lia | | lia].
  destruct (Z.eq_dec (Zpos p) (2 ^ 53)) as [Heq | Hne].
  - exists (Pos.div2 p), 1.
    rewrite shr_fexp_54 by lia.
    assert (Hp : p = 9007199254740992%positive) by (apply Pos2Z.inj; exact Heq).
    subst p. cbv beta iota delta [shr_record_of_loc shr_1 shr_m orb Pos.div2].
    unfold emax, prec. destruct (Z.leb_spec (e + 1) (1024 - 53)); [| lia].
    repeat split; try lia; reflexivity.
  - exists p, 0.
    rewrite shr_fexp_53 by lia.
    cbv beta iota delta [shr_record_of_loc shr_m].
    unfold emax, prec. destruct (Z.leb_spec e (1024 - 53)); [| lia].
    rewrite Z.add_0_r. repeat split; try lia.
Qed.

Lemma binary_round_aux_exact_53 (m : positive) (e : Z) :
  2 ^ 52 <= Zpos m < 2 ^ 53 -> -1074 <= e <= 960 ->
  binary_round_aux prec emax false (Zpos m) e loc_Exact = S754_finite false m e.
Proof.
  intros Hm He. unfold binary_round_aux.
  rewrite shr_fexp_53 by lia.
  cbv beta iota delta [shr_record_of_loc shr_m loc_of_shr_record round_nearest_even].
  rewrite shr_fexp_53 by lia.
  cbv beta iota delta [shr_record_of_loc shr_m].
  unfold emax, prec. destruct (Z.leb_spec e (1024 - 53)); [reflexivity | lia].
Qed.

(** [float64 n] for [0 < n < 2^53]: the normalised mantissa and exponent. *)
Lemma binary_normalize_pos (n : positive) :
  Zpos n < 2 ^ 53 ->
  exists m s,
    binary_normalize prec emax (Zpos n) 0 false = S754_finite false m (- s)
    /\ 0 <= s <= 52
    /\ Zpos m = Zpos n * 2 ^ s
    /\ 2 ^ 52 <= Zpos m < 2 ^ 53.
Proof.
  intros Hn. pose proof (digits2_bounds n) as [Hlo Hhi].
  set (d := Zpos (digits2_pos n)) in *.
  assert (Hd : 1 <= d <= 53).
  { split; [unfold d; lia |].
    destruct (Z.leb_spec d 53); [assumption | exfalso].
    assert (2 ^ 53 <= 2 ^ (d - 1)) by (apply Z.pow_le_mono_r; lia). lia. }
  unfold binary_normalize, binary_round, shl_align.
  fold d. unfold fexp, emin, prec, emax.
  replace (Z.max (d + 0 - 53) (3 - 1024 - 53)) with (d - 53) by lia.
  replace (d - 53 - 0) with (d - 53) by lia.
  destruct (d - 53) as [| q | q] eqn:Hq; [| lia |].
  - (* d = 53 *)
    exists n, 0. assert (Hd53 : d = 53) by lia. rewrite Hd53 in *.
    change (2 ^ (53 - 1)) with (2 ^ 52) in Hlo.
    split; [| split; [lia | split; [simpl; lia | lia]]].
    change (binary_round_aux 53 1024) with (binary_round_aux prec emax).
    now rewrite binary_round_aux_exact_53 by lia.
  - exists (Pos.iter xO n q), (53 - d).
    assert (Hm : Zpos (Pos.iter xO n q) = Zpos n * 2 ^ (53 - d)).
    { rewrite iter_xO_mul. f_equal. f_equal. lia. }
    assert (Hb : 2 ^ 52 <= Zpos (Pos.iter xO n q) < 2 ^ 53).
    { rewrite Hm. 
      assert (2 ^ 52 = 2 ^ (d - 1) * 2 ^ (53 - d)) by (rewrite <- Z.pow_add_r by lia; f_equal; lia).
      assert (2 ^ 53 = 2 ^ d * 2 ^ (53 - d)) by (rewrite <- Z.pow_add_r by lia; f_equal; lia).
      assert (0 < 2 ^ (53 - d)) by (apply Z.pow_pos_nonneg; lia).
      nia. }
    split; [| split; [lia | split; assumption]].
    change (binary_round_aux 53 1024) with (binary_round_aux prec emax).
    rewrite binary_round_aux_exact_53 by lia. f_equal. lia.
Qed.

(** What [new_location] says about a remainder. *)
Definition loc_of_remainder (l : location) (r Y : Z) : Prop :=
  match l with
  | loc_Exact => r = 0
  | loc_Inexact Lt => 0 < 2 * r < Y
  | loc_Inexact Eq => 2 * r = Y
  | loc_Inexact Gt => Y < 2 * r
  end.

Lemma new_location_spec (Y r : Z) :
  0 < Y -> 0 <= r < Y -> loc_of_remainder (new_location Y r) r Y.
Proof.
  intros HY Hr. unfold new_location.
  destruct (Z.even Y) eqn:Heven.
  - unfold new_location_even. destruct (Z.eqb_spec r 0) as [H0 | H0]; [exact H0 |].
    destruct (Z.compare_spec (2 * r) Y); cbn [loc_of_remainder]; lia.
  - unfold new_location_odd. destruct (Z.eqb_spec r 0) as [H0 | H0]; [exact H0 |].
    assert (Hodd : Z.odd Y = true) by (rewrite <- Z.negb_even, Heven; reflexivity).
    apply Z.odd_spec in Hodd. destruct Hodd as [t Ht].
    destruct (Z.compare_spec (2 * r + 1) Y); cbn [loc_of_remainder]; lia.
Qed.

Lemma loc_of_shr_record_of_loc (m : Z) (l : location) :
  loc_of_shr_record (shr_record_of_loc m l) = l.
Proof. destruct l as [| []]; reflexivity. Qed.

Lemma round_nearest_even_cases (m : Z) (l : location) :
  round_nearest_even m l = m \/ round_nearest_even m l = m + 1.
Proof. destruct l as [| []]; simpl; auto. destruct (Z.even m); auto. Qed.

(** The rounded quotient: within half a unit in the last place of [X / Y]. *)
Lemma binary_round_aux_quotient (q : positive) (e : Z) (l : location) (X Y r : Z) :
  2 ^ 52 <= Zpos q < 2 ^ 54 -> -1074 <= e <= 950 ->
  0 < Y -> 0 <= r < Y -> X = Y * Zpos q + r ->
  loc_of_remainder l r Y ->
  exists m k,
    binary_round_aux prec emax false (Zpos q) e l = S754_finite false m (e + k)
    /\ 2 ^ 52 <= Zpos m < 2 ^ 53 /\ 0 <= k <= 2
    /\ 2 * X - 2 ^ k * Y <= 2 * (Zpos m * 2 ^ k * Y) <= 2 * X + 2 ^ k * Y.
Proof.
  intros Hq He HY Hr HX Hl. unfold binary_round_aux.
  destruct (Z.ltb_spec (Zpos q) (2 ^ 53)) as [H53 | H54].
  - rewrite shr_fexp_53 by lia.
    rewrite loc_of_shr_record_of_loc.
    replace (shr_m (shr_record_of_loc (Zpos q) l)) with (Zpos q)
      by (destruct l as [| []]; reflexivity).
    set (mr := round_nearest_even (Zpos q) l).
    assert (Hmr : 2 * X - Y <= 2 * (mr * Y) <= 2 * X + Y /\ 2 ^ 52 <= mr <= 2 ^ 53).
    { unfold mr. destruct l as [| []]; cbn [round_nearest_even loc_of_remainder] in Hl |- *.
      - nia.
      - destruct (Z.even (Zpos q)); nia.
      - nia.
      - nia. }
    destruct Hmr as [Hsand Hrange].
    destruct (round_aux_finish mr e Hrange ltac:(lia)) as (m & k & Hres & Hm & Hk & Hmk).
    exists m, k. rewrite Hres. split; [reflexivity |]. split; [exact Hm |]. split; [lia |].
    assert (Hk' : k = 0 \/ k = 1) by lia.
    destruct Hk' as [-> | ->]; change (2 ^ 0) with 1 in *; change (2 ^ 1) with 2 in *; nia.
  - rewrite shr_fexp_54 by lia.
    assert (Hrec : exists m0 b s,
               shr_1 (shr_record_of_loc (Zpos q) l)
               = {| shr_m := Zpos m0; shr_r := b; shr_s := s |}
               /\ Zpos q = 2 * Zpos m0 + (if b then 1 else 0)
               /\ (s = false -> r = 0) /\ (s = true -> 0 < r)).
    { destruct q as [p | p |]; [| | simpl in H54; lia].
      - exists p, true.
        destruct l as [| []]; cbn [loc_of_remainder shr_record_of_loc shr_1 orb] in Hl |- *;
          eexists; (split; [reflexivity |]); (split; [lia |]); split; intros; try discriminate; lia.
      - exists p, false.
        destruct l as [| []]; cbn [loc_of_remainder shr_record_of_loc shr_1 orb] in Hl |- *;
          eexists; (split; [reflexivity |]); (split; [lia |]); split; intros; try discriminate; lia. }
    destruct Hrec as (m0 & b & s & Hrec & Hq2 & Hs0 & Hs1). rewrite Hrec.
    change (shr_m {| shr_m := Zpos m0; shr_r := b; shr_s := s |}) with (Zpos m0).
    set (mr := round_nearest_even (Zpos m0) (loc_of_shr_record _)).
    assert (Hmr : 2 * X - 2 * Y <= 2 * (mr * 2 * Y) <= 2 * X + 2 * Y
                  /\ 2 ^ 52 <= mr <= 2 ^ 53).
    { unfold mr. destruct b, s; cbn [loc_of_shr_record round_nearest_even];
        try (specialize (Hs0 eq_refl)); try (specialize (Hs1 eq_refl)).
      - nia.
      - destruct (Z.even (Zpos m0)); nia.
      - nia.
      - nia. }
    destruct Hmr as [Hsand Hrange].
    destruct (round_aux_finish mr (e + 1) Hrange ltac:(lia)) as (m & k & Hres & Hm & Hk & Hmk).
    exists m, (1 + k). rewrite Hres. split; [f_equal; lia |]. split; [exact Hm |].
    split; [lia |].
    assert (Hk' : k = 0 \/ k = 1) by lia.
    destruct Hk' as [-> | ->]; change (1 + 0) with 1; change (1 + 1) with 2;
      change (2 ^ 0) with 1 in *; change (2 ^ 1) with 2 in *; change (2 ^ 2) with 4 in *;
      nia.
Qed.

(** The quotient of two normalised positive floats. *)
Lemma SFdiv_normal (m1 m2 : positive) (s1 s2 : Z) :
  2 ^ 52 <= Zpos m1 < 2 ^ 53 -> 2 ^ 52 <= Zpos m2 < 2 ^ 53 ->
  0 <= s1 <= 52 -> 0 <= s2 <= 52 ->
  exists m k,
    SFdiv prec emax (S754_finite false m1 (- s1)) (S754_finite false m2 (- s2))
    = S754_finite false m (s2 - s1 - 53 + k)
    /\ 2 ^ 52 <= Zpos m < 2 ^ 53 /\ 0 <= k <= 2
    /\ 2 * (Zpos m1 * 2 ^ 53) - 2 ^ k * Zpos m2
       <= 2 * (Zpos m * 2 ^ k * Zpos m2)
       <= 2 * (Zpos m1 * 2 ^ 53) + 2 ^ k * Zpos m2.
Proof.
  intros H1 H2 Hs1 Hs2. unfold SFdiv, SFdiv_core_binary.
  replace (Zdigits2 (Zpos m1)) with 53 by (symmetry; apply digits2_unique; exact H1).
  replace (Zdigits2 (Zpos m2)) with 53 by (symmetry; apply digits2_unique; exact H2).
  unfold fexp, emin, prec, emax.
  replace (Z.min (Z.max (53 + - s1 - (53 + - s2) - 53) (3 - 1024 - 53)) (- s1 - - s2))
    with (s2 - s1 - 53) by lia.
  replace (- s1 - - s2 - (s2 - s1 - 53)) with 53 by lia.
  rewrite Z.shiftl_mul_pow2 by lia.
  pose proof (Z.div_eucl_eq (Zpos m1 * 2 ^ 53) (Zpos m2) ltac:(lia)) as Heq.
  pose proof (Z.mod_pos_bound (Zpos m1 * 2 ^ 53) (Zpos m2) ltac:(lia)) as Hmod.
  unfold Z.modulo in Hmod.
  destruct (Z.div_eucl (Zpos m1 * 2 ^ 53) (Zpos m2)) as [q r].
  assert (Hq : 2 ^ 52 <= q < 2 ^ 54).
  { change (2 ^ 54) with (2 * 2 ^ 53). change (2 ^ 53) with (2 * 2 ^ 52) in *. nia. }
  destruct q as [| q | q]; [lia | | lia].
  change (xorb false false) with false.
  change (binary_round_aux 53 1024) with (binary_round_aux prec emax).
  destruct (binary_round_aux_quotient q (s2 - s1 - 53) (new_location (Zpos m2) r)
              (Zpos m1 * 2 ^ 53) (Zpos m2) r Hq ltac:(lia) ltac:(lia) Hmod Heq
              (new_location_spec (Zpos m2) r ltac:(lia) Hmod))
    as (m & k & Hres & Hm & Hk & Hsand).
  exists m, k. rewrite Hres. repeat split; try lia.
Qed.

Lemma Prim2SF_float64 (n : Z) :
  0 < n < 2 ^ 53 ->
  exists m s,
    Prim2SF (float64 n) = S754_finite false m (- s)
    /\ 0 <= s <= 52 /\ Zpos m = n * 2 ^ s /\ 2 ^ 52 <= Zpos m < 2 ^ 53.
Proof.
  intros Hn. unfold float64. rewrite of_uint63_spec, Uint63.of_Z_spec.
  rewrite Z.mod_small
    by (change wB with 9223372036854775808; change (2 ^ 53) with 9007199254740992 in Hn; lia).
  destruct n as [| p | p]; [lia | | lia].
  apply binary_normalize_pos. lia.
Qed.

(** The quotient of two sizes as [float64]: a normalised mantissa, the
    exponent, and the half-ulp enclosure of the exact quotient. *)
Lemma float64_quotient (c o : Z) :
  0 < c < 2 ^ 53 -> 0 < o < 2 ^ 53 ->
  exists m s1 s2 k,
    Prim2SF (float64 c / float64 o) = S754_finite false m (s2 - s1 - 53 + k)
    /\ 2 ^ 52 <= Zpos m < 2 ^ 53
    /\ 0 <= s1 <= 52 /\ 0 <= s2 <= 52 /\ 0 <= k <= 2
    /\ 2 ^ 52 <= c * 2 ^ s1 < 2 ^ 53 /\ 2 ^ 52 <= o * 2 ^ s2 < 2 ^ 53
    /\ 2 * (c * 2 ^ s1 * 2 ^ 53) - 2 ^ k * (o * 2 ^ s2)
       <= 2 * (Zpos m * 2 ^ k * (o * 2 ^ s2))
       <= 2 * (c * 2 ^ s1 * 2 ^ 53) + 2 ^ k * (o * 2 ^ s2).
Proof.
  intros Hc Ho.
  destruct (Prim2SF_float64 c Hc) as (m1 & s1 & Hf1 & Hs1 & Hm1 & Hb1).
  destruct (Prim2SF_float64 o Ho) as (m2 & s2 & Hf2 & Hs2 & Hm2 & Hb2).
  rewrite div_spec, Hf1, Hf2. unfold SF64div.
  destruct (SFdiv_normal m1 m2 s1 s2 Hb1 Hb2 Hs1 Hs2) as (m & k & Hres & Hm & Hk & Hsand).
  exists m, s1, s2, k.
  rewrite Hres. rewrite <- Hm1, <- Hm2. repeat split; try lia.
Qed.

(** Powers of two compared through their exponents. *)
Lemma pow2_shift (a b d : Z) :
  0 <= a -> 0 <= d -> a + d <= b -> 2 ^ d * 2 ^ a <= 2 ^ b.
Proof.
  intros Ha Hd Hab. rewrite <- Z.pow_add_r by lia. apply Z.pow_le_mono_r; lia.
Qed.

Lemma Prim2SF_1_2 : Prim2SF 1.2 = S754_finite false 5404319552844595 (-52).
Proof. vm_compute. reflexivity. Qed.

Lemma Prim2SF_0_7 : Prim2SF 0.7 = S754_finite false 6305039478318694 (-53).
Proof. vm_compute. reflexivity. Qed.

Lemma SFltb_finite (m1 m2 : positive) (e1 e2 : Z) :
  SFltb (S754_finite false m1 e1) (S754_finite false m2 e2)
  = (e1 <? e2) || ((e1 =? e2) && (Zpos m1 <? Zpos m2)).
Proof.
  unfold SFltb, SFcompare.
  destruct (Z.compare_spec e1 e2) as [He | He | He].
  - subst. rewrite Z.ltb_irrefl, Z.eqb_refl. simpl orb. simpl andb.
    rewrite Pos.compare_cont_spec. simpl Pos.switch_Eq.
    unfold Z.ltb. simpl Z.compare.
    destruct (Pos.compare m1 m2); reflexivity.
  - apply Z.ltb_lt in He. rewrite He. reflexivity.
  - assert (H1 : (e1 <? e2) = false) by (apply Z.ltb_ge; lia).
    assert (H2 : (e1 =? e2) = false) by (apply Z.eqb_neq; lia).
    rewrite H1, H2. reflexivity.
Qed.

Lemma SFleb_finite (m1 m2 : positive) (e1 e2 : Z) :
  SFleb (S754_finite false m1 e1) (S754_finite false m2 e2)
  = (e1 <? e2) || ((e1 =? e2) && (Zpos m1 <=? Zpos m2)).
Proof.
  unfold SFleb, SFcompare.
  destruct (Z.compare_spec e1 e2) as [He | He | He].
  - subst. rewrite Z.ltb_irrefl, Z.eqb_refl. simpl orb. simpl andb.
    rewrite Pos.compare_cont_spec. simpl Pos.switch_Eq.
    unfold Z.leb. simpl Z.compare.
    destruct (Pos.compare m1 m2); reflexivity.
  - apply Z.ltb_lt in He. rewrite He. reflexivity.
  - assert (H1 : (e1 <? e2) = false) by (apply Z.ltb_ge; lia).
    assert (H2 : (e1 =? e2) = false) by (apply Z.eqb_neq; lia).
    rewrite H1, H2. reflexivity.
Qed.

Lemma mul_cancel_le (x y z : Z) : 0 < x -> x * y <= x * z -> y <= z.
Proof. intros. apply Z.mul_le_mono_pos_l with x; assumption. Qed.

Lemma mul_cancel_lt (x y z : Z) : 0 < x -> x * y < x * z -> y < z.
Proof. intros. apply Z.mul_lt_mono_pos_l with x; assumption. Qed.

Section Enclosure.
Variables (c o m A B K : Z).
Local Abbreviation P := 9007199254740992.
Hypothesis HA : 0 < A.
Hypothesis HB : 0 < B.
Hypothesis HK : 0 < K.
Hypothesis Hc : 0 < c.
Hypothesis Ho : 0 < o.
Hypothesis Hm : 4503599627370496 <= m < P.
Hypothesis HoB : 4503599627370496 <= o * B < P.
Hypothesis Hsand :
  2 * (c * A * P) - K * (o * B) <= 2 * (m * K * (o * B)) <= 2 * (c * A * P) + K * (o * B).

Lemma quotient_lower : K * (o * B) * (2 * m - 1) <= 2 * (c * A * P).
Proof using All. lia. Qed.

Lemma quotient_upper : 2 * (c * A * P) <= K * (o * B) * (2 * m + 1).
Proof using All. lia. Qed.

(* exponent of the quotient quotient_above the literal's by d: B K >= 2^d A *)
Lemma quotient_above (d : Z) : 0 < d -> d * A <= B * K -> d * (o * (P - 1)) <= 2 * (c * P).
Proof using All.
  intros Hd H.
  pose proof quotient_lower as Hl.
  assert (H1 : K * (o * B) * (P - 1) <= K * (o * B) * (2 * m - 1)).
  { apply Z.mul_le_mono_nonneg_l; [nia | lia]. }
  assert (H2 : d * A * (o * (P - 1)) <= B * K * (o * (P - 1))).
  { apply Z.mul_le_mono_nonneg_r; [nia | lia]. }
  apply mul_cancel_le with A; [lia |].
  lia.
Qed.

Lemma quotient_below (d : Z) : 0 < d -> d * (B * K) <= A -> d * c < o.
Proof using All.
  intros Hd H.
  pose proof quotient_upper as Hu.
  assert (H1 : K * (o * B) * (2 * m + 1) < K * (o * B) * (2 * P)).
  { apply Z.mul_lt_mono_pos_l; [nia | lia]. }
  assert (H2 : d * (B * K) * o <= A * o).
  { apply Z.mul_le_mono_nonneg_r; lia. }
  apply mul_cancel_lt with (A * P); [nia |].
  nia.
Qed.

(* exponents level up to the factor d, mantissa quotient_above the literal's *)
Lemma quotient_level_above (p q d : Z) :
  0 < q -> 0 < d -> B * K = d * A ->
  2 * p * P < d * (2 * q * m - q) ->
  p * o < q * c.
Proof using All.
  intros Hq Hd HBK Hmant.
  pose proof quotient_lower as Hl.
  assert (H0 : 0 < K * (o * B)) by nia.
  assert (H1 : K * (o * B) * (2 * p * P) < K * (o * B) * (d * (2 * q * m - q))).
  { apply Z.mul_lt_mono_pos_l; assumption. }
  assert (H2 : (q * d) * (K * (o * B) * (2 * m - 1)) <= (q * d) * (2 * (c * A * P))).
  { apply Z.mul_le_mono_nonneg_l; [nia | assumption]. }
  assert (H3 : K * (o * B) * (2 * p * P) = (2 * d * A * P) * (p * o)).
  { transitivity ((B * K) * (2 * P * (p * o))); [ring | rewrite HBK; ring]. }
  apply mul_cancel_lt with (2 * d * A * P); [nia |].
  rewrite <- H3.
  eapply Z.lt_le_trans; [exact H1 |].
  eapply Z.le_trans; [| eapply Z.le_trans; [exact H2 |]]; [ring_simplify; lia | ring_simplify; lia].
Qed.

(* exponents level up to the factor d, mantissa at most the literal's *)
Lemma quotient_level_below (p q d e : Z) :
  0 < q -> 0 < d -> B * K = d * A ->
  d * (2 * q * m + q) <= 2 * p * P + e -> e * o < 2 * P ->
  q * c <= p * o.
Proof using All.
  intros Hq Hd HBK Hmant He.
  pose proof quotient_upper as Hu.
  destruct (Z.le_gt_cases (q * c) (p * o)) as [Hle | Hgt]; [exact Hle | exfalso].
  assert (H0 : 0 < K * B) by nia.
  assert (H1 : (q * d) * (2 * (c * A * P)) <= (q * d) * (K * (o * B) * (2 * m + 1))).
  { apply Z.mul_le_mono_nonneg_l; [nia | assumption]. }
  assert (H2 : (K * B * o) * (d * (2 * q * m + q)) <= (K * B * o) * (2 * p * P + e)).
  { apply Z.mul_le_mono_nonneg_l; [nia | assumption]. }
  assert (H3 : (2 * P * (d * A)) * (p * o + 1) <= (2 * P * (d * A)) * (q * c)).
  { apply Z.mul_le_mono_nonneg_l; [nia | lia]. }
  assert (H5 : (2 * P * (d * A)) * (p * o + 1) <= (K * B * o) * (2 * p * P + e)).
  { eapply Z.le_trans; [exact H3 |]. eapply Z.le_trans; [| exact H2].
    eapply Z.le_trans; [| eapply Z.le_trans; [exact H1 |]]; [ring_simplify; lia | ring_simplify; lia]. }
  rewrite <- HBK in H5.
  assert (H4 : (K * B) * (2 * P) <= (K * B) * (e * o)).
  { ring_simplify. ring_simplify in H5. lia. }
  apply mul_cancel_le in H4; [lia | assumption].
Qed.

End Enclosure.

Lemma float64_ratio_gt_1_2 (c o : Z) :
  0 < c < 2 ^ 53 -> 0 < o < 2 ^ 51 ->
  (1.2 <? float64 c / float64 o)%float = (6 * o <? 5 * c).
Proof.
  intros Hc Ho.
  destruct (float64_quotient c o Hc ltac:(lia))
    as (m & s1 & s2 & k & Hq & Hm & Hs1 & Hs2 & Hk & HcA & HoB & Hsand).
  rewrite ltb_spec, Hq, Prim2SF_1_2, SFltb_finite.
  assert (HA : 0 < 2 ^ s1) by (apply Z.pow_pos_nonneg; lia).
  assert (HB : 0 < 2 ^ s2) by (apply Z.pow_pos_nonneg; lia).
  assert (HK : 0 < 2 ^ k) by (apply Z.pow_pos_nonneg; lia).
  assert (HBK : 2 ^ s2 * 2 ^ k = 2 ^ (s2 + k)) by (rewrite Z.pow_add_r by lia; reflexivity).
  change (2 ^ 53) with 9007199254740992 in *.
  change (2 ^ 52) with 4503599627370496 in *.
  change (2 ^ 51) with 2251799813685248 in *.
  destruct (Z.lt_trichotomy (-52) (s2 - s1 - 53 + k)) as [He | [He | He]].
  - assert (H1 : (-52 <? s2 - s1 - 53 + k) = true) by (apply Z.ltb_lt; exact He).
    rewrite H1. simpl orb.
    pose proof (pow2_shift s1 (s2 + k) 2 ltac:(lia) ltac:(lia) ltac:(lia)) as Hp.
    change (2 ^ 2) with 4 in Hp. rewrite <- HBK in Hp.
    pose proof (quotient_above c o (Zpos m) _ _ _ HA HB HK ltac:(lia) ltac:(lia) Hm HoB Hsand 4 ltac:(lia) Hp).
    symmetry. apply Z.ltb_lt. lia.
  - rewrite <- He. rewrite Z.ltb_irrefl, Z.eqb_refl. simpl orb. simpl andb.
    assert (Hlev : 2 ^ s2 * 2 ^ k = 2 * 2 ^ s1).
    { rewrite HBK. replace (s2 + k) with (1 + s1) by lia.
      rewrite Z.pow_add_r by lia. reflexivity. }
    destruct (Z.ltb_spec 5404319552844595 (Zpos m)) as [Hlt | Hge].
    + symmetry. apply Z.ltb_lt.
      apply (quotient_level_above c o (Zpos m) _ _ _ HA HB HK ltac:(lia) ltac:(lia) Hm HoB Hsand 6 5 2);
        [lia | lia | exact Hlev | lia].
    + symmetry. apply Z.ltb_ge.
      apply (quotient_level_below c o (Zpos m) _ _ _ HA HB HK ltac:(lia) ltac:(lia) Hm HoB Hsand 6 5 2 6);
        [lia | lia | exact Hlev | lia | lia].
  - assert (H1 : (-52 <? s2 - s1 - 53 + k) = false) by (apply Z.ltb_ge; lia).
    assert (H2 : (-52 =? s2 - s1 - 53 + k) = false) by (apply Z.eqb_neq; lia).
    rewrite H1, H2. simpl orb.
    pose proof (pow2_shift (s2 + k) s1 0 ltac:(lia) ltac:(lia) ltac:(lia)) as Hp.
    change (2 ^ 0) with 1 in Hp. rewrite <- HBK in Hp.
    pose proof (quotient_below c o (Zpos m) _ _ _ HA HB HK ltac:(lia) ltac:(lia) Hm HoB Hsand 1 ltac:(lia) Hp).
    symmetry. apply Z.ltb_ge. lia.
Qed.

Lemma float64_ratio_le_0_7 (c o : Z) :
  0 < c < 2 ^ 53 -> 0 < o < 2 ^ 53 ->
  (float64 c / float64 o <=? 0.7)%float = (10 * c <=? 7 * o).
Proof.
  intros Hc Ho.
  destruct (float64_quotient c o Hc Ho)
    as (m & s1 & s2 & k & Hq & Hm & Hs1 & Hs2 & Hk & HcA & HoB & Hsand).
  rewrite leb_spec, Hq, Prim2SF_0_7, SFleb_finite.
  assert (HA : 0 < 2 ^ s1) by (apply Z.pow_pos_nonneg; lia).
  assert (HB : 0 < 2 ^ s2) by (apply Z.pow_pos_nonneg; lia).
  assert (HK : 0 < 2 ^ k) by (apply Z.pow_pos_nonneg; lia).
  assert (HBK : 2 ^ s2 * 2 ^ k = 2 ^ (s2 + k)) by (rewrite Z.pow_add_r by lia; reflexivity).
  change (2 ^ 53) with 9007199254740992 in *.
  change (2 ^ 52) with 4503599627370496 in *.
  destruct (Z.lt_trichotomy (s2 - s1 - 53 + k) (-53)) as [He | [He | He]].
  - assert (H1 : (s2 - s1 - 53 + k <? -53) = true) by (apply Z.ltb_lt; exact He).
    rewrite H1. simpl orb.
    pose proof (pow2_shift (s2 + k) s1 1 ltac:(lia) ltac:(lia) ltac:(lia)) as Hp.
    change (2 ^ 1) with 2 in Hp. rewrite <- HBK in Hp.
    pose proof (quotient_below c o (Zpos m) _ _ _ HA HB HK ltac:(lia) ltac:(lia) Hm HoB Hsand 2 ltac:(lia) Hp).
    symmetry. apply Z.leb_le. lia.
  - rewrite He. rewrite Z.ltb_irrefl, Z.eqb_refl. simpl orb. simpl andb.
    assert (Hlev : 2 ^ s2 * 2 ^ k = 1 * 2 ^ s1).
    { rewrite HBK. replace (s2 + k) with s1 by lia. lia. }
    destruct (Z.leb_spec (Zpos m) 6305039478318694) as [Hle | Hgt].
    + symmetry. apply Z.leb_le.
      apply (quotient_level_below c o (Zpos m) _ _ _ HA HB HK ltac:(lia) ltac:(lia) Hm HoB Hsand 7 10 1 2);
        [lia | lia | exact Hlev | lia | lia].
    + symmetry. apply Z.leb_gt.
      apply (quotient_level_above c o (Zpos m) _ _ _ HA HB HK ltac:(lia) ltac:(lia) Hm HoB Hsand 7 10 1);
        [lia | lia | exact Hlev | lia].
  - assert (H1 : (s2 - s1 - 53 + k <? -53) = false) by (apply Z.ltb_ge; lia).
    assert (H2 : (s2 - s1 - 53 + k =? -53) = false) by (apply Z.eqb_neq; lia).
    rewrite H1, H2. simpl orb.
    pose proof (pow2_shift s1 (s2 + k) 1 ltac:(lia) ltac:(lia) ltac:(lia)) as Hp.
    change (2 ^ 1) with 2 in Hp. rewrite <- HBK in Hp.
    pose proof (quotient_above c o (Zpos m) _ _ _ HA HB HK ltac:(lia) ltac:(lia) Hm HoB Hsand 2 ltac:(lia) Hp).
    symmetry. apply Z.leb_gt. lia.
Qed.

End Binary64.

(** ** C6: the file identity fingerprint *)

(** The samples of the specification: the whole file up to 10 MiB; the first
    and the last 32 KiB up to 500 MiB; the first 64 KiB, 4 KiB at the
    midpoint and the last 64 KiB above. *)
Definition fingerprint_samples (content : bytes) : bytes :=
  let size := len content in
  if size <=? 10 * 1024 * 1024 then content
  else if size <=? 500 * 1024 * 1024 then
    slice content 0 (32 * 1024) +:+ slice content (size - 32 * 1024) size
  else
    slice content 0 (64 * 1024)
    +:+ slice content (size / 2) (size / 2 + 4 * 1024)
    +:+ slice content (size - 64 * 1024) size.

Definition fingerprint_header (path : string) (f : File) : string :=
  "path:" +:+ path +:+ ":size:" +:+ Itoa (len (data f)) +:+
  ":modtime:" +:+ Itoa (modtime f) +:+ ":".

Lemma read_at_inside (content : bytes) (off n : Z) :
  off + n <= len content -> read_at content off n = slice content off (off + n).
Proof. intros Hle. unfold read_at. now rewrite Z.min_l. Qed.

Lemma generateFileHash_fed_samples (path : string) (f : File) :
  generateFileHash_fed path f = fingerprint_header path f +:+ fingerprint_samples (data f).
Proof.
  unfold generateFileHash_fed, fingerprint_samples, fingerprint_header,
    LargeFileSize, HashSampleSize.
  set (size := len (data f)).
  set (hdr := "path:" +:+ path +:+ ":size:" +:+ Itoa size +:+ ":modtime:" +:+
              Itoa (modtime f) +:+ ":").
  destruct (Z.gtb_spec size (500 * 1024 * 1024)) as [Hlarge | Hlarge].
  - destruct (Z.gtb_spec size (128 * 1024)) as [_ | Hsmall]; [| lia].
    destruct (Z.leb_spec size (10 * 1024 * 1024)) as [H10 | _]; [lia |].
    destruct (Z.leb_spec size (500 * 1024 * 1024)) as [H500 | _]; [lia |].
    rewrite (read_at_inside (data f) 0) by (change (len (data f)) with size; lia).
    assert (Hmid : size / 2 + 4096 <= size).
    { assert (size / 2 <= size - 4096) by (apply Z.div_le_upper_bound; lia). lia. }
    rewrite (read_at_inside (data f) (size / 2)) by exact Hmid.
    rewrite (read_at_inside (data f) (size - 64 * 1024))
      by (change (len (data f)) with size; lia).
    rewrite !append_assoc.
    replace (size - 64 * 1024 + 64 * 1024) with size by lia.
    reflexivity.
  - destruct (Z.gtb_spec size (10 * 1024 * 1024)) as [Hmed | Hmed].
    + destruct (Z.gtb_spec size (64 * 1024)) as [_ | Hsmall]; [| lia].
      destruct (Z.leb_spec size (10 * 1024 * 1024)) as [H10 | _]; [lia |].
      destruct (Z.leb_spec size (500 * 1024 * 1024)) as [_ | H500]; [| lia].
      rewrite (read_at_inside (data f) 0) by (change (len (data f)) with size; lia).
      rewrite (read_at_inside (data f) (size - 32 * 1024))
        by (change (len (data f)) with size; lia).
      rewrite !append_assoc.
      replace (size - 32 * 1024 + 32 * 1024) with size by lia.
      reflexivity.
    + destruct (Z.leb_spec size (10 * 1024 * 1024)) as [_ | H10]; [| lia].
      reflexivity.
Qed.

(** C6. For every file, the identity fingerprint is the SHA-256 of the
    header line [path:<path>:size:<size>:modtime:<seconds>:] followed by the
    size-dependent samples: the entire contents for a size up to and
    including 10 MiB, the first and the last 32 KiB above 10 MiB and up to
    500 MiB, and the first 64 KiB, 4 KiB at the midpoint and the last 64 KiB
    above 500 MiB. *)
Theorem C6_fingerprint_samples :
  forall (E : External) (w : World) (path : string),
    generateFileHash w path =
    match w !! path with
    | Some f =>
        Ok (sha256_hex (fingerprint_header path f +:+ fingerprint_samples (data f)))
    | None => Err "failed to open file for hashing"
    end.
Proof.
  intros E w path. unfold generateFileHash.
  destruct (w !! path) as [f |]; [| reflexivity].
  now rewrite generateFileHash_fed_samples.
Qed.

(** ** C3: the strategy selector *)

Import Commit.

Section Selector.

Context `{External}.

Definition extension (f : StagedFile) : string := ToLower (Ext (Path f)).

Definition is_psd (f : StagedFile) : bool := String.eqb (extension f) ".psd".

(** No file above 50 MiB and no design extension. *)
Definition small_and_plain (f : StagedFile) : Prop :=
  Size f <= 50 * 1024 * 1024 /\ ~ In (extension f) [".psd"; ".ai"; ".sketch"].

Lemma shouldUseLZ4_files_spec (files : list StagedFile) :
  shouldUseLZ4_files files = true <-> Forall small_and_plain files.
Proof.
  induction files as [|f files IH]; simpl.
  - split; [constructor | reflexivity].
  - unfold SmallFileThreshold. fold (extension f).
    destruct (Z.gtb_spec (Size f) (50 * 1024 * 1024)) as [Hbig | Hsmall].
    + split; [discriminate |].
      intros Hall. inversion Hall as [| ? ? [Hle _] _]; subst. lia.
    + destruct (String.eqb_spec (extension f) ".psd") as [Hpsd | Hpsd]; simpl.
      { split; [discriminate |]. intros Hall.
        inversion Hall as [| ? ? [_ Hext] _]; subst. exfalso. apply Hext.
        rewrite Hpsd. simpl. auto. }
      destruct (String.eqb_spec (extension f) ".ai") as [Hai | Hai]; simpl.
      { split; [discriminate |]. intros Hall.
        inversion Hall as [| ? ? [_ Hext] _]; subst. exfalso. apply Hext.
        rewrite Hai. simpl. auto. }
      destruct (String.eqb_spec (extension f) ".sketch") as [Hsk | Hsk]; simpl.
      { split; [discriminate |]. intros Hall.
        inversion Hall as [| ? ? [_ Hext] _]; subst. exfalso. apply Hext.
        rewrite Hsk. simpl. auto. }
      rewrite IH. split.
      * intros Hall. constructor; [| exact Hall]. split; [exact Hsmall |].
        simpl. intros [Heq | [Heq | [Heq | []]]]; congruence.
      * intros Hall. now inversion Hall.
Qed.

Lemma selectDeltaAlgorithm_spec (files : list StagedFile) :
  selectDeltaAlgorithm files = if existsb is_psd files then "psd_smart" else "bsdiff".
Proof.
  induction files as [|f files IH]; simpl; [reflexivity |].
  unfold is_psd at 1, extension.
  destruct (String.eqb (ToLower (Ext (Path f))) ".psd"); simpl; [reflexivity | exact IH].
Qed.

End Selector.

(** C3. For every staged file list [files] and new version number
    [version], the strategy selector chooses lz4 exactly when
    [version = 1], or when no file is larger than 50 MiB and no file has the
    extension [.psd], [.ai] or [.sketch]; then the snapshot is the LZ4
    encoding.  Otherwise a delta strategy is designated: psd_smart if any
    file is a [.psd], bsdiff if none is, and that is the delta
    [createSnapshot] attempts (when the chain-length check lets it attempt
    one), keeping it at a ratio of at most 0.7 and encoding with LZ4
    otherwise. *)
Theorem C3_strategy_selector :
  forall (E : External) (cm : CommitManager) (w : World) (files : list StagedFile)
         (version prevVersion : Z) (r : Repo),
    (shouldUseLZ4 files version = true <->
     version = 1 \/ Forall small_and_plain files)
    /\ (shouldUseLZ4 files version = true ->
        createSnapshot cm w files version prevVersion r
        = compressWithLZ4 w files version r)
    /\ selectDeltaAlgorithm files
       = (if existsb is_psd files then "psd_smart" else "bsdiff")
    /\ createDelta cm w files version prevVersion r
       = (if existsb is_psd files
          then createPSDSmartDelta cm w files version prevVersion r
          else createBsdiffDelta w files version prevVersion r)
    /\ (shouldUseLZ4 files version = false ->
        1 < version ->
        shouldCreateNewSnapshot cm r prevVersion = false ->
        createSnapshot cm w files version prevVersion r
        = match createDelta cm w files version prevVersion r with
          | (Ok deltaResult, r1) =>
              if (CompressionRatio deltaResult <=? 0.7)%float
              then (Ok deltaResult, r1)
              else compressWithLZ4 w files version
                     (remove_file (Deltas, OutputFile deltaResult) r1)
          | (Err _, r1) => compressWithLZ4 w files version r1
          end).
Proof.
  intros E cm w files version prevVersion r.
  split; [| split; [| split; [| split]]].
  - unfold shouldUseLZ4. destruct (Z.eqb_spec version 1) as [H1 | H1].
    + split; auto.
    + rewrite shouldUseLZ4_files_spec. split; [auto | intros [? | ?]; [lia | assumption]].
  - intros Hlz4. unfold createSnapshot. now rewrite Hlz4.
  - apply selectDeltaAlgorithm_spec.
  - unfold createDelta. rewrite selectDeltaAlgorithm_spec.
    now destruct (existsb is_psd files).
  - intros Hlz4 Hv Hcap. unfold createSnapshot. rewrite Hlz4, Hcap.
    destruct (Z.gtb_spec version 1) as [_ | Hle]; [| lia]. reflexivity.
Qed.

(** ** C8: the delta chain *)

Section DeltaChain.

Context `{External}.

Definition is_delta_strategy (strategy : string) : bool :=
  String.eqb strategy "psd_smart" || String.eqb strategy "bsdiff".

(** The length of the delta chain of version [v]: a version recorded with a
    delta strategy counts one and continues at its base version; any other
    version ends the chain.  [fuel] bounds the walk. *)
Fixpoint deltaChainLength (r : Repo) (v : Z) (fuel : nat) : Z :=
  match fuel with
  | O => 0
  | S fuel' =>
      match CommitsDir r !! v with
      | Some {| CompressionInfo := Some info |} =>
          if is_delta_strategy (Strategy info)
          then 1 + deltaChainLength r (BaseVersion info) fuel'
          else 0
      | _ => 0
      end
  end.

(** The repository states the commit pipeline produces: [dgit init], then
    commits (failed ones included, with what they leave behind) and runs of
    the background optimisation of a recorded version. *)
Inductive reachable (cm : CommitManager) : Repo -> Prop :=
| reachable_init : reachable cm NewRepo
| reachable_commit (r : Repo) (w : World) (message : string)
    (stagedFiles : list StagedFile) :
    reachable cm r ->
    reachable cm (snd (CreateCommit cm w message stagedFiles r))
| reachable_optimize (r : Repo) (v : Z) (c : Commit) (info : CompressionResult) :
    reachable cm r ->
    CommitsDir r !! v = Some c ->
    CompressionInfo c = Some info ->
    reachable cm (optimizeToCache v info r).

(** [r'] differs from [r] in [versions/], [cache/] and [objects/deltas/]
    only. *)
Definition same_records (r r' : Repo) : Prop :=
  ObjectsDir r' = ObjectsDir r /\ CommitsDir r' = CommitsDir r
  /\ HeadFile r' = HeadFile r.

Lemma same_records_refl (r : Repo) : same_records r r.
Proof. now repeat split. Qed.

Lemma same_records_trans (r1 r2 r3 : Repo) :
  same_records r1 r2 -> same_records r2 r3 -> same_records r1 r3.
Proof. unfold same_records. intros (? & ? & ?) (? & ? & ?). repeat split; congruence. Qed.

Lemma same_records_write (p : StoredPath) (content : bytes) (r : Repo) :
  fst p <> Objects -> same_records r (write_file p content r).
Proof. destruct p as [[] name]; simpl; intros Hne; [| | congruence |]; now repeat split. Qed.

Lemma same_records_remove (p : StoredPath) (r : Repo) :
  fst p <> Objects -> same_records r (remove_file p r).
Proof. destruct p as [[] name]; simpl; intros Hne; [| | congruence |]; now repeat split. Qed.

Lemma same_records_write_after (p : StoredPath) (content : bytes) (r r' : Repo) :
  fst p <> Objects -> same_records r r' -> same_records r (write_file p content r').
Proof. intros Hp Hr. eapply same_records_trans; [exact Hr | now apply same_records_write]. Qed.

Lemma same_records_remove_after (p : StoredPath) (r r' : Repo) :
  fst p <> Objects -> same_records r r' -> same_records r (remove_file p r').
Proof. intros Hp Hr. eapply same_records_trans; [exact Hr | now apply same_records_remove]. Qed.

Ltac same_records_step :=
  first
    [ apply same_records_refl
    | assumption
    | apply same_records_write_after; [simpl; discriminate |]
    | apply same_records_remove_after; [simpl; discriminate |] ].

Ltac same_records_cases :=
  repeat match goal with
         | |- context [match ?x with _ => _ end] => destruct x eqn:?; simpl
         | |- context [if ?x then _ else _] => destruct x eqn:?; simpl
         end;
  repeat same_records_step.

Lemma compressWithLZ4_same_records w files version r :
  same_records r (snd (compressWithLZ4 w files version r)).
Proof. unfold compressWithLZ4. same_records_cases. Qed.

Lemma createTempLZ4File_same_records w files p r :
  fst p <> Objects -> same_records r (createTempLZ4File w files p r).
Proof. intros Hp. unfold createTempLZ4File. now apply same_records_write. Qed.

Lemma createBsdiffDelta_same_records w files version baseVersion r :
  same_records r (snd (createBsdiffDelta w files version baseVersion r)).
Proof.
  unfold createBsdiffDelta, createTempLZ4File.
  set (r0 := write_file _ _ r).
  assert (H0 : same_records r r0) by (apply same_records_write; simpl; discriminate).
  clearbody r0. same_records_cases.
Qed.

Lemma extractPreviousVersionLayers_same_records cm baseVersion filePath r :
  same_records r (snd (extractPreviousVersionLayers cm baseVersion filePath r)).
Proof. unfold extractPreviousVersionLayers. same_records_cases. Qed.

Lemma createSmartDeltaFile_same_records w p psdFile analysis baseVersion version r :
  fst p <> Objects ->
  same_records r (snd (createSmartDeltaFile w p psdFile analysis baseVersion version r)).
Proof.
  intros Hp. unfold createSmartDeltaFile.
  destruct (w !! AbsolutePath psdFile); simpl; now apply same_records_write.
Qed.

Lemma createPSDSmartDelta_same_records cm w files version baseVersion r :
  same_records r (snd (createPSDSmartDelta cm w files version baseVersion r)).
Proof.
  unfold createPSDSmartDelta, fallbackToBinaryDelta.
  destruct (find_psd files) as [psdFile |]; [| apply same_records_refl].
  destruct (extractPSDLayerInfo _ _); [| apply createBsdiffDelta_same_records].
  pose proof (extractPreviousVersionLayers_same_records cm baseVersion (Path psdFile) r)
    as Hprev.
  destruct (extractPreviousVersionLayers cm baseVersion (Path psdFile) r) as [[prev | e] r1];
    simpl in Hprev.
  - match goal with
    | |- context [createSmartDeltaFile ?w ?p ?f ?a ?b ?v ?r] =>
        pose proof (createSmartDeltaFile_same_records w p f a b v r) as Hfile;
        destruct (createSmartDeltaFile w p f a b v r) as [[size | e] r2]
    end; simpl in *;
      (eapply same_records_trans; [exact Hprev | apply Hfile; discriminate]).
  - eapply same_records_trans; [exact Hprev | apply createBsdiffDelta_same_records].
Qed.

Lemma createDelta_same_records cm w files version baseVersion r :
  same_records r (snd (createDelta cm w files version baseVersion r)).
Proof.
  unfold createDelta.
  destruct (String.eqb _ "psd_smart"); [apply createPSDSmartDelta_same_records |].
  destruct (String.eqb _ "bsdiff"); [apply createBsdiffDelta_same_records |].
  apply same_records_refl.
Qed.

Lemma createSnapshot_same_records cm w files version prevVersion r :
  same_records r (snd (createSnapshot cm w files version prevVersion r)).
Proof.
  unfold createSnapshot.
  destruct (shouldUseLZ4 files version); [apply compressWithLZ4_same_records |].
  destruct (_ && _); [| apply compressWithLZ4_same_records].
  pose proof (createDelta_same_records cm w files version prevVersion r) as Hd.
  destruct (createDelta cm w files version prevVersion r) as [[d | e] r1]; simpl in Hd.
  - destruct (PrimFloat.leb _ _); [exact Hd |].
    eapply same_records_trans; [| apply compressWithLZ4_same_records].
    apply same_records_remove_after; [simpl; discriminate | exact Hd].
  - eapply same_records_trans; [exact Hd | apply compressWithLZ4_same_records].
Qed.

Lemma optimizeToCache_same_records version info r :
  same_records r (optimizeToCache version info r).
Proof. unfold optimizeToCache. same_records_cases. Qed.

(** *** What the encoders return *)

Lemma compressWithLZ4_strategy w files version r res r' :
  compressWithLZ4 w files version r = (Ok res, r') -> Strategy res = "lz4".
Proof.
  unfold compressWithLZ4.
  destruct (fold_left _ _ _) as [written originalSize].
  repeat match goal with
         | |- context [if ?x then _ else _] => destruct x
         end; intros Heq; inversion Heq; reflexivity.
Qed.

Lemma calculateCompressionResult_base strategy p files baseVersion r res :
  calculateCompressionResult strategy p files baseVersion r = Ok res ->
  Strategy res = strategy /\ BaseVersion res = baseVersion /\ OutputFile res = snd p.
Proof.
  unfold calculateCompressionResult.
  destruct (read_file r p); intros Heq; inversion Heq; now repeat split.
Qed.

Lemma createBsdiffDelta_base w files version baseVersion r res r' :
  createBsdiffDelta w files version baseVersion r = (Ok res, r') ->
  Strategy res = "bsdiff" /\ BaseVersion res = baseVersion.
Proof.
  unfold createBsdiffDelta.
  repeat match goal with
         | |- context [match ?x with _ => _ end] => destruct x eqn:?
         end; simpl; intros Heq; inversion Heq as [[Hres Hr]]; subst;
    match goal with
    | Hc : calculateCompressionResult _ _ _ _ _ = Ok _ |- _ =>
        apply calculateCompressionResult_base in Hc; tauto
    end.
Qed.

Lemma createDelta_base cm w files version baseVersion r res r' :
  createDelta cm w files version baseVersion r = (Ok res, r') ->
  is_delta_strategy (Strategy res) = true /\ BaseVersion res = baseVersion.
Proof.
  assert (Hbs : forall r0, createBsdiffDelta w files version baseVersion r0 = (Ok res, r') ->
                is_delta_strategy (Strategy res) = true /\ BaseVersion res = baseVersion).
  { intros r0 Hb. apply createBsdiffDelta_base in Hb as [Hs Hb]. now rewrite Hs. }
  unfold createDelta.
  destruct (String.eqb _ "psd_smart").
  - unfold createPSDSmartDelta, fallbackToBinaryDelta.
    destruct (find_psd files); [| discriminate].
    destruct (extractPSDLayerInfo _ _); [| apply Hbs].
    destruct (extractPreviousVersionLayers _ _ _ _) as [[prev | e] r1]; [| apply Hbs].
    destruct (createSmartDeltaFile _ _ _ _ _ _ _) as [[size | e] r2]; [| discriminate].
    intros Heq. inversion Heq. now split.
  - destruct (String.eqb _ "bsdiff"); [apply Hbs | discriminate].
Qed.

(** A snapshot with a delta strategy was attempted as a delta: at a version
    above 1, with the chain-length check of the previous version negative. *)
Lemma createSnapshot_delta cm w files version prevVersion r res r' :
  createSnapshot cm w files version prevVersion r = (Ok res, r') ->
  is_delta_strategy (Strategy res) = true ->
  1 < version /\ shouldCreateNewSnapshot cm r prevVersion = false
  /\ BaseVersion res = prevVersion.
Proof.
  assert (Hlz4 : forall r0, compressWithLZ4 w files version r0 = (Ok res, r') ->
                 is_delta_strategy (Strategy res) = true -> False).
  { intros r0 Hc. apply compressWithLZ4_strategy in Hc. rewrite Hc. discriminate. }
  unfold createSnapshot.
  destruct (shouldUseLZ4 files version); [intros; exfalso; eauto |].
  destruct (Z.gtb_spec version 1) as [Hv | Hv]; simpl; [| intros; exfalso; eauto].
  destruct (shouldCreateNewSnapshot cm r prevVersion); simpl; [intros; exfalso; eauto |].
  destruct (createDelta cm w files version prevVersion r) as [[d | e] r1] eqn:Hd;
    [| intros; exfalso; eauto].
  destruct (PrimFloat.leb _ _); [| intros; exfalso; eauto].
  intros Heq _. inversion Heq; subst.
  apply createDelta_base in Hd as [_ Hb]. now repeat split.
Qed.

(** *** The chain-length check when no legacy ZIP exists *)

Lemma getDeltaChainLength_loop_no_zip r v iterations count :
  ObjectsDir r = ∅ ->
  getDeltaChainLength_loop r v iterations count = count + Z.of_nat iterations.
Proof.
  intros Hobj. revert v count.
  induction iterations as [|n IH]; intros v count; simpl getDeltaChainLength_loop.
  - lia.
  - unfold fileExists, read_file. simpl. rewrite Hobj, lookup_empty.
    rewrite IH. lia.
Qed.

Lemma getDeltaChainLength_no_zip r ver :
  ObjectsDir r = ∅ -> getDeltaChainLength r ver = Z.max 0 ver.
Proof.
  intros Hobj. unfold getDeltaChainLength.
  rewrite getDeltaChainLength_loop_no_zip by exact Hobj. lia.
Qed.

Lemma GetCurrentVersion_nonneg r : 0 <= GetCurrentVersion r.
Proof.
  unfold GetCurrentVersion.
  apply (map_fold_weak_ind (fun acc (_ : gmap Z Commit) => 0 <= acc)); [lia |].
  intros n c m acc _ Hacc. destruct (Z.gtb_spec n acc); lia.
Qed.

(** *** The invariant *)

(** No legacy ZIP exists, and a version recorded with a delta strategy is
    above 1, at most [MaxDeltaChainLength], and based on its predecessor. *)
Definition chain_invariant (cm : CommitManager) (r : Repo) : Prop :=
  ObjectsDir r = ∅
  /\ forall v c info,
       CommitsDir r !! v = Some c ->
       CompressionInfo c = Some info ->
       is_delta_strategy (Strategy info) = true ->
       1 < v /\ v <= MaxDeltaChainLength cm /\ BaseVersion info = v - 1.

Lemma chain_invariant_same_records cm r r' :
  same_records r r' -> chain_invariant cm r -> chain_invariant cm r'.
Proof.
  intros (Hobj & Hcommits & _) [Hempty Hdelta]. split.
  - congruence.
  - intros v c info. rewrite Hcommits. apply Hdelta.
Qed.

Lemma chain_invariant_commit cm w message stagedFiles r :
  chain_invariant cm r ->
  chain_invariant cm (snd (CreateCommit cm w message stagedFiles r)).
Proof.
  intros Hinv. unfold CreateCommit.
  destruct stagedFiles as [|f files]; [exact Hinv |].
  set (staged := f :: files).
  pose proof (createSnapshot_same_records cm w staged (GetCurrentVersion r + 1)
                (GetCurrentVersion r) r) as Hsame.
  destruct (createSnapshot cm w staged (GetCurrentVersion r + 1) (GetCurrentVersion r) r)
    as [[res | e] r1] eqn:Hsnap; simpl in Hsame |- *.
  - pose proof (chain_invariant_same_records cm r r1 Hsame Hinv) as [Hempty Hdelta].
    split; [exact Hempty |].
    intros v c info. simpl.
    destruct (decide (GetCurrentVersion r + 1 = v)) as [Hv | Hv].
    + subst v. rewrite lookup_insert_eq. intros Hc. inversion Hc; subst c; clear Hc.
      simpl. intros Hinfo Hstrategy. inversion Hinfo; subst info; clear Hinfo.
      destruct (createSnapshot_delta _ _ _ _ _ _ _ _ Hsnap Hstrategy)
        as (Hone & Hcap & Hbase).
      unfold shouldCreateNewSnapshot in Hcap.
      rewrite getDeltaChainLength_no_zip in Hcap by apply Hinv.
      pose proof (GetCurrentVersion_nonneg r).
      destruct (Z.geb_spec (Z.max 0 (GetCurrentVersion r)) (MaxDeltaChainLength cm));
        [discriminate |].
      repeat split; lia.
    + rewrite lookup_insert_ne by exact Hv. apply Hdelta.
  - exact (chain_invariant_same_records cm r r1 Hsame Hinv).
Qed.

Lemma reachable_chain_invariant cm r : reachable cm r -> chain_invariant cm r.
Proof.
  induction 1 as [| r w message stagedFiles _ IH | r v c info _ IH Hc Hinfo].
  - split; [reflexivity |]. intros v c info. simpl. now rewrite lookup_empty.
  - now apply chain_invariant_commit.
  - eapply chain_invariant_same_records; [apply optimizeToCache_same_records | exact IH].
Qed.

Lemma deltaChainLength_below cm r v fuel :
  chain_invariant cm r -> deltaChainLength r v fuel <= Z.max 0 (v - 1).
Proof.
  intros [_ Hdelta]. revert v. induction fuel as [|fuel IH]; intros v; simpl; [lia |].
  destruct (CommitsDir r !! v) as [c |] eqn:Hc; [| lia].
  destruct c as [? ? ? ? ? ? ? ? [info |]]; [| lia].
  destruct (is_delta_strategy (Strategy info)) eqn:Hs; [| lia].
  destruct (Hdelta v _ info Hc eq_refl Hs) as (Hone & _ & Hbase).
  rewrite Hbase. specialize (IH (v - 1)). lia.
Qed.

End DeltaChain.

(** C8. In every repository state reachable through the commit pipeline the
    delta chain of every version is at most [MaxDeltaChainLength] long (5 in
    a manager made by [NewCommitManager]).  A snapshot that comes out with a
    delta strategy was attempted above version 1 and with the chain-length
    check on the previous version negative; when that check is positive the
    snapshot is the LZ4 encoding. *)
Theorem C8_delta_chain_bounded :
  forall (E : External) (cm : CommitManager),
    0 <= MaxDeltaChainLength cm ->
    (forall r, reachable cm r ->
       forall v fuel, deltaChainLength r v fuel <= MaxDeltaChainLength cm)
    /\ (forall w files version prevVersion r res r',
          createSnapshot cm w files version prevVersion r = (Ok res, r') ->
          is_delta_strategy (Strategy res) = true ->
          1 < version /\ shouldCreateNewSnapshot cm r prevVersion = false)
    /\ (forall w files version prevVersion r,
          shouldCreateNewSnapshot cm r prevVersion = true ->
          createSnapshot cm w files version prevVersion r
          = compressWithLZ4 w files version r).
Proof.
  intros E cm Hmax. split; [| split].
  - intros r Hreach v fuel.
    pose proof (reachable_chain_invariant cm r Hreach) as Hinv.
    pose proof (deltaChainLength_below cm r v fuel Hinv) as Hbelow.
    destruct fuel as [|fuel]; simpl in *; [lia |].
    destruct (CommitsDir r !! v) as [c |] eqn:Hc; [| lia].
    destruct c as [? ? ? ? ? ? ? ? [info |]]; [| lia].
    destruct (is_delta_strategy (Strategy info)) eqn:Hs; [| lia].
    destruct Hinv as [_ Hdelta].
    destruct (Hdelta v _ info Hc eq_refl Hs) as (Hone & Hle & _). lia.
  - intros w files version prevVersion r res r' Hsnap Hs.
    destruct (createSnapshot_delta _ _ _ _ _ _ _ _ Hsnap Hs) as (? & ? & _). now split.
  - intros w files version prevVersion r Hcap. unfold createSnapshot.
    rewrite Hcap. rewrite andb_false_r. now destruct (shouldUseLZ4 files version).
Qed.

(** The second commit of the sample design is a smart delta on the first:
    its chain has length 1. *)
Lemma C8_delta_chain_bounded_witness :
  deltaChainLength (snd Samples.design_commit_2) 2 3 = 1
  /\ deltaChainLength (snd Samples.design_commit_2) 2 3 <= 5.
Proof.
  split; [vm_compute; reflexivity |].
  destruct (C8_delta_chain_bounded Standin.libraries Samples.cm) as [Hbound _];
    [vm_compute; discriminate |].
  apply (Hbound (snd Samples.design_commit_2)).
  unfold Samples.design_commit_2, Samples.design_commit_1.
  apply reachable_commit, reachable_commit, reachable_init.
Defined.


(** ** C4: the LZ4 ratio boundary *)

Section LZ4Boundary.

Context `{External}.

(** What the loop of [compressWithLZ4] has written through the LZ4 writer
    when it ends, and [originalSize]. *)
Definition lz4_container (w : World) (files : list StagedFile) : bytes * Z :=
  fold_left (compressWithLZ4_file w) files (EmptyString, 0).

(** The file [versions/v<N>.lz4] when the writer is closed. *)
Definition lz4_artifact (w : World) (files : list StagedFile) : bytes :=
  lz4_compress (fst (lz4_container w files)).

Lemma read_write_file (p : StoredPath) (content : bytes) (r : Repo) :
  read_file (write_file p content r) p = Some content.
Proof.
  destruct p as [[] name]; unfold read_file, write_file; simpl; apply lookup_insert_eq.
Qed.

Lemma read_remove_file (p : StoredPath) (r : Repo) :
  read_file (remove_file p r) p = None.
Proof.
  destruct p as [[] name]; unfold read_file, remove_file; simpl; apply lookup_delete_eq.
Qed.

Lemma fileExists_write_file (p : StoredPath) (content : bytes) (r : Repo) :
  fileExists (write_file p content r) p = true.
Proof. unfold fileExists. now rewrite read_write_file. Qed.

Lemma fileExists_remove_file (p : StoredPath) (r : Repo) :
  fileExists (remove_file p r) p = false.
Proof. unfold fileExists. now rewrite read_remove_file. Qed.

(** [compressWithLZ4] when something was read: the ratio test decides. *)
Lemma compressWithLZ4_ratio (w : World) (files : list StagedFile) (version : Z) (r : Repo) :
  let originalSize := snd (lz4_container w files) in
  let compressedSize := len (lz4_artifact w files) in
  let versionPath := (Versions, lz4_name version) in
  let stored := write_file versionPath (lz4_artifact w files) r in
  0 < originalSize < 2 ^ 51 ->
  0 < compressedSize < 2 ^ 53 ->
  compressWithLZ4 w files version r
  = if 6 * originalSize <? 5 * compressedSize
    then (Err "compression failed: file became larger", remove_file versionPath stored)
    else (Ok {| Strategy := "lz4";
                OutputFile := lz4_name version;
                OriginalSize := originalSize;
                CompressedSize := compressedSize;
                CompressionRatio := (float64 compressedSize / float64 originalSize)%float;
                BaseVersion := 0;
                CacheLevel := "versions" |}, stored).
Proof.
  unfold lz4_artifact, lz4_container, compressWithLZ4.
  destruct (fold_left (compressWithLZ4_file w) files (EmptyString, 0))
    as [written originalSize].
  cbn [fst snd]. intros Ho Hc.
  destruct (Z.eqb_spec originalSize 0) as [-> | _]; [lia |].
  rewrite Binary64.float64_ratio_gt_1_2 by lia.
  destruct (6 * originalSize <? 5 * len (lz4_compress written)); [reflexivity |].
  destruct (Z.eqb_spec (len (lz4_compress written)) 0) as [Hz | _]; [lia | reflexivity].
Qed.

(** A commit whose snapshot is the LZ4 encoding. *)
Lemma CreateCommit_lz4 (cm : CommitManager) (w : World) (message : string)
    (files : list StagedFile) (r : Repo) :
  files <> [] ->
  shouldUseLZ4 files (GetCurrentVersion r + 1) = true ->
  CreateCommit cm w message files r
  = match compressWithLZ4 w files (GetCurrentVersion r + 1) r with
    | (Err e, r') => (Err ("snapshot creation failed: " +:+ e), r')
    | (Ok res, r') =>
        let commit :=
          {| Hash := generateCommitHash message files (GetCurrentVersion r + 1);
             Message := message;
             Author := getAuthor;
             FilesCount := count_of files;
             Version := GetCurrentVersion r + 1;
             Metadata := scanFilesMetadata w files ∅;
             ParentHash := getCurrentCommitHash r;
             SnapshotZip :=
               if String.eqb (Strategy res) "zip" then OutputFile res else EmptyString;
             CompressionInfo := Some res |} in
        (Ok commit, updateHead (Hash commit) (saveCommitMetadata commit r'))
    end.
Proof.
  intros Hne Hlz4. unfold CreateCommit, createSnapshot. rewrite Hlz4.
  destruct files; [congruence | reflexivity].
Qed.

End LZ4Boundary.

(** C4. An LZ4 encoding that read something ([0 < originalSize], both sizes
    within the range [float64] holds exactly).  When the compressed size is
    exactly 1.2 times the original size, [versions/v<N>.lz4] is kept, a
    [CompressionResult] with strategy lz4 is returned, and a commit whose
    snapshot is this encoding is recorded.  When the compressed size is more
    than 1.2 times the original size, the file is removed again, the encoding
    returns an error and no result, and such a commit fails and records
    nothing. *)
Theorem C4_lz4_ratio_boundary :
  forall (E : External) (w : World) (files : list StagedFile) (version : Z) (r : Repo),
    let originalSize := snd (lz4_container w files) in
    let compressedSize := len (lz4_artifact w files) in
    let versionPath := (Versions, lz4_name version) in
    0 < originalSize < 2 ^ 51 ->
    compressedSize < 2 ^ 53 ->
    (5 * compressedSize = 6 * originalSize ->
     exists res,
       compressWithLZ4 w files version r
       = (Ok res, write_file versionPath (lz4_artifact w files) r)
       /\ read_file (snd (compressWithLZ4 w files version r)) versionPath
          = Some (lz4_artifact w files)
       /\ Strategy res = "lz4" /\ OutputFile res = lz4_name version
       /\ OriginalSize res = originalSize /\ CompressedSize res = compressedSize
       /\ forall cm message,
            version = GetCurrentVersion r + 1 ->
            shouldUseLZ4 files version = true ->
            exists commit r',
              CreateCommit cm w message files r = (Ok commit, r')
              /\ CompressionInfo commit = Some res
              /\ CommitsDir r' !! version = Some commit
              /\ read_file r' versionPath = Some (lz4_artifact w files))
    /\ (6 * originalSize < 5 * compressedSize ->
        (exists e,
           compressWithLZ4 w files version r
           = (Err e, remove_file versionPath
                       (write_file versionPath (lz4_artifact w files) r)))
        /\ fileExists (snd (compressWithLZ4 w files version r)) versionPath = false
        /\ forall cm message,
             version = GetCurrentVersion r + 1 ->
             shouldUseLZ4 files version = true ->
             exists e r',
               CreateCommit cm w message files r = (Err e, r')
               /\ CommitsDir r' = CommitsDir r
               /\ fileExists r' versionPath = false).
Proof.
  intros E w files version r originalSize compressedSize versionPath Ho Hc.
  assert (Hne : files <> []).
  { intros ->. unfold originalSize, lz4_container in Ho. simpl in Ho. lia. }
  split.
  - intros Hratio.
    assert (Hpos : 0 < compressedSize < 2 ^ 53) by lia.
    pose proof (compressWithLZ4_ratio w files version r Ho Hpos) as Heq.
    fold originalSize compressedSize versionPath in Heq.
    destruct (Z.ltb_spec (6 * originalSize) (5 * compressedSize)) as [Hlt | _]; [lia |].
    eexists. split; [exact Heq |]. rewrite Heq. cbn [snd].
    split; [apply read_write_file |].
    repeat (split; [reflexivity |]).
    intros cm message Hv Hlz4.
    rewrite Hv in Hlz4. rewrite (CreateCommit_lz4 cm w message files r Hne Hlz4).
    rewrite <- Hv. rewrite Heq.
    eexists. eexists. split; [reflexivity |]. cbn zeta.
    split; [reflexivity |]. split.
    + cbn. apply lookup_insert_eq.
    + destruct versionPath as [d name]. unfold read_file, write_file. destruct d; cbn;
        apply lookup_insert_eq.
  - intros Hratio.
    assert (Hpos : 0 < compressedSize < 2 ^ 53) by lia.
    pose proof (compressWithLZ4_ratio w files version r Ho Hpos) as Heq.
    fold originalSize compressedSize versionPath in Heq.
    destruct (Z.ltb_spec (6 * originalSize) (5 * compressedSize)) as [_ | Hge]; [| lia].
    split; [eexists; exact Heq |].
    rewrite Heq. cbn [snd]. split; [apply fileExists_remove_file |].
    intros cm message Hv Hlz4.
    rewrite Hv in Hlz4. rewrite (CreateCommit_lz4 cm w message files r Hne Hlz4).
    rewrite <- Hv. rewrite Heq.
    eexists. eexists. split; [reflexivity |].
    split; [| apply fileExists_remove_file].
    destruct versionPath as [[] name]; reflexivity.
Qed.

(** The artifact of one 70-byte file has 84 bytes and is kept; the artifact
    of one 10-byte file has 24 bytes and is removed. *)
Lemma C4_lz4_ratio_boundary_witness :
  (exists res,
     fst (compressWithLZ4 (H := Standin.libraries) (Samples.world Samples.notes_70)
            (Samples.staged Samples.notes_70) 1 NewRepo) = Ok res
     /\ OriginalSize res = 70 /\ CompressedSize res = 84)
  /\ fileExists
       (snd (compressWithLZ4 (H := Standin.libraries) (Samples.world Samples.notes_10)
               (Samples.staged Samples.notes_10) 1 NewRepo))
       (Versions, lz4_name 1) = false.
Proof.
  split.
  - destruct (C4_lz4_ratio_boundary Standin.libraries (Samples.world Samples.notes_70)
                (Samples.staged Samples.notes_70) 1 NewRepo) as [Hkept _].
    + vm_compute. split; reflexivity.
    + vm_compute. reflexivity.
    + destruct Hkept as (res & Heq & _ & _ & _ & Ho & Hc & _); [vm_compute; reflexivity |].
      exists res. rewrite Heq. split; [reflexivity |].
      split; [rewrite Ho | rewrite Hc]; vm_compute; reflexivity.
  - destruct (C4_lz4_ratio_boundary Standin.libraries (Samples.world Samples.notes_10)
                (Samples.staged Samples.notes_10) 1 NewRepo) as [_ Hgone].
    + vm_compute. split; reflexivity.
    + vm_compute. reflexivity.
    + destruct Hgone as (_ & Hfile & _); [vm_compute; reflexivity |]. exact Hfile.
Defined.

(** ** C5: the delta ratio boundary *)

Section DeltaBoundary.

Context `{External}.

Lemma read_write_file_ne (p q : StoredPath) (content : bytes) (r : Repo) :
  p <> q -> read_file (write_file p content r) q = read_file r q.
Proof.
  destruct p as [d name], q as [d' name']. intros Hne.
  unfold read_file, write_file. destruct d, d'; simpl; try reflexivity;
    apply lookup_insert_ne; congruence.
Qed.

Lemma read_remove_file_ne (p q : StoredPath) (r : Repo) :
  p <> q -> read_file (remove_file p r) q = read_file r q.
Proof.
  destruct p as [d name], q as [d' name']. intros Hne.
  unfold read_file, remove_file. destruct d, d'; simpl; try reflexivity;
    apply lookup_delete_ne; congruence.
Qed.

(** The LZ4 encoding touches [versions/] only. *)
Lemma compressWithLZ4_elsewhere (w : World) (files : list StagedFile) (version : Z)
    (r : Repo) (q : StoredPath) :
  fst q <> Versions ->
  read_file (snd (compressWithLZ4 w files version r)) q = read_file r q.
Proof.
  intros Hq. unfold compressWithLZ4.
  destruct (fold_left _ _ _) as [written originalSize].
  assert (Hne : (Versions, lz4_name version) <> q) by (intros <-; now apply Hq).
  repeat match goal with
         | |- context [if ?x then _ else _] => destruct x
         end; cbn [snd];
    rewrite ?read_remove_file_ne, ?read_write_file_ne by exact Hne; reflexivity.
Qed.

Lemma Ok_inj {A : Type} (a b : A) : Ok a = Ok b -> a = b.
Proof. intros Heq. now injection Heq. Qed.

Lemma temp_name_ne_bsdiff (version baseVersion : Z) :
  "temp_v" +:+ Itoa version +:+ ".lz4" <> bsdiff_name version baseVersion.
Proof. unfold bsdiff_name. rewrite !append_cons. discriminate. Qed.

(** A binary-patch delta that succeeds leaves its artifact in [cache/]; the
    ratio it reports is the quotient of the two sizes it reports. *)
Lemma createBsdiffDelta_artifact (w : World) (files : list StagedFile)
    (version baseVersion : Z) (r : Repo) (d : CompressionResult) (r1 : Repo) :
  createBsdiffDelta w files version baseVersion r = (Ok d, r1) ->
  CompressionRatio d = (float64 (CompressedSize d) / float64 (OriginalSize d))%float
  /\ OutputFile d = bsdiff_name version baseVersion
  /\ exists artifact,
       read_file r1 (Cache, OutputFile d) = Some artifact
       /\ len artifact = CompressedSize d.
Proof.
  unfold createBsdiffDelta.
  destruct (findVersionInStorage _ baseVersion) as [basePath |]; [| discriminate].
  destruct (read_file _ basePath) as [baseRaw |]; [| discriminate].
  destruct (read_file _ (Cache, _)) as [currentFile |]; [| discriminate].
  destruct (openStoredFile_contents basePath baseRaw) as [baseFile |]; [| discriminate].
  unfold calculateCompressionResult. rewrite read_write_file. cbn [fst snd].
  intros Heq. apply pair_equal_spec in Heq as [Hd Hr]. apply Ok_inj in Hd. subst d r1.
  cbn [CompressionRatio CompressedSize OriginalSize OutputFile snd].
  split; [reflexivity |]. split; [reflexivity |].
  eexists. split; [| reflexivity].
  rewrite read_remove_file_ne.
  - apply read_write_file.
  - intros Hsame. apply (f_equal snd) in Hsame. exact (temp_name_ne_bsdiff _ _ Hsame).
Qed.

Lemma createPSDSmartDelta_artifact (cm : CommitManager) (w : World)
    (files : list StagedFile) (version baseVersion : Z) (r : Repo)
    (d : CompressionResult) (r1 : Repo) :
  createPSDSmartDelta cm w files version baseVersion r = (Ok d, r1) ->
  CompressionRatio d = (float64 (CompressedSize d) / float64 (OriginalSize d))%float
  /\ exists artifact,
       read_file r1 (Cache, OutputFile d) = Some artifact
       /\ len artifact = CompressedSize d.
Proof.
  assert (Hbs : forall r0, createBsdiffDelta w files version baseVersion r0 = (Ok d, r1) ->
            CompressionRatio d
            = (float64 (CompressedSize d) / float64 (OriginalSize d))%float
            /\ exists artifact,
                 read_file r1 (Cache, OutputFile d) = Some artifact
                 /\ len artifact = CompressedSize d).
  { intros r0 Hb. apply createBsdiffDelta_artifact in Hb. tauto. }
  unfold createPSDSmartDelta, fallbackToBinaryDelta.
  destruct (find_psd files) as [psdFile |]; [| discriminate].
  destruct (extractPSDLayerInfo _ _); [| apply Hbs].
  destruct (extractPreviousVersionLayers _ _ _ _) as [[prev | e] r2]; [| apply Hbs].
  unfold createSmartDeltaFile.
  destruct (w !! AbsolutePath psdFile) as [f |]; [| discriminate].
  intros Heq. apply pair_equal_spec in Heq as [Hd Hr]. apply Ok_inj in Hd. subst d r1.
  cbn [CompressionRatio CompressedSize OriginalSize OutputFile snd].
  split; [reflexivity |].
  eexists. split; [apply read_write_file | reflexivity].
Qed.

Lemma createDelta_artifact (cm : CommitManager) (w : World) (files : list StagedFile)
    (version baseVersion : Z) (r : Repo) (d : CompressionResult) (r1 : Repo) :
  createDelta cm w files version baseVersion r = (Ok d, r1) ->
  CompressionRatio d = (float64 (CompressedSize d) / float64 (OriginalSize d))%float
  /\ exists artifact,
       read_file r1 (Cache, OutputFile d) = Some artifact
       /\ len artifact = CompressedSize d.
Proof.
  unfold createDelta.
  destruct (String.eqb _ "psd_smart"); [apply createPSDSmartDelta_artifact |].
  destruct (String.eqb _ "bsdiff"); [| discriminate].
  intros Hb. apply createBsdiffDelta_artifact in Hb. tauto.
Qed.

End DeltaBoundary.

(** C5. A delta encoding at a version above 1 that succeeded, with both
    sizes within the range [float64] holds exactly.  When the delta is at
    most 0.7 times the original size (0.7 included) the snapshot is the
    delta.  When it is larger, the snapshot is the LZ4 encoding; the removal
    before it names [objects/deltas/<OutputFile>], and the delta artifact,
    which is [cache/<OutputFile>], is still there afterwards. *)
Theorem C5_inefficient_delta_stays_in_cache :
  forall (E : External) (cm : CommitManager) (w : World) (files : list StagedFile)
         (version prevVersion : Z) (r : Repo) (d : CompressionResult) (r1 : Repo),
    shouldUseLZ4 files version = false ->
    1 < version ->
    shouldCreateNewSnapshot cm r prevVersion = false ->
    createDelta cm w files version prevVersion r = (Ok d, r1) ->
    0 < CompressedSize d < 2 ^ 53 ->
    0 < OriginalSize d < 2 ^ 53 ->
    (10 * CompressedSize d <= 7 * OriginalSize d ->
     createSnapshot cm w files version prevVersion r = (Ok d, r1))
    /\ (7 * OriginalSize d < 10 * CompressedSize d ->
        createSnapshot cm w files version prevVersion r
        = compressWithLZ4 w files version (remove_file (Deltas, OutputFile d) r1)
        /\ exists artifact,
             read_file r1 (Cache, OutputFile d) = Some artifact
             /\ len artifact = CompressedSize d
             /\ read_file (snd (createSnapshot cm w files version prevVersion r))
                  (Cache, OutputFile d) = Some artifact).
Proof.
  intros E cm w files version prevVersion r d r1 Hlz4 Hv Hcap Hd Hc Ho.
  destruct (createDelta_artifact cm w files version prevVersion r d r1 Hd)
    as (Hratio & artifact & Hfile & Hlen).
  assert (Hsnap : createSnapshot cm w files version prevVersion r
                  = if 10 * CompressedSize d <=? 7 * OriginalSize d then (Ok d, r1)
                    else compressWithLZ4 w files version
                           (remove_file (Deltas, OutputFile d) r1)).
  { unfold createSnapshot. rewrite Hlz4, Hcap, Hd.
    destruct (Z.gtb_spec version 1) as [_ | Hle]; [| lia]. cbn [andb negb].
    rewrite Hratio, Binary64.float64_ratio_le_0_7 by assumption. reflexivity. }
  split; intros Hcmp; rewrite Hsnap.
  - destruct (Z.leb_spec (10 * CompressedSize d) (7 * OriginalSize d)); [reflexivity | lia].
  - destruct (Z.leb_spec (10 * CompressedSize d) (7 * OriginalSize d)); [lia |].
    split; [reflexivity |].
    exists artifact. split; [exact Hfile |]. split; [exact Hlen |].
    rewrite compressWithLZ4_elsewhere by (cbn; discriminate).
    rewrite read_remove_file_ne by discriminate. exact Hfile.
Qed.

(** The second commit of the logo with content that does not compress: the
    binary patch has 239 bytes for 210, the snapshot is re-encoded with LZ4,
    and [cache/v2_from_v1.bsdiff] is still there. *)
Lemma C5_inefficient_delta_stays_in_cache_witness :
  option_map Strategy
    (match fst Samples.logo_commit_2_dense with
     | Ok commit => CompressionInfo commit
     | Err _ => None
     end) = Some "lz4"
  /\ exists artifact,
       read_file
         (snd (createSnapshot (H := Standin.libraries) Samples.cm
                 (Samples.world Samples.logo_2_dense)
                 (Samples.staged Samples.logo_2_dense) 2 1 (snd Samples.logo_commit_1)))
         (Cache, "v2_from_v1.bsdiff") = Some artifact
       /\ len artifact = 239.
Proof.
  split; [vm_compute; reflexivity |].
  pose (out := createDelta (H := Standin.libraries) Samples.cm
                 (Samples.world Samples.logo_2_dense)
                 (Samples.staged Samples.logo_2_dense) 2 1 (snd Samples.logo_commit_1)).
  destruct (C5_inefficient_delta_stays_in_cache Standin.libraries Samples.cm
              (Samples.world Samples.logo_2_dense) (Samples.staged Samples.logo_2_dense)
              2 1 (snd Samples.logo_commit_1) (Samples.the_result (fst out)) (snd out))
    as [_ Hleft].
  - vm_compute. reflexivity.
  - lia.
  - vm_compute. reflexivity.
  - vm_compute. reflexivity.
  - vm_compute. split; reflexivity.
  - vm_compute. split; reflexivity.
  - destruct Hleft as (_ & artifact & _ & Hlen & Hfile); [vm_compute; reflexivity |].
    assert (Hname : OutputFile (Samples.the_result (fst out)) = "v2_from_v1.bsdiff")
      by (vm_compute; reflexivity).
    assert (Hsize : CompressedSize (Samples.the_result (fst out)) = 239)
      by (vm_compute; reflexivity).
    rewrite Hname in Hfile. rewrite Hsize in Hlen.
    exists artifact. split; [exact Hfile | exact Hlen].
Defined.

(** ** C9: the binary-patch delta in the restore path *)

Import Restore.

(** C9. A version [V] without a direct, cached, optimized or legacy-ZIP
    artifact, whose binary-patch delta is [cache/v<V>_from_v<V-1>.bsdiff],
    where the commit pipeline writes it: the path finder looks for the patch
    in [objects/deltas/], does not find it there, and fails; it neither
    consumes the patch nor continues at [V - 1]. *)
Theorem C9_cache_bsdiff_not_consumed :
  forall (r : Repo) (V : Z),
    0 < V ->
    fileExists r (Versions, lz4_name V) = false ->
    fileExists r (Cache, lz4_name V) = false ->
    fileExists r (Cache, zstd_name V) = false ->
    fileExists r (Objects, zip_name V) = false ->
    fileExists r (Cache, bsdiff_name V (V - 1)) = true ->
    fileExists r (Deltas, bsdiff_name V (V - 1)) = false ->
    fileExists r (Cache, psd_smart_name V (V - 1)) = false ->
    findOptimizedRestorationPath r V = Err "missing restoration data for version".
Proof.
  intros r V HV Hversions Hcache Hzstd Hzip _ Hdeltas Hsmart.
  unfold findOptimizedRestorationPath.
  destruct (Z.to_nat V) as [|n] eqn:Hn; [lia |].
  cbn [findOptimizedRestorationPath_loop].
  now rewrite Hversions, Hcache, Hzstd, Hzip, Hdeltas, Hsmart.
Qed.

(** The second commit of the logo is a binary patch on the first; restoring
    it fails. *)
Lemma C9_cache_bsdiff_not_consumed_witness :
  option_map Strategy
    (match fst Samples.logo_commit_2 with
     | Ok commit => CompressionInfo commit
     | Err _ => None
     end) = Some "bsdiff"
  /\ fileExists (snd Samples.logo_commit_2) (Cache, "v2_from_v1.bsdiff") = true
  /\ findOptimizedRestorationPath (snd Samples.logo_commit_2) 2
     = Err "missing restoration data for version"
  /\ RestoreFilesFromCommit (H := Standin.libraries) (snd Samples.logo_commit_2) "v2" []
     = Err "missing restoration data for version".
Proof.
  split; [vm_compute; reflexivity |].
  split; [vm_compute; reflexivity |].
  split; [| vm_compute; reflexivity].
  apply (C9_cache_bsdiff_not_consumed (snd Samples.logo_commit_2) 2);
    first [lia | vm_compute; reflexivity].
Defined.

(** ** C1: restoring a committed version *)

Section SmartDeltaRestore.

Context `{External}.

(** The smart-delta restore writes the PSD file named in the delta, and no
    other file. *)
Lemma restoreFromSmartDelta_one_file (r : Repo) (commit : Commit)
    (filesToRestore : list string) (st : State) :
  written (snd (restoreFromSmartDelta r commit filesToRestore st)) = written st
  \/ exists filePath content,
       written (snd (restoreFromSmartDelta r commit filesToRestore st))
       = <[filePath := content]> (written st).
Proof.
  unfold restoreFromSmartDelta.
  repeat match goal with
         | |- context [match ?x with _ => _ end] => destruct x; cbn [snd]
         end;
    first [ left; reflexivity | right; eexists; eexists; reflexivity ].
Qed.

End SmartDeltaRestore.

(** C1. The sample design is committed twice with a PSD file and a logo
    staged; the second commit is recorded with the strategy psd_smart.
    Restoring version 2 with an empty filter succeeds and writes the PSD
    file only: the logo staged with it is not restored.  Restoring version
    1, an LZ4 snapshot, writes both files as they were staged. *)
Theorem C1_smart_delta_restore_drops_files :
  exists commit st st1,
    fst Samples.design_commit_2 = Ok commit
    /\ option_map Strategy (CompressionInfo commit) = Some "psd_smart"
    /\ map Path (Samples.staged Samples.design_2) = ["design.psd"; "logo.ai"]
    /\ RestoreFilesFromCommit (H := Standin.libraries) (snd Samples.design_commit_2) "v2" []
       = Ok st
    /\ map_to_list (written st) = [("design.psd", Samples.psd_layered)]
    /\ written st !! "logo.ai" = None
    /\ RestoreFilesFromCommit (H := Standin.libraries) (snd Samples.design_commit_2) "v1" []
       = Ok st1
    /\ written st1 !! "design.psd" = Some Samples.psd_flat
    /\ written st1 !! "logo.ai" = Some "%PDF-1.5 logo one".
Proof.
  pose (restored := RestoreFilesFromCommit (H := Standin.libraries)
                      (snd Samples.design_commit_2)).
  pose (state_of := fun x : result State =>
                      match x with Ok st => st | Err _ => new_state
                        {| Hash := EmptyString; Message := EmptyString;
                           Author := EmptyString; FilesCount := 0; Version := 0;
                           Metadata := ∅; ParentHash := EmptyString;
                           SnapshotZip := EmptyString; CompressionInfo := None |} end).
  exists (match fst Samples.design_commit_2 with
          | Ok commit => commit
          | Err _ => {| Hash := EmptyString; Message := EmptyString;
                        Author := EmptyString; FilesCount := 0; Version := 0;
                        Metadata := ∅; ParentHash := EmptyString;
                        SnapshotZip := EmptyString; CompressionInfo := None |}
          end), (state_of (restored "v2" [])), (state_of (restored "v1" [])).
  repeat split; vm_compute; reflexivity.
Qed.

(** ** C2: decoding the LZ4 container *)

(** C2. The container of an empty file and a plain one decodes to the plain
    file only: a record of size 0 is skipped.  The container of an empty
    file, a file whose path holds a colon and a plain file decodes to no
    file at all: the header of the second record does not split into three
    fields, its content is then read as a header line, and the line that
    starts inside it swallows the header of the third record.  The restore
    of the commit of these three files reports all three as errors and
    writes nothing. *)
Theorem C2_container_decode_drops_records :
  exists stream stream' st,
    stream = fst (lz4_container (Samples.world Samples.empty_and_notes)
                    (Samples.staged Samples.empty_and_notes))
    /\ lz4_decompress (External := Standin.libraries)
         (lz4_artifact (H := Standin.libraries) (Samples.world Samples.empty_and_notes)
            (Samples.staged Samples.empty_and_notes)) = Some stream
    /\ map_to_list
         (written (extractFilesFromStream (H := Standin.libraries) stream [] Samples.fresh))
       = [("notes.txt", "hello" +:+ Standin.zero_bytes 200)]
    /\ stream' = fst (lz4_container (Samples.world Samples.texts)
                        (Samples.staged Samples.texts))
    /\ lz4_decompress (External := Standin.libraries)
         (lz4_artifact (H := Standin.libraries) (Samples.world Samples.texts)
            (Samples.staged Samples.texts)) = Some stream'
    /\ map Path (Samples.staged Samples.texts) = ["empty.txt"; "a:b.txt"; "notes.txt"]
    /\ written (extractFilesFromStream (H := Standin.libraries) stream' [] Samples.fresh)
       = ∅
    /\ RestoreFilesFromCommit (H := Standin.libraries) (snd Samples.texts_commit) "v1" []
       = Ok st
    /\ written st = ∅
    /\ RestoredFiles (result_of st) = []
    /\ size (ErrorFiles (result_of st)) = 3%nat.
Proof.
  eexists. eexists.
  exists (match RestoreFilesFromCommit (H := Standin.libraries)
                  (snd Samples.texts_commit) "v1" [] with
          | Ok st => st
          | Err _ => Samples.fresh
          end).
  split; [reflexivity |].
  split; [vm_compute; reflexivity |].
  split; [vm_compute; reflexivity |].
  split; [reflexivity |].
  repeat split; vm_compute; reflexivity.
Qed.

(** ** C7: the type of a parsed layer *)

Section LayerType.

Context `{External}.

Import Photoshop.

(** The layer name matches none of the name patterns of
    [determineLayerType]. *)
Definition plain_name (layerName : string) : bool :=
  let lower := ToLower layerName in
  negb (Contains lower "text" || Contains lower "txt"
        || Contains lower "adjustment" || Contains lower "adj"
        || String.eqb lower "background" || Contains lower "bg").

Lemma determineLayerType_plain (layerName blendMode : string) :
  plain_name layerName = true ->
  determineLayerType layerName blendMode
  = if String.eqb blendMode "normal" then "normal" else "effect".
Proof.
  unfold plain_name, determineLayerType. cbn zeta.
  destruct (Contains _ "text"); [discriminate |].
  destruct (Contains _ "txt"); [discriminate |].
  destruct (Contains _ "adjustment"); [discriminate |].
  destruct (Contains _ "adj"); [discriminate |].
  destruct (String.eqb _ "background"); [discriminate |].
  destruct (Contains _ "bg"); [discriminate |].
  intros _. cbn [orb]. now destruct (String.eqb blendMode "normal").
Qed.

(** A value read by [binary.Read] into [n] bytes has at most [n] bytes. *)
Lemma binary_Read_length (content : bytes) (n pos : Z) (b : bytes) (pos' : Z) :
  binary_Read content n pos = (Ok b, pos') -> (String.length b <= Z.to_nat n)%nat.
Proof.
  unfold binary_Read. destruct (pos + n <=? len content); [| discriminate].
  intros Heq. apply pair_equal_spec in Heq as [Hb _]. apply Ok_inj in Hb. subst b.
  unfold slice. replace (pos + n - pos) with n by lia. apply substring_length_le.
Qed.

(** The blend mode key of a layer record is a 4-byte value. *)
Lemma read_layer_head_key (content : bytes) (pos : Z) (head : layerRecordHead) (pos' : Z) :
  read_layer_head content pos = (Ok head, pos') ->
  (String.length (blendModeKey head) <= 4)%nat.
Proof.
  unfold read_layer_head, read_u32, bind, ret.
  destruct (binary_Read content 18 pos) as [[layerRec | e] p1]; [| discriminate].
  destruct (Seek_current _ p1) as [[skipped | e] p2]; [| discriminate].
  destruct (binary_Read content 4 p2) as [[signature | e] p3]; [| discriminate].
  destruct (binary_Read content 4 p3) as [[key | e] p4] eqn:Hkey; [| discriminate].
  destruct (binary_Read content 4 p4) as [[flags | e] p5]; [| discriminate].
  destruct (binary_Read content 4 p5) as [[extra | e] p6]; cbv beta iota;
    [| discriminate].
  intros Heq. apply pair_equal_spec in Heq as [Hhead _]. apply Ok_inj in Hhead. subst head.
  cbn [blendModeKey]. exact (binary_Read_length content 4 p3 key p4 Hkey).
Qed.

(** [parseIndividualLayer] hands the 4-byte key, not the readable blend
    mode, to [determineLayerType]. *)
Lemma parseIndividualLayer_type (content : bytes) (mtime : option Z) (layerIndex : Z)
    (filePath : string) (pos : Z) (layer : DetailedLayer) (pos' : Z) :
  parseIndividualLayer content mtime layerIndex filePath pos = (Ok layer, pos') ->
  exists key,
    (String.length key <= 4)%nat
    /\ BlendMode layer = mapBlendMode key
    /\ LayerType layer = determineLayerType (Name layer) key.
Proof.
  unfold parseIndividualLayer. unfold bind at 1.
  destruct (read_layer_head content pos) as [[head | e] p1] eqn:Hhead; [| discriminate].
  unfold bind at 1.
  match goal with
  | |- context [match ?m p1 with _ => _ end] => destruct (m p1) as [[layerName | e] p2]
  end; [| discriminate].
  unfold ret. intros Heq. apply pair_equal_spec in Heq as [Hlayer _].
  apply Ok_inj in Hlayer. subst layer. cbn [BlendMode LayerType Name].
  exists (blendModeKey head). split; [| split; reflexivity].
  exact (read_layer_head_key content pos head p1 Hhead).
Qed.

End LayerType.

(** C7. A layer parsed from a layer record whose name matches none of the
    name patterns gets the type effect, whatever its blend mode: the type is
    decided on the 4-byte blend mode key of the record, which is never the
    string normal, and not on the readable blend mode. *)
Theorem C7_parsed_plain_layer_is_effect :
  forall (E : External) (content : bytes) (mtime : option Z) (layerIndex : Z)
         (filePath : string) (pos : Z) (layer : Photoshop.DetailedLayer) (pos' : Z),
    Photoshop.parseIndividualLayer content mtime layerIndex filePath pos
    = (Ok layer, pos') ->
    plain_name (Photoshop.Name layer) = true ->
    Photoshop.LayerType layer = "effect".
Proof.
  intros E content mtime layerIndex filePath pos layer pos' Hparse Hplain.
  destruct (parseIndividualLayer_type content mtime layerIndex filePath pos layer pos' Hparse)
    as (key & Hlen & _ & Htype).
  rewrite Htype, (determineLayerType_plain _ key Hplain).
  destruct (String.eqb key "normal") eqn:Hkey; [| reflexivity].
  apply String.eqb_eq in Hkey. subst key. simpl in Hlen. lia.
Qed.

(** The layer of the sample PSD file: blend mode key [norm], readable blend
    mode normal, name [Layer A]; its type is effect. *)
Lemma C7_parsed_plain_layer_is_effect_witness :
  exists layer pos',
    Photoshop.parseIndividualLayer (H := Standin.libraries) Samples.psd_layered
      (Some 5) 0 "design.psd" 44 = (Ok layer, pos')
    /\ Photoshop.Name layer = "Layer A"
    /\ Photoshop.BlendMode layer = "normal"
    /\ Photoshop.LayerType layer = "effect".
Proof.
  pose (out := Photoshop.parseIndividualLayer (H := Standin.libraries)
                 Samples.psd_layered (Some 5) 0 "design.psd" 44).
  pose (layer := match fst out with
                 | Ok l => l
                 | Err _ => Photoshop.placeholder_layer (H := Standin.libraries)
                              None EmptyString 0
                 end).
  exists layer, (snd out).
  split; [vm_compute; reflexivity |].
  split; [vm_compute; reflexivity |].
  split; [vm_compute; reflexivity |].
  apply (C7_parsed_plain_layer_is_effect Standin.libraries Samples.psd_layered (Some 5) 0
           "design.psd" 44 layer (snd out)).
  - vm_compute. reflexivity.
  - vm_compute. reflexivity.
Defined.

(** ** C10: a staged file that cannot be read *)

Section UnreadableFile.

Context `{External}.

(** [os.Open] and [io.ReadAll] succeed on the staged file. *)
Definition readable (w : World) (f : StagedFile) : bool :=
  match w !! AbsolutePath f with
  | Some _ => true
  | None => false
  end.

Lemma compressWithLZ4_file_unreadable (w : World) (acc : bytes * Z) (g : StagedFile) :
  readable w g = false -> compressWithLZ4_file w acc g = acc.
Proof.
  unfold readable, compressWithLZ4_file.
  destruct (w !! AbsolutePath g); [discriminate | reflexivity].
Qed.

Lemma compressWithLZ4_loop_readable (w : World) (files : list StagedFile) (acc : bytes * Z) :
  fold_left (compressWithLZ4_file w) files acc
  = fold_left (compressWithLZ4_file w) (List.filter (readable w) files) acc.
Proof.
  revert acc. induction files as [|g files IH]; intros acc; [reflexivity |].
  cbn [fold_left List.filter]. destruct (readable w g) eqn:Hg.
  - cbn [fold_left]. apply IH.
  - rewrite (compressWithLZ4_file_unreadable w acc g Hg). apply IH.
Qed.

Lemma lz4_container_readable (w : World) (files : list StagedFile) :
  lz4_container w files = lz4_container w (List.filter (readable w) files).
Proof. apply compressWithLZ4_loop_readable. Qed.

Lemma compressWithLZ4_readable (w : World) (files : list StagedFile) (version : Z)
    (r : Repo) :
  compressWithLZ4 w files version r
  = compressWithLZ4 w (List.filter (readable w) files) version r.
Proof. unfold compressWithLZ4. now rewrite compressWithLZ4_loop_readable. Qed.

Lemma scanFilesMetadata_keeps (w : World) (files : list StagedFile)
    (md : gmap string FileMeta) (key : string) :
  is_Some (md !! key) -> is_Some (scanFilesMetadata w files md !! key).
Proof.
  revert md. induction files as [|g files IH]; intros md Hkey; [exact Hkey |].
  cbn [scanFilesMetadata]. apply IH.
  destruct (decide (Path g = key)) as [-> | Hne].
  - rewrite lookup_insert_eq. eauto.
  - rewrite lookup_insert_ne by exact Hne. exact Hkey.
Qed.

(** Every staged file has its entry in the metadata of the commit, read or
    not. *)
Lemma scanFilesMetadata_key (w : World) (files : list StagedFile)
    (md : gmap string FileMeta) (f : StagedFile) :
  In f files -> is_Some (scanFilesMetadata w files md !! Path f).
Proof.
  revert md. induction files as [|g files IH]; intros md Hin; [destruct Hin |].
  cbn [scanFilesMetadata]. destruct Hin as [-> | Hin].
  - apply scanFilesMetadata_keeps. rewrite lookup_insert_eq. eauto.
  - now apply IH.
Qed.

End UnreadableFile.

(** The one staged file cannot be opened: nothing is read, the encoding
    fails and so does the commit. *)
Lemma C10_counterexample :
  (∅ : World) !! AbsolutePath Samples.gone = None
  /\ shouldUseLZ4 (H := Standin.libraries) [Samples.gone] 1 = true
  /\ fst (CreateCommit (H := Standin.libraries) Samples.cm ∅ "first" [Samples.gone] NewRepo)
     = Err "snapshot creation failed: no data to compress".
Proof. repeat split; vm_compute; reflexivity. Qed.

(** C10. A staged file that cannot be opened or read while the snapshot of
    a commit is encoded with LZ4 is left out of the container: the encoding
    is that of the readable files.  The commit succeeds exactly when this
    encoding does, and then its record counts the file in [FilesCount] and
    has its entry in [Metadata]; when the encoding fails, as it does when no
    byte was read from any staged file, the commit fails with it. *)
Theorem C10_unreadable_file_omitted :
  forall (E : External) (cm : CommitManager) (w : World) (message : string)
         (files : list StagedFile) (r : Repo) (f : StagedFile),
    In f files ->
    w !! AbsolutePath f = None ->
    shouldUseLZ4 files (GetCurrentVersion r + 1) = true ->
    let version := GetCurrentVersion r + 1 in
    lz4_container w files = lz4_container w (List.filter (readable w) files)
    /\ ~ In f (List.filter (readable w) files)
    /\ compressWithLZ4 w files version r
       = compressWithLZ4 w (List.filter (readable w) files) version r
    /\ (forall res r1,
          compressWithLZ4 w files version r = (Ok res, r1) ->
          exists commit r',
            CreateCommit cm w message files r = (Ok commit, r')
            /\ CompressionInfo commit = Some res
            /\ FilesCount commit = Z.of_nat (length files)
            /\ is_Some (Metadata commit !! Path f))
    /\ (forall e r1,
          compressWithLZ4 w files version r = (Err e, r1) ->
          CreateCommit cm w message files r
          = (Err ("snapshot creation failed: " +:+ e), r1))
    /\ (snd (lz4_container w files) = 0 ->
        fst (CreateCommit cm w message files r)
        = Err "snapshot creation failed: no data to compress").
Proof.
  intros E cm w message files r f Hin Hf Hlz4 version.
  assert (Hne : files <> []) by (intros ->; destruct Hin).
  pose proof (CreateCommit_lz4 cm w message files r Hne Hlz4) as Hcommit.
  fold version in Hcommit.
  split; [apply lz4_container_readable |].
  split.
  { rewrite filter_In. unfold readable. rewrite Hf. intros [_ Habs]. discriminate. }
  split; [apply compressWithLZ4_readable |].
  split; [| split].
  - intros res r1 Hok. rewrite Hok in Hcommit. eexists. eexists.
    split; [exact Hcommit |]. cbn [CompressionInfo FilesCount Metadata].
    split; [reflexivity |]. split; [reflexivity |].
    now apply scanFilesMetadata_key.
  - intros e r1 Herr. now rewrite Herr in Hcommit.
  - intros Hzero. rewrite Hcommit. unfold compressWithLZ4.
    unfold lz4_container in Hzero.
    destruct (fold_left (compressWithLZ4_file w) files (EmptyString, 0))
      as [written originalSize].
    cbn [snd] in Hzero. subst originalSize. reflexivity.
Qed.

(** A 70-byte text file staged with a file that is not there: the container
    holds the text file only, the commit succeeds, counts two files and has
    an entry for both. *)
Lemma C10_unreadable_file_omitted_witness :
  lz4_container (Samples.world Samples.notes_70) Samples.notes_and_gone
  = lz4_container (Samples.world Samples.notes_70) (Samples.staged Samples.notes_70)
  /\ exists commit,
       fst (CreateCommit (H := Standin.libraries) Samples.cm
              (Samples.world Samples.notes_70) "first" Samples.notes_and_gone NewRepo)
       = Ok commit
       /\ FilesCount commit = 2
       /\ is_Some (Metadata commit !! "gone.txt").
Proof.
  pose (out := compressWithLZ4 (H := Standin.libraries) (Samples.world Samples.notes_70)
                 Samples.notes_and_gone 1 NewRepo).
  destruct (C10_unreadable_file_omitted Standin.libraries Samples.cm
              (Samples.world Samples.notes_70) "first" Samples.notes_and_gone NewRepo
              Samples.gone)
    as (Hcontainer & _ & _ & Hcommit & _).
  - right. left. reflexivity.
  - vm_compute. reflexivity.
  - vm_compute. reflexivity.
  - split; [rewrite Hcontainer; vm_compute; reflexivity |].
    destruct (Hcommit (Samples.the_result (fst out)) (snd out))
      as (commit & r' & Heq & _ & Hcount & Hmeta); [vm_compute; reflexivity |].
    exists commit. rewrite Heq. split; [reflexivity |]. split; [exact Hcount | exact Hmeta].
Defined.

(** * Further properties *)

(** ** Decimal numbers: [strconv.Itoa] against the parsers *)

Section Decimal.

Lemma digit_of_pretty_N_char (d : N) :
  (d < 10)%N -> digit_of (pretty_N_char d) = Some (Z.of_N d).
Proof.
  intros Hd.
  assert (Hcases : d = 0%N \/ d = 1%N \/ d = 2%N \/ d = 3%N \/ d = 4%N \/ d = 5%N
                   \/ d = 6%N \/ d = 7%N \/ d = 8%N \/ d = 9%N) by lia.
  repeat (destruct Hcases as [-> | Hcases]; [reflexivity |]). subst d. reflexivity.
Qed.

(** [wrap64] leaves a value of the [int64] range alone. *)
Lemma wrap64_small (z : Z) : - 2 ^ 63 <= z < 2 ^ 63 -> wrap64 z = z.
Proof.
  intros Hz. unfold wrap64.
  change (2 ^ 63) with 9223372036854775808 in *.
  change (2 ^ 64) with 18446744073709551616.
  rewrite Z.mod_small by lia. lia.
Qed.

(** The digits of [x] in front of [s], read by the two digit loops. *)
Lemma pretty_N_go_read (x : N) :
  exists k : Z,
    0 <= k
    /\ (forall (s : string) (acc : Z),
          parse_digits (pretty_N_go x s) acc = parse_digits s (acc * 10 ^ k + Z.of_N x))
    /\ (forall (s : string) (acc : Z),
          0 <= acc -> acc * 10 ^ k + Z.of_N x < 2 ^ 63 ->
          parseInt64_from (pretty_N_go x s) acc
          = parseInt64_from s (acc * 10 ^ k + Z.of_N x)).
Proof.
  induction x as [x IH] using (well_founded_induction N.lt_wf_0).
  destruct (decide (0 < x)%N) as [Hpos | Hzero].
  - destruct (IH (x `div` 10)%N) as (k & Hk & Hparse & Hint);
      [apply N.div_lt; lia |].
    assert (Hd : (x `mod` 10 < 10)%N) by (apply N.mod_lt; lia).
    assert (Hx : Z.of_N x = 10 * Z.of_N (x `div` 10) + Z.of_N (x `mod` 10)).
    { rewrite <- (N2Z.inj_mul 10), <- N2Z.inj_add. f_equal. apply N.div_mod. lia. }
    assert (Hpow : 10 ^ (k + 1) = 10 ^ k * 10) by (rewrite Z.pow_add_r by lia; lia).
    exists (k + 1). split; [lia |]. split.
    + intros s acc. rewrite pretty_N_go_step by exact Hpos. rewrite Hparse.
      cbn [parse_digits]. rewrite digit_of_pretty_N_char by exact Hd.
      f_equal. rewrite Hx, Hpow. ring.
    + intros s acc Hacc Hbound. rewrite pretty_N_go_step by exact Hpos.
      assert (Hpk : 0 < 10 ^ k) by (apply Z.pow_pos_nonneg; lia).
      assert (H0 : 0 <= acc * 10 ^ k) by nia.
      assert (Hq : 0 <= Z.of_N (x `div` 10)) by apply N2Z.is_nonneg.
      assert (Hr : 0 <= Z.of_N (x `mod` 10) < 10).
      { split; [apply N2Z.is_nonneg |]. change 10 with (Z.of_N 10).
        apply N2Z.inj_lt. exact Hd. }
      rewrite Hpow, Hx in Hbound.
      replace (acc * (10 ^ k * 10)) with (acc * 10 ^ k * 10) in Hbound by ring.
      rewrite Hx, Hpow.
      replace (acc * (10 ^ k * 10)) with (acc * 10 ^ k * 10) by ring.
      remember (acc * 10 ^ k) as a eqn:Ha. remember (Z.of_N (x `div` 10)) as q eqn:Hq'.
      change (2 ^ 63) with 9223372036854775808 in *.
      rewrite Hint by (try assumption; lia). rewrite <- Ha.
      cbn [parseInt64_from]. rewrite digit_of_pretty_N_char by exact Hd.
      remember (Z.of_N (x `mod` 10)) as d eqn:Hd'.
      change (2 ^ 63) with 9223372036854775808 in *.
      rewrite (wrap64_small ((a + q) * 10)) by lia.
      rewrite wrap64_small by lia.
      f_equal. ring.
  - assert (x = 0%N) as -> by lia.
    exists 0. split; [lia |]. split.
    + intros s acc. rewrite pretty_N_go_0. f_equal. simpl. lia.
    + intros s acc _ _. rewrite pretty_N_go_0. f_equal. simpl. lia.
Qed.

Lemma Itoa_nonneg_cases (n : Z) :
  0 <= n ->
  Itoa n = "0" /\ n = 0
  \/ 0 < n /\ Itoa n = pretty_N_go (Z.to_N n) EmptyString.
Proof.
  intros Hn. destruct n as [| p | p]; [left; split; reflexivity | right | lia].
  split; [lia |]. reflexivity.
Qed.

Lemma parse_digits_Itoa (n : Z) : 0 <= n -> parse_digits (Itoa n) 0 = Some n.
Proof.
  intros Hn. destruct (Itoa_nonneg_cases n Hn) as [[-> ->] | [Hpos ->]]; [reflexivity |].
  destruct (pretty_N_go_read (Z.to_N n)) as (k & _ & Hparse & _).
  rewrite Hparse. cbn [parse_digits]. f_equal. lia.
Qed.

End Decimal.

(** ** Bytes that a string does not hold *)

Section Bytes.

(** [c] occurs in [s]. *)
Fixpoint has_byte (c : ascii) (s : string) : bool :=
  match s with
  | EmptyString => false
  | String d s' => Ascii.eqb d c || has_byte c s'
  end.

Lemma has_byte_append (c : ascii) (a b : string) :
  has_byte c (a +:+ b) = has_byte c a || has_byte c b.
Proof.
  induction a as [|d a IH]; [reflexivity |].
  rewrite append_cons. cbn [has_byte]. rewrite IH. now rewrite orb_assoc.
Qed.

Lemma pretty_N_char_digit (d : N) : exists v, digit_of (pretty_N_char d) = Some v.
Proof.
  destruct (decide (d < 10)%N) as [Hd | Hd].
  - eexists. now apply digit_of_pretty_N_char.
  - exists 9. unfold pretty_N_char.
    destruct d as [|p]; [lia |].
    do 4 (destruct p as [p | p |]; try reflexivity; try lia).
Qed.

Lemma has_byte_pretty_N_go (c : ascii) (x : N) (s : string) :
  digit_of c = None -> has_byte c (pretty_N_go x s) = has_byte c s.
Proof.
  intros Hc. revert s.
  induction x as [x IH] using (well_founded_induction N.lt_wf_0). intros s.
  destruct (decide (0 < x)%N) as [Hpos | Hzero].
  - rewrite pretty_N_go_step by exact Hpos.
    rewrite IH by (apply N.div_lt; lia). cbn [has_byte].
    destruct (Ascii.eqb_spec (pretty_N_char (x `mod` 10)) c) as [Heq | _]; [| reflexivity].
    destruct (pretty_N_char_digit (x `mod` 10)) as [v Hv]. congruence.
  - assert (x = 0%N) as -> by lia. now rewrite pretty_N_go_0.
Qed.

(** The decimal form of a number that is not negative holds digits only. *)
Lemma has_byte_Itoa (c : ascii) (n : Z) :
  0 <= n -> digit_of c = None -> has_byte c (Itoa n) = false.
Proof.
  intros Hn Hc. destruct (Itoa_nonneg_cases n Hn) as [[-> _] | [_ ->]].
  - cbn [has_byte]. destruct (Ascii.eqb_spec "0"%char c) as [<- | _]; [discriminate | reflexivity].
  - now rewrite has_byte_pretty_N_go.
Qed.

Lemma HasPrefix_nil (s : string) : HasPrefix s EmptyString = true.
Proof. now destruct s. Qed.

Lemma HasPrefix_append (p s : string) : HasPrefix (p +:+ s) p = true.
Proof.
  induction p as [|c p IH]; [apply HasPrefix_nil |].
  rewrite append_cons. cbn [HasPrefix]. now rewrite Ascii.eqb_refl.
Qed.

Lemma HasPrefix_byte (c : ascii) (s : string) :
  HasPrefix (String c s) (String c EmptyString) = true.
Proof. cbn [HasPrefix]. now rewrite Ascii.eqb_refl, HasPrefix_nil. Qed.

Lemma HasPrefix_byte_absent (c : ascii) (d : ascii) (s : string) :
  d <> c -> HasPrefix (String d s) (String c EmptyString) = false.
Proof.
  intros Hne. cbn [HasPrefix].
  destruct (Ascii.eqb_spec c d) as [Heq | _]; [congruence | reflexivity].
Qed.

(** [strings.Index] of a one-byte separator that [h] does not hold. *)
Lemma Index_byte_append (c : ascii) (h rest : string) :
  has_byte c h = false ->
  Index (h +:+ String c rest) (String c EmptyString) = len h.
Proof.
  induction h as [|d h IH]; intros Hh.
  - rewrite append_nil_l. cbn [Index]. now rewrite HasPrefix_byte.
  - cbn [has_byte] in Hh. apply orb_false_elim in Hh as [Hd Hh].
    rewrite append_cons. cbn [Index]. rewrite <- append_cons.
    assert (Hne : d <> c) by (intros ->; now rewrite Ascii.eqb_refl in Hd).
    rewrite append_cons, (HasPrefix_byte_absent c d _ Hne).
    rewrite IH by exact Hh. rewrite len_String.
    pose proof (len_nonneg h). destruct (Z.ltb_spec (len h) 0); lia.
Qed.

(** [strings.Split] on a one-byte separator. *)
Lemma Split_byte_free (c : ascii) (s : string) :
  has_byte c s = false -> Split s (String c EmptyString) = [s].
Proof.
  unfold Split. induction s as [|d s IH]; intros Hs; [reflexivity |].
  cbn [has_byte] in Hs. apply orb_false_elim in Hs as [Hd Hs].
  assert (Hne : d <> c) by (intros ->; now rewrite Ascii.eqb_refl in Hd).
  cbn [Split_from]. rewrite (HasPrefix_byte_absent c d s Hne). now rewrite IH.
Qed.

Lemma Split_byte_append (c : ascii) (s t : string) :
  has_byte c s = false ->
  Split (s +:+ String c t) (String c EmptyString)
  = s :: Split t (String c EmptyString).
Proof.
  unfold Split. induction s as [|d s IH]; intros Hs.
  - rewrite append_nil_l. cbn [Split_from]. now rewrite HasPrefix_byte.
  - cbn [has_byte] in Hs. apply orb_false_elim in Hs as [Hd Hs].
    assert (Hne : d <> c) by (intros ->; now rewrite Ascii.eqb_refl in Hd).
    rewrite append_cons. cbn [Split_from].
    rewrite (HasPrefix_byte_absent c d _ Hne). now rewrite IH.
Qed.

Lemma slice_middle (pre x post : string) :
  slice (pre +:+ x +:+ post) (len pre) (len pre + len x) = x.
Proof.
  unfold slice, len. replace (Z.of_nat (String.length pre) + Z.of_nat (String.length x)
                              - Z.of_nat (String.length pre))
    with (Z.of_nat (String.length x)) by lia.
  rewrite !Nat2Z.id, substring_skip_append. apply substring_prefix_append.
Qed.

Lemma slice_from_append (pre rest : string) :
  slice_from (pre +:+ rest) (len pre) = rest.
Proof.
  unfold slice_from, slice. rewrite len_append. unfold len.
  replace (Z.of_nat (String.length pre) + Z.of_nat (String.length rest)
           - Z.of_nat (String.length pre))
    with (Z.of_nat (String.length rest)) by lia.
  rewrite !Nat2Z.id, substring_skip_append. apply substring_all.
Qed.

End Bytes.

(** ** The LZ4 container: records and their decoders *)

Section Container.

Context `{External}.

(** The records of a container, one per entry: path and content. *)
Fixpoint records (entries : list (string * bytes)) : bytes :=
  match entries with
  | [] => EmptyString
  | e :: es => file_record (fst e) (snd e) +:+ records es
  end.

(** The staged files that can be read, with what is read from them. *)
Fixpoint staged_entries (w : World) (files : list StagedFile) : list (string * bytes) :=
  match files with
  | [] => []
  | f :: rest =>
      match w !! AbsolutePath f with
      | Some file => (Path f, data file) :: staged_entries w rest
      | None => staged_entries w rest
      end
  end.

Fixpoint total_size (entries : list (string * bytes)) : Z :=
  match entries with
  | [] => 0
  | e :: es => len (snd e) + total_size es
  end.

Lemma compressWithLZ4_loop_records (w : World) (files : list StagedFile) (acc : bytes * Z) :
  fold_left (compressWithLZ4_file w) files acc
  = (fst acc +:+ records (staged_entries w files),
     snd acc + total_size (staged_entries w files)).
Proof.
  revert acc. induction files as [|f files IH]; intros [written size].
  - cbn. now rewrite append_nil_r, Z.add_0_r.
  - cbn [fold_left staged_entries]. unfold compressWithLZ4_file at 2.
    destruct (w !! AbsolutePath f) as [file |].
    + rewrite IH. cbn [fst snd records total_size].
      now rewrite append_assoc, Z.add_assoc.
    + apply IH.
Qed.

(** The stream the LZ4 writer is fed is the records of the readable staged
    files, in the order they were staged; [originalSize] is what was read. *)
Lemma lz4_container_records (w : World) (files : list StagedFile) :
  lz4_container w files
  = (records (staged_entries w files), total_size (staged_entries w files)).
Proof.
  unfold lz4_container. rewrite compressWithLZ4_loop_records.
  cbn [fst snd]. now rewrite append_nil_l.
Qed.

(** The header line of a record. *)
Definition record_header (path : string) (size : Z) : string :=
  "FILE:" +:+ path +:+ ":" +:+ Itoa size.

Lemma file_record_header (path : string) (content : bytes) :
  file_record path content
  = record_header path (len content) +:+ String "010" content.
Proof.
  unfold file_record, record_header, LF.
  now rewrite !append_assoc, !append_cons, !append_nil_l.
Qed.

(** A record both decoders read back: no colon and no line feed in the path,
    a content that is not empty and whose size is an [int64]. *)
Definition record_ok (e : string * bytes) : Prop :=
  has_byte ":" (fst e) = false
  /\ has_byte "010" (fst e) = false
  /\ 0 < len (snd e) < 2 ^ 63.

Lemma record_header_line (path : string) (size : Z) :
  has_byte "010" path = false -> 0 <= size ->
  has_byte "010" (record_header path size) = false.
Proof.
  intros Hpath Hsize. unfold record_header.
  rewrite !has_byte_append, Hpath, has_byte_Itoa by (assumption || reflexivity).
  reflexivity.
Qed.

Lemma record_header_fields (path : string) (size : Z) :
  has_byte ":" path = false -> 0 <= size ->
  Split (record_header path size) ":" = ["FILE"; path; Itoa size].
Proof.
  intros Hpath Hsize. unfold record_header.
  change ("FILE:" +:+ path +:+ ":" +:+ Itoa size)
    with ("FILE" +:+ String ":" (path +:+ String ":" (Itoa size))).
  rewrite Split_byte_append by reflexivity.
  rewrite Split_byte_append by exact Hpath.
  rewrite Split_byte_free by (apply has_byte_Itoa; [exact Hsize | reflexivity]).
  reflexivity.
Qed.

Lemma parseInt64_Itoa (n : Z) : 0 <= n < 2 ^ 63 -> parseInt64 (Itoa n) = n.
Proof.
  intros Hn. unfold parseInt64.
  destruct (Itoa_nonneg_cases n ltac:(lia)) as [[-> ->] | [Hpos ->]]; [reflexivity |].
  destruct (pretty_N_go_read (Z.to_N n)) as (k & _ & _ & Hint).
  rewrite Hint by lia. cbn [parseInt64_from]. lia.
Qed.

(** What the stream holds at the start of a record. *)
Lemma record_in_stream (pre path : string) (content rest : bytes) :
  let stream := pre +:+ file_record path content +:+ rest in
  let header := record_header path (len content) in
  slice_from stream (len pre) = header +:+ String "010" (content +:+ rest)
  /\ slice stream (len pre) (len header + len pre) = header
  /\ slice stream (len header + len pre + 1) (len header + len pre + 1 + len content)
     = content
  /\ len stream = len pre + len header + 1 + len content + len rest
  /\ len header + len pre + 1 + len content = len (pre +:+ file_record path content).
Proof.
  cbn zeta. rewrite file_record_header. set (header := record_header path (len content)).
  assert (Hshape : (header +:+ String "010" content) +:+ rest
                   = header +:+ String "010" (content +:+ rest))
    by now rewrite append_assoc, append_cons.
  rewrite Hshape. split; [apply slice_from_append |]. split; [| split; [| split]].
  - rewrite (Z.add_comm (len header)). apply slice_middle.
  - replace (pre +:+ header +:+ String "010" (content +:+ rest))
      with ((pre +:+ header +:+ String "010" EmptyString) +:+ content +:+ rest)
      by now rewrite !append_assoc, append_cons, append_nil_l.
    replace (len header + len pre + 1)
      with (len (pre +:+ header +:+ String "010" EmptyString))
      by (rewrite !len_append, len_String; change (len EmptyString) with 0; lia).
    apply slice_middle.
  - rewrite !len_append, len_String, len_append. lia.
  - rewrite !len_append, len_String. lia.
Qed.

(** One iteration of the loop of [extractFilesFromStream] at the start of
    a record, with an empty filter: the file is restored and the cursor is
    at the end of the record. *)
Lemma extractFilesFromStream_loop_record (pre path : string) (content rest : bytes)
    (fuel : nat) (st : State) :
  record_ok (path, content) ->
  extractFilesFromStream_loop (pre +:+ file_record path content +:+ rest) [] []
    (len pre) (S fuel) st
  = extractFilesFromStream_loop (pre +:+ file_record path content +:+ rest) [] []
      (len (pre +:+ file_record path content)) fuel (add_restored path content st).
Proof.
  intros (Hcolon & Hline & Hsize). cbn [fst snd] in Hcolon, Hline, Hsize.
  destruct (record_in_stream pre path content rest)
    as (Hfrom & Hhead & Hdata & Hlen & Hend).
  set (stream := pre +:+ file_record path content +:+ rest) in *.
  set (header := record_header path (len content)) in *.
  pose proof (len_nonneg pre). pose proof (len_nonneg header). pose proof (len_nonneg rest).
  cbn [extractFilesFromStream_loop]. cbv zeta.
  rewrite Hfrom. unfold LF.
  rewrite (Index_byte_append "010" header (content +:+ rest))
    by (apply record_header_line; [exact Hline | lia]).
  destruct (Z.ltb_spec (len pre) (len stream)) as [_ | Hge]; [| lia]. cbn [negb].
  destruct (Z.eqb_spec (len header) (-1)) as [Heq | _]; [lia |].
  rewrite Hhead.
  replace (HasPrefix header "FILE:") with true
    by (symmetry; apply (HasPrefix_append "FILE:")).
  cbn [negb].
  change (Split header ":") with (Split (record_header path (len content)) ":").
  rewrite (record_header_fields path (len content)) by (assumption || lia).
  rewrite parseInt64_Itoa by lia.
  destruct (Z.leb_spec (len content) 0) as [Hle | _]; [lia |].
  cbn [count_of_targets length Z.of_nat Z.ltb Z.compare andb].
  destruct (Z.gtb_spec (len header + len pre + 1 + len content) (len stream)) as [Hgt | _];
    [lia |].
  rewrite Hdata, Hend. reflexivity.
Qed.

(** The files of [entries] restored one after the other. *)
Definition restore_all (entries : list (string * bytes)) (st : State) : State :=
  fold_left (fun st e => add_restored (fst e) (snd e) st) entries st.

Lemma extractFilesFromStream_loop_records (entries : list (string * bytes)) :
  Forall record_ok entries ->
  forall (pre : string) (fuel : nat) (st : State),
    (length entries <= fuel)%nat ->
    extractFilesFromStream_loop (pre +:+ records entries) [] [] (len pre) fuel st
    = restore_all entries st.
Proof.
  induction 1 as [| [path content] es Hok _ IH]; intros pre fuel st Hfuel.
  - cbn [records restore_all fold_left]. rewrite append_nil_r.
    destruct fuel as [|fuel]; [reflexivity |].
    cbn [extractFilesFromStream_loop].
    destruct (Z.ltb_spec (len pre) (len pre)) as [Hlt | _]; [lia | reflexivity].
  - destruct fuel as [|fuel]; [cbn in Hfuel; lia |].
    cbn [records fst snd].
    rewrite extractFilesFromStream_loop_record by exact Hok.
    rewrite <- append_assoc. rewrite IH by (cbn in Hfuel; lia). reflexivity.
Qed.

Lemma records_length (entries : list (string * bytes)) :
  (length entries <= String.length (records entries))%nat.
Proof.
  induction entries as [| [path content] es IH]; [cbn; lia |].
  cbn [records length fst snd]. unfold file_record.
  rewrite append_cons, !length_append. cbn [String.length]. lia.
Qed.

Lemma restore_all_result (entries : list (string * bytes)) (st : State) :
  RestoredFiles (result_of (restore_all entries st))
  = RestoredFiles (result_of st) ++ map fst entries
  /\ SkippedFiles (result_of (restore_all entries st)) = SkippedFiles (result_of st)
  /\ ErrorFiles (result_of (restore_all entries st)) = ErrorFiles (result_of st)
  /\ written (restore_all entries st)
     = fold_left (fun m e => <[fst e := snd e]> m) entries (written st).
Proof.
  unfold restore_all. revert st.
  induction entries as [| e es IH]; intros st; cbn [fold_left map].
  - now rewrite app_nil_r.
  - destruct (IH (add_restored (fst e) (snd e) st)) as (Hr & Hs & He & Hw).
    rewrite Hr, Hs, He, Hw. cbn. rewrite <- app_assoc. now repeat split.
Qed.

Lemma fold_insert_other (entries : list (string * bytes)) (m : gmap string bytes)
    (p : string) :
  ~ In p (map fst entries) ->
  fold_left (fun m e => <[fst e := snd e]> m) entries m !! p = m !! p.
Proof.
  revert m. induction entries as [| e es IH]; intros m Hp; [reflexivity |].
  cbn [fold_left]. rewrite IH by (intros Hin; apply Hp; now right).
  apply lookup_insert_ne. intros Heq. apply Hp. now left.
Qed.

Lemma fold_insert_lookup (entries : list (string * bytes)) (m : gmap string bytes)
    (p : string) (c : bytes) :
  NoDup (map fst entries) -> In (p, c) entries ->
  fold_left (fun m e => <[fst e := snd e]> m) entries m !! p = Some c.
Proof.
  revert m. induction entries as [| e es IH]; intros m Hnodup Hin; [destruct Hin |].
  cbn [map] in Hnodup. apply NoDup_cons in Hnodup as [Hfresh Hnodup].
  cbn [fold_left]. destruct Hin as [-> | Hin].
  - cbn [fst snd]. rewrite fold_insert_other.
    + apply lookup_insert_eq.
    + intros Hin. apply Hfresh. now apply list_elem_of_In.
  - now apply IH.
Qed.

End Container.

Section StreamRoundTrip.

Context `{External}.

Lemma extractFilesFromStream_records (entries : list (string * bytes)) (st : State) :
  Forall record_ok entries ->
  extractFilesFromStream (records entries) [] st
  = let st' := restore_all entries (set_transferred (len (records entries)) st) in
    set_total (counted_total st') st'.
Proof.
  intros Hok. unfold extractFilesFromStream. cbn [map]. cbv zeta.
  pose proof (extractFilesFromStream_loop_records entries Hok EmptyString
                (S (String.length (records entries)))
                (set_transferred (len (records entries)) st)) as Hloop.
  rewrite append_nil_l in Hloop. change (len EmptyString) with 0 in Hloop.
  rewrite Hloop by (pose proof (records_length entries); lia). reflexivity.
Qed.

End StreamRoundTrip.

(** X1. Every staged file that is read, with a path free of colons and line
    feeds and a content that is not empty, comes back from the stream the
    LZ4 encoder wrote: [extractFilesFromStream] with an empty filter restores
    the files in the order they were staged, each with the bytes that were
    read, skips none and reports no error. *)
Theorem extractFilesFromStream_container :
  forall (E : External) (w : World) (files : list StagedFile) (st : State),
    Forall record_ok (staged_entries w files) ->
    let entries := staged_entries w files in
    let out := extractFilesFromStream (fst (lz4_container w files)) [] st in
    RestoredFiles (result_of out) = RestoredFiles (result_of st) ++ map fst entries
    /\ SkippedFiles (result_of out) = SkippedFiles (result_of st)
    /\ ErrorFiles (result_of out) = ErrorFiles (result_of st)
    /\ written out = fold_left (fun m e => <[fst e := snd e]> m) entries (written st)
    /\ (NoDup (map fst entries) ->
        forall path content, In (path, content) entries ->
        written out !! path = Some content).
Proof.
  intros E w files st Hok entries out.
  assert (Hout : out = let st' := restore_all entries
                                    (set_transferred (len (records entries)) st) in
                       set_total (counted_total st') st').
  { unfold out. rewrite lz4_container_records. cbn [fst].
    now apply extractFilesFromStream_records. }
  destruct (restore_all_result entries (set_transferred (len (records entries)) st))
    as (Hr & Hs & He & Hw).
  assert (Hwritten : written out
                     = fold_left (fun m e => <[fst e := snd e]> m) entries (written st)).
  { rewrite Hout. cbn. exact Hw. }
  split; [rewrite Hout; cbn; exact Hr |].
  split; [rewrite Hout; cbn; exact Hs |].
  split; [rewrite Hout; cbn; exact He |].
  split; [exact Hwritten |].
  intros Hnodup path content Hin. rewrite Hwritten. now apply fold_insert_lookup.
Qed.

(** The stream of the first commit of the sample design gives back the logo. *)
Lemma extractFilesFromStream_container_witness :
  written
    (extractFilesFromStream (H := Standin.libraries)
       (fst (lz4_container (Samples.world Samples.design_1)
               (Samples.staged Samples.design_1))) [] Samples.fresh)
  !! "logo.ai" = Some "%PDF-1.5 logo one".
Proof.
  assert (Hentries : staged_entries (Samples.world Samples.design_1)
                       (Samples.staged Samples.design_1) = Samples.design_1)
    by (vm_compute; reflexivity).
  destruct (extractFilesFromStream_container Standin.libraries
              (Samples.world Samples.design_1) (Samples.staged Samples.design_1)
              Samples.fresh) as (_ & _ & _ & _ & Hlookup).
  - rewrite Hentries. unfold Samples.design_1.
    apply List.Forall_cons; [vm_compute; repeat split; reflexivity |].
    apply List.Forall_cons; [vm_compute; repeat split; reflexivity |].
    apply List.Forall_nil.
  - rewrite Hentries in Hlookup. apply Hlookup.
    + refine (bool_decide_unpack _ _). vm_compute. exact I.
    + right. left. reflexivity.
Defined.

(** ** The two readers of a stream *)

Section StreamToZip.

Context `{External}.


End StreamToZip.


(** ** Looking a file up in a container *)

Section StructuredData.

Lemma ParseInt_digit_head (c : ascii) (s : string) (v : Z) :
  digit_of c = Some v ->
  ParseInt (String c s)
  = match parse_digits (String c s) 0 with
    | Some n => if in_int64 n then Some n else None
    | None => None
    end.
Proof.
  destruct c as [[] [] [] [] [] [] [] []]; try discriminate; intros _; reflexivity.
Qed.

(** [strconv.ParseInt] reads back the decimal form of a size. *)
Lemma ParseInt_Itoa (n : Z) : 0 <= n < 2 ^ 63 -> ParseInt (Itoa n) = Some n.
Proof.
  intros Hn.
  pose proof (parse_digits_Itoa n ltac:(lia)) as Hparse.
  destruct (Itoa n) as [|c s] eqn:Hitoa.
  - destruct (Itoa_nonneg_cases n ltac:(lia)) as [[Hz _] | [Hpos _]]; [congruence |].
    cbn in Hparse. injection Hparse as <-. lia.
  - destruct (digit_of c) as [v |] eqn:Hc.
    + rewrite (ParseInt_digit_head c s v Hc), Hparse.
      unfold in_int64, int64_min, int64_max.
      destruct (Z.leb_spec (- 2 ^ 63) n); [| lia].
      destruct (Z.leb_spec n (2 ^ 63 - 1)); [reflexivity | lia].
    + pose proof (has_byte_Itoa c n ltac:(lia) Hc) as Habsent.
      rewrite Hitoa in Habsent. cbn [has_byte] in Habsent.
      now rewrite Ascii.eqb_refl in Habsent.
Qed.

(** The record answers a request for [target]: same path, or same base
    name. *)
Definition answers (target : string) (e : string * bytes) : bool :=
  String.eqb (fst e) target || String.eqb (Base (fst e)) (Base target).

(** One iteration of the loop of [createFileFromStructuredData] at the
    start of a record. *)
Lemma createFileFromStructuredData_loop_record (pre path : string) (content rest : bytes)
    (target : string) (fuel : nat) :
  record_ok (path, content) ->
  createFileFromStructuredData_loop (pre +:+ file_record path content +:+ rest) target
    (len pre) (S fuel)
  = if answers target (path, content) then Ok content
    else createFileFromStructuredData_loop (pre +:+ file_record path content +:+ rest)
           target (len (pre +:+ file_record path content)) fuel.
Proof.
  intros (Hcolon & Hline & Hsize). cbn [fst snd] in Hcolon, Hline, Hsize.
  destruct (record_in_stream pre path content rest)
    as (Hfrom & Hhead & Hdata & Hlen & Hend).
  set (stream := pre +:+ file_record path content +:+ rest) in *.
  set (header := record_header path (len content)) in *.
  pose proof (len_nonneg pre). pose proof (len_nonneg header). pose proof (len_nonneg rest).
  cbn [createFileFromStructuredData_loop]. cbv zeta.
  rewrite Hfrom. unfold LF.
  rewrite (Index_byte_append "010" header (content +:+ rest))
    by (apply record_header_line; [exact Hline | lia]).
  destruct (Z.ltb_spec (len pre) (len stream)) as [_ | Hge]; [| lia]. cbn [negb].
  destruct (Z.eqb_spec (len header) (-1)) as [Heq | _]; [lia |].
  rewrite Hhead.
  replace (HasPrefix header "FILE:") with true
    by (symmetry; apply (HasPrefix_append "FILE:")).
  cbn [negb].
  change (Split header ":") with (Split (record_header path (len content)) ":").
  rewrite (record_header_fields path (len content)) by (assumption || lia).
  rewrite ParseInt_Itoa by lia.
  destruct (Z.leb_spec (len content) 0) as [Hle | _]; [lia |].
  unfold answers. cbn [fst snd].
  destruct (String.eqb path target || String.eqb (Base path) (Base target)).
  - destruct (Z.gtb_spec (len header + len pre + 1 + len content) (len stream)) as [Hgt | _];
      [lia |].
    now rewrite Hdata.
  - now rewrite Hend.
Qed.

Lemma createFileFromStructuredData_loop_records (entries : list (string * bytes))
    (target : string) :
  Forall record_ok entries ->
  forall (pre : string) (fuel : nat),
    (length entries <= fuel)%nat ->
    createFileFromStructuredData_loop (pre +:+ records entries) target (len pre) fuel
    = match List.find (answers target) entries with
      | Some e => Ok (snd e)
      | None => Err "file not found in structured data"
      end.
Proof.
  induction 1 as [| [path content] es Hok _ IH]; intros pre fuel Hfuel.
  - cbn [records List.find]. rewrite append_nil_r.
    destruct fuel as [|fuel]; [reflexivity |].
    cbn [createFileFromStructuredData_loop].
    destruct (Z.ltb_spec (len pre) (len pre)) as [Hlt | _]; [lia | reflexivity].
  - destruct fuel as [|fuel]; [cbn in Hfuel; lia |].
    cbn [records fst snd List.find].
    rewrite createFileFromStructuredData_loop_record by exact Hok.
    destruct (answers target (path, content)); [reflexivity |].
    rewrite <- append_assoc. apply IH. cbn in Hfuel. lia.
Qed.

Lemma createFileFromStructuredData_records (entries : list (string * bytes))
    (target : string) :
  Forall record_ok entries ->
  createFileFromStructuredData (records entries) target
  = match List.find (answers target) entries with
    | Some e => Ok (snd e)
    | None => Err "file not found in structured data"
    end.
Proof.
  intros Hok. unfold createFileFromStructuredData.
  pose proof (createFileFromStructuredData_loop_records entries target Hok EmptyString
                (S (String.length (records entries)))) as Hloop.
  rewrite append_nil_l in Hloop. change (len EmptyString) with 0 in Hloop.
  apply Hloop. pose proof (records_length entries). lia.
Qed.

End StructuredData.

(** X3. In a container of well-formed records [createFileFromStructuredData]
    answers a request for [target] with the content of the first record
    whose path, or whose base name, is that of [target]; when no record has
    either it fails with "file not found".  A file is therefore answered
    by an earlier file of the same base name in another directory. *)
Theorem createFileFromStructuredData_first_match :
  forall (entries : list (string * bytes)) (target : string),
    Forall record_ok entries ->
    createFileFromStructuredData (records entries) target
    = match List.find (answers target) entries with
      | Some e => Ok (snd e)
      | None => Err "file not found in structured data"
      end.
Proof.
  intros entries target Hok. now apply createFileFromStructuredData_records.
Qed.

(** Two files named [logo.ai] in two directories: a request for the second
    is answered with the bytes of the first. *)
Lemma createFileFromStructuredData_first_match_witness :
  createFileFromStructuredData
    (records [("a/logo.ai", "first"); ("b/logo.ai", "second")]) "b/logo.ai"
  = Ok "first".
Proof.
  rewrite (createFileFromStructuredData_first_match
             [("a/logo.ai", "first"); ("b/logo.ai", "second")] "b/logo.ai").
  - vm_compute. reflexivity.
  - apply List.Forall_cons; [vm_compute; repeat split; reflexivity |].
    apply List.Forall_cons; [vm_compute; repeat split; reflexivity |].
    apply List.Forall_nil.
Defined.

(** ** Restoring an LZ4 snapshot *)

Section RestoreLZ4.

Context `{External}.

Lemma HasSuffix_append (a b : string) : HasSuffix (a +:+ b) b = true.
Proof.
  unfold HasSuffix. rewrite len_append.
  pose proof (len_nonneg a). destruct (Z.leb_spec (len b) (len a + len b)); [| lia].
  replace (len a + len b - len b) with (len a) by lia.
  rewrite slice_from_append. cbn [andb]. apply String.eqb_refl.
Qed.

Lemma TrimSuffix_append (a b : string) : TrimSuffix (a +:+ b) b = a.
Proof.
  unfold TrimSuffix. rewrite HasSuffix_append, len_append.
  replace (len a + len b - len b) with (len a) by lia.
  pose proof (slice_middle EmptyString a b) as Hs.
  rewrite !append_nil_l in Hs. exact Hs.
Qed.

Lemma TrimPrefix_append (p s : string) : TrimPrefix (p +:+ s) p = s.
Proof. unfold TrimPrefix. rewrite HasPrefix_append. apply slice_from_append. Qed.

Lemma Atoi_Itoa (n : Z) : 0 <= n < 2 ^ 63 -> Atoi (Itoa n) = Some n.
Proof. apply ParseInt_Itoa. Qed.

(** The version in the name of an LZ4 artifact. *)
Lemma lz4_name_version (v : Z) :
  0 <= v < 2 ^ 63 -> Atoi (TrimSuffix (TrimPrefix (lz4_name v) "v") ".lz4") = Some v.
Proof.
  intros Hv. unfold lz4_name.
  rewrite (TrimPrefix_append "v"), TrimSuffix_append. now apply Atoi_Itoa.
Qed.

(** [strconv.Atoi] of the decimal form, with and without the leading [v]. *)
Lemma parseCommitReference_Itoa (v : Z) :
  0 <= v < 2 ^ 63 ->
  parseCommitReference ("v" +:+ Itoa v) = Ok v /\ parseCommitReference (Itoa v) = Ok v.
Proof.
  intros Hv. unfold parseCommitReference. split.
  - rewrite (HasPrefix_append "v"), (TrimPrefix_append "v"). now rewrite Atoi_Itoa.
  - rewrite Atoi_Itoa by exact Hv.
    destruct (HasPrefix (Itoa v) "v") eqn:Hp; [| reflexivity].
    destruct (Atoi (TrimPrefix (Itoa v) "v")) eqn:Ht; [| reflexivity].
    exfalso. pose proof (has_byte_Itoa "v" v ltac:(lia) eq_refl) as Habsent.
    destruct (Itoa v) as [|c s]; [discriminate |].
    cbn [HasPrefix] in Hp. cbn [has_byte] in Habsent.
    destruct (Ascii.eqb_spec "v" c) as [<- | _]; [discriminate | discriminate].
Qed.

(** A successful LZ4 encoding leaves the artifact in [versions/]. *)
Lemma compressWithLZ4_ok (w : World) (files : list StagedFile) (version : Z) (r : Repo)
    (res : CompressionResult) (r1 : Repo) :
  compressWithLZ4 w files version r = (Ok res, r1) ->
  OutputFile res = lz4_name version
  /\ r1 = write_file (Versions, lz4_name version) (lz4_artifact w files) r.
Proof.
  unfold compressWithLZ4, lz4_artifact, lz4_container.
  destruct (fold_left _ _ _) as [written originalSize]. cbn [fst].
  repeat match goal with
         | |- context [if ?x then _ else _] => destruct x
         end; intros Heq; try discriminate.
  apply pair_equal_spec in Heq as [Hres Hr]. apply Ok_inj in Hres. subst res r1.
  now split.
Qed.

Lemma createSnapshot_lz4 (cm : CommitManager) (w : World) (files : list StagedFile)
    (version prevVersion : Z) (r : Repo) (res : CompressionResult) (r1 : Repo) :
  createSnapshot cm w files version prevVersion r = (Ok res, r1) ->
  Strategy res = "lz4" ->
  OutputFile res = lz4_name version
  /\ read_file r1 (Versions, lz4_name version) = Some (lz4_artifact w files).
Proof.
  assert (Hlz4 : forall r0, compressWithLZ4 w files version r0 = (Ok res, r1) ->
                 OutputFile res = lz4_name version
                 /\ read_file r1 (Versions, lz4_name version)
                    = Some (lz4_artifact w files)).
  { intros r0 Hc. apply compressWithLZ4_ok in Hc as [Hout ->].
    split; [exact Hout | apply read_write_file]. }
  unfold createSnapshot.
  destruct (shouldUseLZ4 files version); [intros Hc _; eauto |].
  destruct (_ && _); [| intros Hc _; eauto].
  destruct (createDelta cm w files version prevVersion r) as [[d | e] r2] eqn:Hd;
    [| intros Hc _; eauto].
  destruct (PrimFloat.leb _ _); [| intros Hc _; eauto].
  intros Heq Hs. apply pair_equal_spec in Heq as [Hres _]. apply Ok_inj in Hres. subst d.
  apply createDelta_base in Hd as [Hdelta _]. rewrite Hs in Hdelta. discriminate.
Qed.

(** The metadata of a commit has an entry for the path of every staged
    file, and for nothing else. *)
Lemma scanFilesMetadata_dom (w : World) (files : list StagedFile)
    (md : gmap string FileMeta) (key : string) :
  is_Some (scanFilesMetadata w files md !! key)
  <-> is_Some (md !! key) \/ In key (map Path files).
Proof.
  revert md. induction files as [|g files IH]; intros md.
  - cbn. tauto.
  - cbn [scanFilesMetadata map In]. rewrite IH.
    destruct (decide (Path g = key)) as [-> | Hne].
    + rewrite lookup_insert_eq. split; [intros _; right; now left | intros _; left; eauto].
    + rewrite lookup_insert_ne by exact Hne. tauto.
Qed.

(** With base names that differ pairwise, only the record of [path] answers
    a request for [path]. *)
Lemma find_answers_unique (entries : list (string * bytes)) (path : string)
    (content : bytes) :
  NoDup (map (fun e => Base (fst e)) entries) ->
  In (path, content) entries ->
  List.find (answers path) entries = Some (path, content).
Proof.
  induction entries as [| e es IH]; intros Hnodup Hin; [destruct Hin |].
  cbn [map] in Hnodup. apply NoDup_cons in Hnodup as [Hfresh Hnodup].
  cbn [List.find]. destruct Hin as [-> | Hin].
  - unfold answers. cbn [fst]. now rewrite String.eqb_refl.
  - assert (Hbase : Base (fst e) <> Base path).
    { intros Heq. apply Hfresh. rewrite Heq. apply list_elem_of_In.
      change (Base path) with ((fun e => Base (fst e)) (path, content)).
      now apply in_map. }
    unfold answers at 1.
    destruct (String.eqb (fst e) path) eqn:Hname.
    { apply String.eqb_eq in Hname. now rewrite Hname in Hbase. }
    destruct (String.eqb (Base (fst e)) (Base path)) eqn:Hb.
    { now apply String.eqb_eq in Hb. }
    cbn [orb]. now apply IH.
Qed.

(** The content [createFileFromStructuredData] finds for [key]. *)
Definition content_for (entries : list (string * bytes)) (key : string) : bytes :=
  match List.find (answers key) entries with
  | Some e => snd e
  | None => EmptyString
  end.

Lemma extractFromLZ4_loop_restores (entries : list (string * bytes))
    (keys : list (string * FileMeta)) (st : State) :
  Forall record_ok entries ->
  (forall kv, In kv keys ->
     exists e, List.find (answers (fst kv)) entries = Some e) ->
  fold_left (fun st (entry : string * FileMeta) =>
               extractFromLZ4_file (records entries) [] (fst entry) st) keys st
  = restore_all (map (fun kv => (fst kv, content_for entries (fst kv))) keys) st.
Proof.
  intros Hok. revert st. induction keys as [| kv keys IH]; intros st Hkeys; [reflexivity |].
  cbn [fold_left map]. unfold restore_all. cbn [fold_left fst snd].
  fold (restore_all (map (fun kv => (fst kv, content_for entries (fst kv))) keys)).
  rewrite <- IH by (intros kv' Hin; apply Hkeys; now right).
  f_equal. unfold extractFromLZ4_file. cbn [requested negb].
  rewrite createFileFromStructuredData_records by exact Hok.
  unfold content_for. destruct (Hkeys kv ltac:(now left)) as [e ->]. reflexivity.
Qed.

Lemma In_fst_exists {A B : Type} (l : list (A * B)) (a : A) :
  In a (map fst l) -> exists b, In (a, b) l.
Proof.
  induction l as [| [a' b'] l IH]; [intros [] |].
  cbn [map fst In]. intros [-> | Hin]; [eexists; now left |].
  destruct (IH Hin) as [b Hb]. exists b. now right.
Qed.

Lemma restore_all_method (entries : list (string * bytes)) (st : State) :
  RestoreMethod (result_of (restore_all entries st)) = RestoreMethod (result_of st).
Proof.
  unfold restore_all. revert st.
  induction entries as [| e es IH]; intros st; [reflexivity |].
  cbn [fold_left]. now rewrite IH.
Qed.

(** [extractFromLZ4] on the artifact of a version whose metadata names the
    files of its container. *)
Lemma extractFromLZ4_restores (r : Repo) (v : Z) (commit : Commit) (artifact : bytes)
    (entries : list (string * bytes)) (st : State) :
  0 <= v < 2 ^ 63 ->
  GetCommit r v = Ok commit ->
  read_file r (Versions, lz4_name v) = Some artifact ->
  lz4_decompress artifact = Some (records entries) ->
  Forall record_ok entries ->
  NoDup (map (fun e => Base (fst e)) entries) ->
  (forall key, is_Some (Metadata commit !! key) <-> In key (map fst entries)) ->
  exists st',
    extractFromLZ4 r (Versions, lz4_name v) [] st = (Ok tt, st')
    /\ SkippedFiles (result_of st') = SkippedFiles (result_of st)
    /\ ErrorFiles (result_of st') = ErrorFiles (result_of st)
    /\ RestoreMethod (result_of st') = RestoreMethod (result_of st)
    /\ (forall path content,
          In (path, content) entries -> written st' !! path = Some content)
    /\ (forall path,
          is_Some (written st' !! path) ->
          is_Some (written st !! path) \/ In path (map fst entries)).
Proof.
  intros Hv Hcommit Hfile Hdecode Hok Hnodup Hkeys.
  unfold extractFromLZ4. cbn [snd].
  rewrite lz4_name_version by exact Hv. rewrite Hcommit, Hfile, Hdecode.
  set (st1 := set_transferred (len (records entries)) st).
  set (keys := map_to_list (Metadata commit)).
  assert (Hfound : forall kv, In kv keys ->
            exists e, List.find (answers (fst kv)) entries = Some e).
  { intros [key meta] Hin. cbn [fst].
    apply list_elem_of_In, elem_of_map_to_list in Hin.
    assert (Hsome : is_Some (Metadata commit !! key)) by eauto.
    apply Hkeys, In_fst_exists in Hsome as [content Hentry].
    exists (key, content). apply find_answers_unique; assumption. }
  rewrite (extractFromLZ4_loop_restores entries keys st1 Hok Hfound).
  set (restored := map (fun kv : string * FileMeta =>
                          (fst kv, content_for entries (fst kv))) keys).
  destruct (restore_all_result restored st1) as (_ & Hs & He & Hw).
  assert (Hfst : map fst restored = map fst keys).
  { unfold restored. rewrite map_map. reflexivity. }
  eexists. split; [reflexivity |].
  split; [cbn; exact Hs |]. split; [cbn; exact He |].
  split.
  { transitivity (RestoreMethod (result_of (restore_all restored st1)));
      [reflexivity | now rewrite restore_all_method]. }
  split.
  - intros path content Hin. cbn [written set_total]. rewrite Hw.
    apply fold_insert_lookup.
    + rewrite Hfst. apply NoDup_fst_map_to_list.
    + assert (Hsome : is_Some (Metadata commit !! path)).
      { apply Hkeys. change path with (fst (path, content)). now apply in_map. }
      destruct Hsome as [meta Hmeta].
      apply elem_of_map_to_list, list_elem_of_In in Hmeta.
      replace content with (content_for entries path).
      * change (path, content_for entries path)
          with ((fun kv : string * FileMeta => (fst kv, content_for entries (fst kv)))
                  (path, meta)).
        now apply in_map.
      * unfold content_for. now rewrite (find_answers_unique entries path content).
  - intros path Hpath. cbn [written set_total] in Hpath. rewrite Hw in Hpath.
    destruct (decide (path ∈ map fst restored)) as [Hin | Hout].
    + right. rewrite Hfst in Hin. apply list_elem_of_In, In_fst_exists in Hin as [meta Hin].
      apply Hkeys. apply list_elem_of_In, elem_of_map_to_list in Hin. eauto.
    + left. rewrite fold_insert_other in Hpath; [exact Hpath |].
      intros Hin. apply Hout. now apply list_elem_of_In.
Qed.

End RestoreLZ4.

Section RestoreCommit.

Context `{External}.

Lemma read_file_records (hash : string) (commit : Commit) (r : Repo) (p : StoredPath) :
  read_file (updateHead hash (saveCommitMetadata commit r)) p = read_file r p.
Proof. destruct p as [[] name]; reflexivity. Qed.

(** What a successful commit leaves: the snapshot, the record under the new
    version, and [HEAD]. *)
Lemma CreateCommit_ok (cm : CommitManager) (w : World) (message : string)
    (files : list StagedFile) (r : Repo) (commit : Commit) (r' : Repo) :
  CreateCommit cm w message files r = (Ok commit, r') ->
  exists res r1,
    createSnapshot cm w files (GetCurrentVersion r + 1) (GetCurrentVersion r) r
    = (Ok res, r1)
    /\ Version commit = GetCurrentVersion r + 1
    /\ CompressionInfo commit = Some res
    /\ Metadata commit = scanFilesMetadata w files ∅
    /\ FilesCount commit = count_of files
    /\ ParentHash commit = getCurrentCommitHash r
    /\ r' = updateHead (Hash commit) (saveCommitMetadata commit r1).
Proof.
  unfold CreateCommit. destruct files as [|f files]; [discriminate |].
  destruct (createSnapshot _ _ _ _ _ _) as [[res | e] r1]; [| discriminate].
  intros Heq. apply pair_equal_spec in Heq as [Hcommit Hr]. apply Ok_inj in Hcommit.
  exists res, r1. subst commit r'. now repeat split.
Qed.

Lemma staged_entries_paths (w : World) (files : list StagedFile) (f : StagedFile)
    (file : File) :
  In f files -> w !! AbsolutePath f = Some file ->
  In (Path f, data file) (staged_entries w files).
Proof.
  induction files as [| g files IH]; intros Hin Hf; [destruct Hin |].
  cbn [staged_entries]. destruct Hin as [-> | Hin].
  - rewrite Hf. now left.
  - destruct (w !! AbsolutePath g); [right |]; now apply IH.
Qed.

End RestoreCommit.

(** X4. A commit recorded with the strategy lz4 is restored in full.  When the
    LZ4 reader gives back the stream that was written, every staged file
    was read, the paths hold no colon and no line feed, no content is empty
    and no two files share a base name, then restoring the version of the
    commit with an empty filter succeeds from [versions/], skips nothing,
    reports no error, and writes every staged file with the bytes that were
    read at commit time, and no other file. *)
Theorem restore_lz4_commit :
  forall (E : External) (cm : CommitManager) (w : World) (message : string)
         (files : list StagedFile) (r : Repo) (commit : Commit) (r' : Repo)
         (info : CompressionResult),
    CreateCommit cm w message files r = (Ok commit, r') ->
    CompressionInfo commit = Some info ->
    Strategy info = "lz4" ->
    GetCurrentVersion r + 1 < 2 ^ 63 ->
    lz4_decompress (lz4_artifact w files) = Some (fst (lz4_container w files)) ->
    Forall record_ok (staged_entries w files) ->
    map fst (staged_entries w files) = map Path files ->
    NoDup (map (fun f => Base (Path f)) files) ->
    exists st,
      RestoreFilesFromCommit r' ("v" +:+ Itoa (Version commit)) [] = Ok st
      /\ RestoreMethod (result_of st) = "versions"
      /\ SkippedFiles (result_of st) = []
      /\ ErrorFiles (result_of st) = ∅
      /\ (forall path content,
            In (path, content) (staged_entries w files) ->
            written st !! path = Some content)
      /\ (forall path, is_Some (written st !! path) -> In path (map Path files)).
Proof.
  intros E cm w message files r commit r' info Hcreate Hinfo Hstrategy Hrange Hdecode
    Hok Hread Hbases.
  destruct (CreateCommit_ok cm w message files r commit r' Hcreate)
    as (res & r1 & Hsnap & Hversion & Hres & Hmeta & _ & _ & Hr').
  assert (res = info) as -> by congruence.
  destruct (createSnapshot_lz4 cm w files _ _ r info r1 Hsnap Hstrategy) as [Hout Hfile].
  pose proof (GetCurrentVersion_nonneg r) as Hnonneg.
  set (v := GetCurrentVersion r + 1) in *.
  assert (Hv : 0 <= v < 2 ^ 63) by lia.
  assert (Hget : GetCommit r' v = Ok commit).
  { unfold GetCommit. rewrite Hr'. cbn [CommitsDir updateHead saveCommitMetadata].
    rewrite Hversion. now rewrite lookup_insert_eq. }
  assert (Hfile' : read_file r' (Versions, lz4_name v) = Some (lz4_artifact w files)).
  { rewrite Hr', read_file_records. exact Hfile. }
  rewrite lz4_container_records in Hdecode. cbn [fst] in Hdecode.
  set (entries := staged_entries w files) in *.
  assert (Hentry_bases : NoDup (map (fun e => Base (fst e)) entries)).
  { replace (map (fun e : string * bytes => Base (fst e)) entries)
      with (map Base (map fst entries)) by now rewrite map_map.
    rewrite Hread, map_map. exact Hbases. }
  assert (Hkeys : forall key, is_Some (Metadata commit !! key) <-> In key (map fst entries)).
  { intros key. rewrite Hmeta, scanFilesMetadata_dom, lookup_empty, Hread.
    split; [intros [[x Hx] | Hin]; [discriminate | exact Hin] | intros Hin; now right]. }
  destruct (extractFromLZ4_restores r' v commit (lz4_artifact w files) entries
              (set_method "versions" "versions" (new_state commit))
              Hv Hget Hfile' Hdecode Hok Hentry_bases Hkeys)
    as (st & Hextract & Hskipped & Herrors & Hmethod & Hwritten & Honly).
  exists st.
  assert (Hrestore : RestoreFilesFromCommit r' ("v" +:+ Itoa (Version commit)) [] = Ok st).
  { unfold RestoreFilesFromCommit. rewrite Hversion.
    rewrite (proj1 (parseCommitReference_Itoa v Hv)), Hget.
    unfold performFastRestore, tryVersionRestore.
    rewrite Hinfo, Hstrategy, Hout. cbn [String.eqb Ascii.eqb Bool.eqb negb].
    unfold fileExists. rewrite Hfile'. cbn [negb]. now rewrite Hextract. }
  split; [exact Hrestore |].
  split; [now rewrite Hmethod |].
  split; [now rewrite Hskipped |].
  split; [now rewrite Herrors |].
  split; [exact Hwritten |].
  intros path Hpath. destruct (Honly path Hpath) as [[x Hx] | Hin].
  - cbn in Hx. rewrite lookup_empty in Hx. discriminate.
  - now rewrite <- Hread.
Qed.

(** The first commit of the sample design is restored with both files. *)
Lemma restore_lz4_commit_witness :
  exists st,
    RestoreFilesFromCommit (H := Standin.libraries) (snd Samples.design_commit_1) "v1" []
    = Ok st
    /\ written st !! "design.psd" = Some Samples.psd_flat
    /\ written st !! "logo.ai" = Some "%PDF-1.5 logo one".
Proof.
  assert (Hentries : staged_entries (Samples.world Samples.design_1)
                       (Samples.staged Samples.design_1) = Samples.design_1)
    by (vm_compute; reflexivity).
  pose (out := Samples.design_commit_1).
  pose (commit := match fst out with
                  | Ok c => c
                  | Err _ => {| Hash := EmptyString; Message := EmptyString;
                                Author := EmptyString; FilesCount := 0; Version := 0;
                                Metadata := ∅; ParentHash := EmptyString;
                                SnapshotZip := EmptyString; CompressionInfo := None |}
                  end).
  destruct (restore_lz4_commit Standin.libraries Samples.cm
              (Samples.world Samples.design_1) "first" (Samples.staged Samples.design_1)
              NewRepo commit (snd out)
              (Samples.the_result
                 (fst (compressWithLZ4 (H := Standin.libraries)
                         (Samples.world Samples.design_1)
                         (Samples.staged Samples.design_1) 1 NewRepo))))
    as (st & Hrestore & _ & _ & _ & Hwritten & _).
  - vm_compute. reflexivity.
  - vm_compute. reflexivity.
  - vm_compute. reflexivity.
  - vm_compute. reflexivity.
  - vm_compute. reflexivity.
  - rewrite Hentries. unfold Samples.design_1.
    apply List.Forall_cons; [vm_compute; repeat split; reflexivity |].
    apply List.Forall_cons; [vm_compute; repeat split; reflexivity |].
    apply List.Forall_nil.
  - vm_compute. reflexivity.
  - refine (bool_decide_unpack _ _). vm_compute. exact I.
  - exists st. split.
    + replace "v1" with ("v" +:+ Itoa (Version commit)) by (vm_compute; reflexivity).
      exact Hrestore.
    + rewrite Hentries in Hwritten. split; apply Hwritten.
      * left. reflexivity.
      * right. left. reflexivity.
Defined.

(** ** Version numbers and commit records *)

Section CommitRecords.

Context `{External}.



End CommitRecords.





(** ** The chain-length check *)

Section ChainLength.

Context `{External}.

Lemma getDeltaChainLength_loop_zip (r : Repo) (iterations : nat) :
  forall (v count k : Z),
    v - Z.of_nat iterations <= k <= v ->
    (k = v - Z.of_nat iterations \/ fileExists r (Objects, zip_name k) = true) ->
    (forall j, k < j <= v -> fileExists r (Objects, zip_name j) = false) ->
    getDeltaChainLength_loop r v iterations count = count + (v - k).
Proof.
  induction iterations as [|n IH]; intros v count k Hk Hstop Hnone.
  - cbn [getDeltaChainLength_loop]. cbn in Hk. lia.
  - cbn [getDeltaChainLength_loop].
    destruct (decide (k = v)) as [-> | Hne].
    + destruct Hstop as [Hend | ->]; [lia | lia].
    + rewrite Hnone by lia.
      rewrite (IH (v - 1) (count + 1) k); [lia | lia | |].
      * destruct Hstop as [-> | Hzip]; [left; lia | now right].
      * intros j Hj. apply Hnone. lia.
Qed.

End ChainLength.

(** X7. The chain-length check counts the versions from [ver] down to the
    nearest legacy ZIP snapshot [objects/v<k>.zip], or down to version 1
    when there is none ([k = 0]); it does not look at how the versions in
    between are stored, so LZ4 snapshots count as well. *)
Theorem getDeltaChainLength_counts_versions :
  forall (r : Repo) (ver k : Z),
    0 <= k <= ver ->
    (k = 0 \/ fileExists r (Objects, zip_name k) = true) ->
    (forall j, k < j <= ver -> fileExists r (Objects, zip_name j) = false) ->
    getDeltaChainLength r ver = ver - k.
Proof.
  intros r ver k Hk Hstop Hnone. unfold getDeltaChainLength.
  rewrite (getDeltaChainLength_loop_zip r (Z.to_nat ver) ver 0 k); [lia | lia | | exact Hnone].
  destruct Hstop as [-> | Hzip]; [left; lia | now right].
Qed.

(** Two LZ4 commits and no ZIP snapshot: the chain length of version 2
    is 2. *)
Lemma getDeltaChainLength_counts_versions_witness :
  getDeltaChainLength (snd Samples.logo_commit_2_dense) 2 = 2
  /\ option_map Strategy
       (match fst Samples.logo_commit_2_dense with
        | Ok commit => CompressionInfo commit
        | Err _ => None
        end) = Some "lz4".
Proof.
  split; [| vm_compute; reflexivity].
  rewrite (getDeltaChainLength_counts_versions (snd Samples.logo_commit_2_dense) 2 0).
  - reflexivity.
  - lia.
  - now left.
  - intros j Hj. assert (j = 1 \/ j = 2) as [-> | ->] by lia; vm_compute; reflexivity.
Defined.

(** ** The restoration path *)

Section RestorationPath.

(** The steps of [path] carry the versions [first], [first + 1], ... and
    name files that exist. *)
Fixpoint chained (r : Repo) (first : Z) (path : list RestorationStep) : Prop :=
  match path with
  | [] => True
  | s :: rest =>
      Version_ s = first /\ fileExists r (File_ s) = true /\ chained r (first + 1) rest
  end.

Definition is_delta_step (s : RestorationStep) : Prop :=
  Type_ s = "bsdiff" \/ Type_ s = "smart_delta".

Lemma findOptimizedRestorationPath_loop_chained (r : Repo) (iterations : nat) :
  forall (currentVersion : Z) (acc path : list RestorationStep),
    chained r (currentVersion + 1) acc ->
    Forall is_delta_step acc ->
    findOptimizedRestorationPath_loop r currentVersion acc iterations = Ok path ->
    exists first,
      currentVersion - Z.of_nat iterations < first <= currentVersion + 1
      /\ first + Z.of_nat (length path) = currentVersion + 1 + Z.of_nat (length acc)
      /\ chained r first path
      /\ Forall is_delta_step (tl path).
Proof.
  induction iterations as [|n IH]; intros cur acc path Hacc Hdeltas.
  - cbn [findOptimizedRestorationPath_loop]. intros Heq. apply Ok_inj in Heq. subst path.
    exists (cur + 1). split; [cbn; lia |]. split; [lia |]. split; [exact Hacc |].
    destruct acc as [|s acc]; [constructor | now inversion Hdeltas].
  - cbn [findOptimizedRestorationPath_loop]. cbv zeta.
    assert (Hbase : forall type file,
              fileExists r file = true ->
              Ok (step type file cur :: acc) = Ok path ->
              exists first,
                cur - Z.of_nat (S n) < first <= cur + 1
                /\ first + Z.of_nat (length path) = cur + 1 + Z.of_nat (length acc)
                /\ chained r first path
                /\ Forall is_delta_step (tl path)).
    { intros type file Hfile Heq. apply Ok_inj in Heq. subst path.
      exists cur. split; [lia |]. split; [cbn [length]; lia |].
      split; [cbn; now repeat split | exact Hdeltas]. }
    assert (Hdelta : forall type file,
              is_delta_step (step type file cur) ->
              fileExists r file = true ->
              findOptimizedRestorationPath_loop r (cur - 1) (step type file cur :: acc) n
              = Ok path ->
              exists first,
                cur - Z.of_nat (S n) < first <= cur + 1
                /\ first + Z.of_nat (length path) = cur + 1 + Z.of_nat (length acc)
                /\ chained r first path
                /\ Forall is_delta_step (tl path)).
    { intros type file Htype Hfile Heq.
      apply IH in Heq as (first & Hfirst & Hlen & Hchain & Htail).
      - exists first. split; [lia |]. split; [cbn [length] in Hlen; lia |]. now split.
      - replace (cur - 1 + 1) with cur by lia. cbn. now repeat split.
      - now constructor. }
    destruct (fileExists r (Versions, lz4_name cur)) eqn:H1; [now apply Hbase |].
    destruct (fileExists r (Cache, lz4_name cur)) eqn:H2; [now apply Hbase |].
    destruct (fileExists r (Cache, zstd_name cur)) eqn:H3; [now apply Hbase |].
    destruct (fileExists r (Objects, zip_name cur)) eqn:H4; [now apply Hbase |].
    destruct (fileExists r (Deltas, bsdiff_name cur (cur - 1))) eqn:H5;
      [apply Hdelta; [now left | exact H5] |].
    destruct (fileExists r (Cache, psd_smart_name cur (cur - 1))) eqn:H6;
      [apply Hdelta; [now right | exact H6] |].
    discriminate.
Qed.

End RestorationPath.

(** X8. A restoration path that is found is not empty; its steps carry
    consecutive versions that end at the target version, each names a file
    that exists, and every step after the first is a delta. *)
Theorem findOptimizedRestorationPath_chained :
  forall (r : Repo) (targetVersion : Z) (path : list RestorationStep),
    findOptimizedRestorationPath r targetVersion = Ok path ->
    exists first,
      1 <= first <= targetVersion
      /\ first + Z.of_nat (length path) = targetVersion + 1
      /\ chained r first path
      /\ Forall is_delta_step (tl path).
Proof.
  intros r V path. unfold findOptimizedRestorationPath.
  destruct (findOptimizedRestorationPath_loop r V [] (Z.to_nat V)) as [found | e] eqn:Hloop;
    [| discriminate].
  apply findOptimizedRestorationPath_loop_chained in Hloop
    as (first & Hfirst & Hlen & Hchain & Htail); [| exact I | constructor].
  destruct found as [|s found]; [discriminate |].
  intros Heq. apply Ok_inj in Heq. subst path.
  exists first. cbn [length] in Hlen. rewrite Nat2Z.inj_succ in Hlen.
  change (Z.of_nat 0) with 0 in Hlen.
  pose proof (Nat2Z.is_nonneg (length found)).
  assert (HV : Z.of_nat (Z.to_nat V) = Z.max 0 V) by lia.
  rewrite HV in Hfirst.
  split; [lia |]. split; [cbn [length]; rewrite Nat2Z.inj_succ; lia |]. now split.
Qed.

(** The path to version 2 of the sample design: the LZ4 snapshot of version
    1, then the smart delta of version 2. *)
Lemma findOptimizedRestorationPath_chained_witness :
  exists path,
    findOptimizedRestorationPath (snd Samples.design_commit_2) 2 = Ok path
    /\ map Type_ path = ["lz4"; "smart_delta"]
    /\ chained (snd Samples.design_commit_2) 1 path.
Proof.
  pose (found := match findOptimizedRestorationPath (snd Samples.design_commit_2) 2 with
                 | Ok p => p
                 | Err _ => []
                 end).
  assert (Hfound : findOptimizedRestorationPath (snd Samples.design_commit_2) 2 = Ok found)
    by (vm_compute; reflexivity).
  exists found. split; [exact Hfound |]. split; [vm_compute; reflexivity |].
  destruct (findOptimizedRestorationPath_chained _ _ _ Hfound)
    as (first & _ & Hlen & Hchain & _).
  replace first with 1 in Hchain; [exact Hchain |].
  replace (Z.of_nat (length found)) with 2 in Hlen by (vm_compute; reflexivity). lia.
Defined.

(** ** The optimized cache *)

(** X9. The background optimisation of an LZ4 snapshot whose artifact decodes:
    [cache/v<N>_optimized.zstd] is the Zstandard encoding of the stream of
    the snapshot, every other file and every commit record is as before,
    and when the Zstandard reader gives back what was written, extracting
    from the optimized cache is extracting from that stream. *)
Theorem optimizeToCache_stream :
  forall (E : External) (version : Z) (result : CompressionResult) (r : Repo)
         (artifact stream : bytes),
    Strategy result = "lz4" ->
    read_file r (Versions, OutputFile result) = Some artifact ->
    lz4_decompress artifact = Some stream ->
    zstd_decompress (zstd_compress stream) = Some stream ->
    let r' := optimizeToCache version result r in
    read_file r' (Cache, zstd_name version) = Some (zstd_compress stream)
    /\ (forall p, p <> (Cache, zstd_name version) -> read_file r' p = read_file r p)
    /\ CommitsDir r' = CommitsDir r
    /\ HeadFile r' = HeadFile r
    /\ (forall filesToRestore st,
          extractFromZstd r' (Cache, zstd_name version) filesToRestore st
          = (Ok tt, extractFilesFromStream stream filesToRestore st)).
Proof.
  intros E version result r artifact stream Hstrategy Hfile Hdecode Hzstd r'.
  assert (Hr' : r' = write_file (Cache, zstd_name version) (zstd_compress stream) r).
  { unfold r', optimizeToCache. rewrite Hstrategy, Hfile, Hdecode. reflexivity. }
  assert (Hnew : read_file r' (Cache, zstd_name version) = Some (zstd_compress stream)).
  { rewrite Hr'. apply read_write_file. }
  split; [exact Hnew |].
  split; [intros p Hp; rewrite Hr'; now apply read_write_file_ne |].
  split; [now rewrite Hr' |]. split; [now rewrite Hr' |].
  intros filesToRestore st. unfold extractFromZstd. now rewrite Hnew, Hzstd.
Qed.

(** The optimisation of the first commit of the sample design: the
    optimized cache restores the logo. *)
Lemma optimizeToCache_stream_witness :
  written
    (snd (extractFromZstd (H := Standin.libraries)
            (optimizeToCache (H := Standin.libraries) 1
               (Samples.the_result
                  (fst (compressWithLZ4 (H := Standin.libraries)
                          (Samples.world Samples.design_1)
                          (Samples.staged Samples.design_1) 1 NewRepo)))
               (snd Samples.design_commit_1))
            (Cache, zstd_name 1) [] Samples.fresh))
  !! "logo.ai" = Some "%PDF-1.5 logo one".
Proof.
  pose (result := Samples.the_result
                    (fst (compressWithLZ4 (H := Standin.libraries)
                            (Samples.world Samples.design_1)
                            (Samples.staged Samples.design_1) 1 NewRepo))).
  pose (stream := fst (lz4_container (Samples.world Samples.design_1)
                         (Samples.staged Samples.design_1))).
  destruct (optimizeToCache_stream Standin.libraries 1 result (snd Samples.design_commit_1)
              (lz4_artifact (H := Standin.libraries) (Samples.world Samples.design_1)
                 (Samples.staged Samples.design_1))
              stream)
    as (_ & _ & _ & _ & Hextract).
  - vm_compute. reflexivity.
  - vm_compute. reflexivity.
  - vm_compute. reflexivity.
  - vm_compute. reflexivity.
  - fold result. rewrite Hextract. vm_compute. reflexivity.
Defined.

(** ** Sizes and commit references *)

Section References.

Lemma parseInt64_from_non_digit (s : string) (c : ascii) (s' : string) (acc : Z) :
  digit_of c = None -> parseInt64_from (s +:+ String c s') acc = 0.
Proof.
  intros Hc. revert acc. induction s as [|d s IH]; intros acc.
  - rewrite append_nil_l. cbn [parseInt64_from]. now rewrite Hc.
  - rewrite append_cons. cbn [parseInt64_from].
    destruct (digit_of d); [apply IH | reflexivity].
Qed.

Lemma parse_digits_non_digit (s : string) (c : ascii) (s' : string) (acc : Z) :
  digit_of c = None -> parse_digits (s +:+ String c s') acc = None.
Proof.
  intros Hc. revert acc. induction s as [|d s IH]; intros acc.
  - rewrite append_nil_l. cbn [parse_digits]. now rewrite Hc.
  - rewrite append_cons. cbn [parse_digits].
    destruct (digit_of d); [apply IH | reflexivity].
Qed.

(** [strconv.ParseInt] succeeds on digits only, after at most one sign. *)
Lemma ParseInt_digits (s : string) (v : Z) :
  ParseInt s = Some v ->
  (exists n, parse_digits s 0 = Some n)
  \/ (exists c d n, s = String c d /\ parse_digits d 0 = Some n).
Proof.
  destruct s as [|c d]; [discriminate |].
  destruct c as [[] [] [] [] [] [] [] []]; cbn [ParseInt]; intros Hparse;
    first
      [ left; destruct (parse_digits (String _ d) 0) as [n |] eqn:Hn;
        [eauto | discriminate]
      | right; destruct d as [|c' d']; [discriminate |];
        destruct (parse_digits (String c' d') 0) as [n |] eqn:Hn;
        [eauto 6 | discriminate] ].
Qed.

End References.

(** X10. [parseInt64] reads back the decimal form of every size that is not
    negative and fits an [int64]. *)
Theorem parseInt64_reads_sizes :
  forall n : Z, 0 <= n < 2 ^ 63 -> parseInt64 (Itoa n) = n.
Proof. exact parseInt64_Itoa. Qed.

Lemma parseInt64_reads_sizes_witness : parseInt64 (Itoa 205) = 205.
Proof. apply parseInt64_reads_sizes. lia. Defined.

(** X11. [parseInt64] reports no error: a text that holds a byte that is not a
    decimal digit (a sign, a space, a letter) reads as 0, whatever digits
    come before or after it. *)
Theorem parseInt64_non_digit :
  forall (s : string) (c : ascii) (s' : string),
    digit_of c = None -> parseInt64 (s +:+ String c s') = 0.
Proof. intros s c s' Hc. now apply parseInt64_from_non_digit. Qed.

Lemma parseInt64_non_digit_witness : parseInt64 "12-5" = 0 /\ parseInt64 (Itoa (-7)) = 0.
Proof.
  split.
  - apply (parseInt64_non_digit "12" "-" "5"). reflexivity.
  - apply (parseInt64_non_digit EmptyString "-" "7"). reflexivity.
Defined.

(** X12. A version [v] is accepted as a commit reference in both forms, [v<N>]
    and [<N>]. *)
Theorem parseCommitReference_versions :
  forall v : Z,
    0 <= v < 2 ^ 63 ->
    parseCommitReference ("v" +:+ Itoa v) = Ok v /\ parseCommitReference (Itoa v) = Ok v.
Proof. exact parseCommitReference_Itoa. Qed.

Lemma parseCommitReference_versions_witness :
  parseCommitReference "v12" = Ok 12 /\ parseCommitReference "12" = Ok 12.
Proof. apply (parseCommitReference_versions 12). lia. Defined.

(** X13. A commit reference with a byte that is not a decimal digit after its
    second byte is rejected: a commit hash with a letter there is never
    resolved to a commit. *)
Theorem parseCommitReference_rejects :
  forall (c0 c1 : ascii) (s : string) (c : ascii) (s' : string),
    digit_of c = None ->
    parseCommitReference (String c0 (String c1 (s +:+ String c s')))
    = Err "invalid commit reference".
Proof.
  intros c0 c1 s c s' Hc.
  set (tail := String c1 (s +:+ String c s')).
  assert (Hbody : forall acc, parse_digits (s +:+ String c s') acc = None)
    by (intros acc; now apply parse_digits_non_digit).
  assert (Htail : forall acc, parse_digits tail acc = None).
  { intros acc. unfold tail. cbn [parse_digits]. destruct (digit_of c1); [apply Hbody | reflexivity]. }
  assert (Hwhole : forall acc, parse_digits (String c0 tail) acc = None).
  { intros acc. cbn [parse_digits]. destruct (digit_of c0); [apply Htail | reflexivity]. }
  assert (Hplain : Atoi (String c0 tail) = None).
  { destruct (Atoi (String c0 tail)) as [v |] eqn:Hparse; [| reflexivity].
    apply ParseInt_digits in Hparse as [[n Hn] | (c' & d & n & Heq & Hn)].
    - now rewrite Hwhole in Hn.
    - injection Heq as <- <-. now rewrite Htail in Hn. }
  assert (Hversion : Atoi tail = None).
  { destruct (Atoi tail) as [v |] eqn:Hparse; [| reflexivity].
    apply ParseInt_digits in Hparse as [[n Hn] | (c' & d & n & Heq & Hn)].
    - now rewrite Htail in Hn.
    - unfold tail in Heq. injection Heq as <- <-. now rewrite Hbody in Hn. }
  unfold parseCommitReference. rewrite Hplain.
  destruct (HasPrefix (String c0 tail) "v") eqn:Hprefix; [| reflexivity].
  assert (c0 = "v"%char) as ->.
  { cbn [HasPrefix] in Hprefix. destruct (Ascii.eqb_spec "v" c0); [congruence | discriminate]. }
  change (String "v" tail) with ("v" +:+ tail). rewrite (TrimPrefix_append "v").
  now rewrite Hversion.
Qed.

Lemma parseCommitReference_rejects_witness :
  parseCommitReference "3fa94c01b2de" = Err "invalid commit reference".
Proof.
  apply (parseCommitReference_rejects "3" "f" EmptyString "a" "94c01b2de"). reflexivity.
Defined.

(** ** The layers of a PSD file *)

Section Layers.

Context `{External}.

Import Photoshop.
Local Open Scope reader_scope.

Lemma seqZ_S (i : Z) (n : nat) :
  seqZ i (Z.of_nat (S n)) = i :: seqZ (i + 1) (Z.of_nat n).
Proof.
  rewrite seqZ_cons by lia. f_equal. f_equal; lia.
Qed.

Lemma parseLayerNames_from_length (content : bytes) (remaining : nat) :
  forall (i pos : Z) (names : list string) (pos' : Z),
    parseLayerNames_from content i remaining pos = (Ok names, pos') ->
    length names = remaining.
Proof.
  induction remaining as [|n IH]; intros i pos names pos'.
  - cbn [parseLayerNames_from]. unfold ret. intros Heq.
    apply pair_equal_spec in Heq as [Heq _]. apply Ok_inj in Heq. now subst names.
  - cbn [parseLayerNames_from]. unfold bind at 1.
    destruct (read_layer_head content pos) as [[head | e] p1]; [| discriminate].
    unfold bind at 1.
    match goal with
    | |- context [match ?m p1 with _ => _ end] => destruct (m p1) as [[name | e] p2]
    end; [| discriminate].
    unfold bind at 1.
    destruct (parseLayerNames_from content (i + 1) n p2) as [[rest | e] p3] eqn:Hrest;
      [| discriminate].
    unfold ret. intros Heq. apply pair_equal_spec in Heq as [Heq _]. apply Ok_inj in Heq.
    subst names. cbn [length]. f_equal. exact (IH _ _ _ _ Hrest).
Qed.

Lemma default_names_length (n : nat) (i : Z) : length (default_names i n) = n.
Proof. revert i. induction n as [|n IH]; intros i; [reflexivity |]. cbn. now rewrite IH. Qed.

(** [GetPSDInfo] returns as many layer names as it counts layers. *)
Lemma GetPSDInfo_read_names (content : bytes) (pos : Z) (info : PSDInfo) (pos' : Z) :
  GetPSDInfo_read content pos = (Ok info, pos') ->
  0 <= LayerCount info /\ length (LayerNames info) = Z.to_nat (LayerCount info).
Proof.
  unfold GetPSDInfo_read. unfold bind at 1.
  destruct (binary_Read content 26 pos) as [[header | e] p0]; [| discriminate].
  cbv zeta.
  destruct (negb (String.eqb (slice header 0 4) "8BPS")); [discriminate |].
  destruct (_ && _); [discriminate |].
  unfold bind at 1. destruct (read_u32 content p0) as [[len1 | e] p1]; [| discriminate].
  unfold bind at 1. destruct (Seek_current len1 p1) as [[o1 | e] p2]; [| discriminate].
  unfold bind at 1. destruct (read_u32 content p2) as [[len2 | e] p3]; [| discriminate].
  unfold bind at 1. destruct (Seek_current len2 p3) as [[o2 | e] p4]; [| discriminate].
  unfold bind at 1. destruct (read_u32 content p4) as [[len3 | e] p5]; [| discriminate].
  destruct (len3 =? 0).
  { unfold ret. intros Heq. apply pair_equal_spec in Heq as [Heq _]. apply Ok_inj in Heq.
    subst info. cbn. split; [lia | reflexivity]. }
  unfold bind at 1. destruct (read_u32 content p5) as [[len4 | e] p6]; [| discriminate].
  unfold bind at 1. destruct (binary_Read content 2 p6) as [[raw | e] p7]; [| discriminate].
  unfold bind at 1. unfold try.
  destruct (parseLayerNames content (Z.abs (be_signed raw)) p7) as [[names | e] p8] eqn:Hnames;
    unfold ret; intros Heq; apply pair_equal_spec in Heq as [Heq _]; apply Ok_inj in Heq;
    subst info; cbn [LayerCount LayerNames]; (split; [lia |]).
  - unfold parseLayerNames in Hnames. exact (parseLayerNames_from_length _ _ _ _ _ _ Hnames).
  - apply default_names_length.
Qed.

(** The loop over the layer records does not fail: a record that cannot be
    parsed gives the placeholder layer.  The layers carry the indices of
    the loop. *)
Lemma parseDetailedLayers_from_ids (content : bytes) (mtime : option Z)
    (filePath : string) (remaining : nat) :
  forall (i pos : Z),
    exists layers pos',
      parseDetailedLayers_from content mtime filePath i remaining pos = (Ok layers, pos')
      /\ map ID layers = seqZ i (Z.of_nat remaining).
Proof.
  induction remaining as [|n IH]; intros i pos.
  - eexists. eexists. split; reflexivity.
  - cbn [parseDetailedLayers_from]. unfold bind at 1. unfold try at 1.
    destruct (parseIndividualLayer content mtime i filePath pos) as [parsed p1] eqn:Hparse.
    unfold bind at 1.
    destruct (IH (i + 1) p1) as (rest & p2 & Hrest & Hids). rewrite Hrest.
    eexists. eexists. split; [reflexivity |].
    cbn [map]. rewrite Hids, seqZ_S.
    f_equal. destruct parsed as [layer | e]; [| reflexivity].
    unfold parseIndividualLayer in Hparse. unfold bind at 1 in Hparse.
    destruct (read_layer_head content pos) as [[head | e] q1]; [| discriminate].
    unfold bind at 1 in Hparse.
    match type of Hparse with
    | context [match ?m q1 with _ => _ end] => destruct (m q1) as [[layerName | e] q2]
    end; [| discriminate].
    unfold ret in Hparse. apply pair_equal_spec in Hparse as [Hlayer _].
    apply Ok_inj in Hlayer. now subst layer.
Qed.

Lemma createBasicLayersFromNames_from_ids (mtime : option Z) (filePath : string)
    (layerNames : list string) :
  forall i : Z,
    map ID (createBasicLayersFromNames_from mtime filePath i layerNames)
    = seqZ i (Z.of_nat (length layerNames)).
Proof.
  induction layerNames as [|name names IH]; intros i; [reflexivity |].
  cbn [createBasicLayersFromNames_from map length ID]. now rewrite IH, seqZ_S.
Qed.

End Layers.

(** X14. The detailed information of a PSD file fails only when the basic
    information does.  Otherwise it has exactly as many layers as the basic
    information counts, numbered 0, 1, 2, ... in the order of the layer
    records, whether they come from the records, from placeholders for
    records that could not be parsed, or from the layer names alone. *)
Theorem GetDetailedPSDInfo_layer_ids :
  forall (E : External) (filePath : string) (f : File),
    match fst (Photoshop.GetPSDInfo_read (data f) 0) with
    | Ok info =>
        exists layers,
          Photoshop.GetDetailedPSDInfo_of filePath f = Ok layers
          /\ map Photoshop.ID layers = seqZ 0 (Photoshop.LayerCount info)
    | Err e =>
        Photoshop.GetDetailedPSDInfo_of filePath f
        = Err ("failed to get basic PSD info: " +:+ e)
    end.
Proof.
  intros E filePath f. unfold Photoshop.GetDetailedPSDInfo_of.
  destruct (Photoshop.GetPSDInfo_read (data f) 0) as [[info | e] p] eqn:Hinfo;
    cbn [fst]; [| reflexivity].
  destruct (GetPSDInfo_read_names _ _ _ _ Hinfo) as [Hcount Hnames].
  destruct (fst (Photoshop.parseDetailedLayers (data f) (Some (modtime f))
                   (Photoshop.LayerCount info) filePath 0)) as [layers | e] eqn:Hlayers.
  - exists layers. split; [reflexivity |].
    unfold Photoshop.parseDetailedLayers in Hlayers.
    destruct (Z.eqb_spec (Photoshop.LayerCount info) 0) as [-> | Hne].
    { cbn in Hlayers. apply Ok_inj in Hlayers. now subst layers. }
    unfold Photoshop.bind at 1 in Hlayers.
    destruct (Photoshop.Seek_start 0 0) as [[o | e] p1]; [| discriminate].
    unfold Photoshop.bind at 1 in Hlayers.
    destruct (Photoshop.skipToLayerInfo (data f) p1) as [[o' | e] p2]; [| discriminate].
    destruct (parseDetailedLayers_from_ids (data f) (Some (modtime f)) filePath
                (Z.to_nat (Photoshop.LayerCount info)) 0 p2) as (found & p3 & Hfound & Hids).
    rewrite Hfound in Hlayers. cbn [fst] in Hlayers. apply Ok_inj in Hlayers. subst found.
    rewrite Hids. f_equal. lia.
  - eexists. split; [reflexivity |].
    unfold Photoshop.createBasicLayersFromNames.
    rewrite createBasicLayersFromNames_from_ids, Hnames. f_equal. lia.
Qed.

(** ** Comparing the layers of two versions *)

Section LayerComparison.

Import Photoshop.

Lemma omap_disjoint_length {A B C : Type} (f : A -> option B) (g : A -> option C)
    (l : list A) :
  (forall x, f x = None \/ g x = None) ->
  (length (omap f l) + length (omap g l) <= length l)%nat.
Proof.
  intros Hdisjoint. induction l as [|x l IH]; [cbn; lia |].
  cbn [omap list_omap length]. destruct (Hdisjoint x) as [Hf | Hg].
  - rewrite Hf. destruct (g x); cbn [length]; fold (omap f l) (omap g l); lia.
  - rewrite Hg. destruct (f x); cbn [length]; fold (omap f l) (omap g l); lia.
Qed.

Lemma omap_length_le {A B : Type} (f : A -> option B) (l : list A) :
  (length (omap f l) <= length l)%nat.
Proof.
  induction l as [|x l IH]; [cbn; lia |].
  cbn [omap list_omap length]. fold (omap f l). destruct (f x); cbn [length]; lia.
Qed.

Lemma omap_all_none {A B : Type} (f : A -> option B) (l : list A) :
  (forall x, In x l -> f x = None) -> omap f l = [].
Proof.
  induction l as [|x l IH]; intros Hnone; [reflexivity |].
  cbn [omap list_omap]. rewrite (Hnone x) by now left.
  apply IH. intros y Hy. apply Hnone. now right.
Qed.

Lemma layer_named_snoc (name : string) (layers : list DetailedLayer) (x : DetailedLayer) :
  layer_named name (layers ++ [x])
  = if String.eqb (Name x) name then Some x else layer_named name layers.
Proof. unfold layer_named. now rewrite fold_left_app. Qed.

(** With names that differ pairwise, the map from names to layers holds
    every layer under its name. *)
Lemma layer_named_found (layers : list DetailedLayer) (layer : DetailedLayer) :
  NoDup (map Name layers) -> In layer layers ->
  layer_named (Name layer) layers = Some layer.
Proof.
  induction layers as [|x layers IH] using rev_ind; intros Hnodup Hin; [destruct Hin |].
  rewrite map_app in Hnodup. apply NoDup_app in Hnodup as (Hnodup & Hfresh & _).
  rewrite layer_named_snoc. apply in_app_or in Hin as [Hin | [-> | []]].
  - destruct (String.eqb (Name x) (Name layer)) eqn:Hname; [| now apply IH].
    apply String.eqb_eq in Hname. exfalso.
    apply (Hfresh (Name layer)).
    + apply list_elem_of_In. now apply in_map.
    + rewrite <- Hname. cbn. set_solver.
  - now rewrite String.eqb_refl.
Qed.

End LayerComparison.

(** X15. Every layer of the new version is counted once: as added, as modified
    or as unchanged.  The count of unchanged layers is not negative, the
    three counts add up to the number of layers of the new version, and no
    more layers are reported deleted than the old version has. *)
Theorem compareLayerVersions_counts :
  forall (oldLayers newLayers : list Photoshop.DetailedLayer),
    let analysis := compareLayerVersions oldLayers newLayers in
    0 <= UnchangedCount analysis
    /\ UnchangedCount analysis
       + Z.of_nat (length (ChangedLayers analysis))
       + Z.of_nat (length (AddedLayers analysis))
       = Z.of_nat (length newLayers)
    /\ TotalLayers analysis = Z.of_nat (length newLayers)
    /\ (length (DeletedLayers analysis) <= length oldLayers)%nat.
Proof.
  intros oldLayers newLayers analysis. unfold analysis, compareLayerVersions.
  cbn [UnchangedCount ChangedLayers AddedLayers DeletedLayers TotalLayers]. unfold count_of.
  match goal with
  | |- context [length (omap ?f newLayers)] =>
      match goal with
      | |- context [length (omap ?g newLayers)] =>
          assert_fails (constr_eq f g);
          pose proof (omap_disjoint_length f g newLayers) as Hsum
      end
  end.
  assert (Hle := Hsum ltac:(intros x; cbv beta;
                            destruct (layer_named (Photoshop.Name x) oldLayers); auto)).
  split; [lia |]. split; [lia |]. split; [reflexivity | apply omap_length_le].
Qed.

(** X16. Comparing a list of layers whose names differ pairwise with itself
    finds nothing added, deleted or modified. *)
Theorem compareLayerVersions_same :
  forall layers : list Photoshop.DetailedLayer,
    NoDup (map Photoshop.Name layers) ->
    let analysis := compareLayerVersions layers layers in
    ChangedLayers analysis = [] /\ AddedLayers analysis = []
    /\ DeletedLayers analysis = []
    /\ UnchangedCount analysis = Z.of_nat (length layers)
    /\ ChangesSummary analysis = "No layer changes detected".
Proof.
  intros layers Hnodup analysis.
  assert (Hfound : forall layer, In layer layers ->
            layer_named (Photoshop.Name layer) layers = Some layer)
    by (intros layer; now apply layer_named_found).
  assert (Hchanged : ChangedLayers analysis = []).
  { unfold analysis, compareLayerVersions. cbn [ChangedLayers].
    apply omap_all_none. intros layer Hin. rewrite (Hfound layer Hin).
    now rewrite String.eqb_refl. }
  assert (Hadded : AddedLayers analysis = []).
  { unfold analysis, compareLayerVersions. cbn [AddedLayers].
    apply omap_all_none. intros layer Hin. now rewrite (Hfound layer Hin). }
  assert (Hdeleted : DeletedLayers analysis = []).
  { unfold analysis, compareLayerVersions. cbn [DeletedLayers].
    apply omap_all_none. intros layer Hin. now rewrite (Hfound layer Hin). }
  split; [exact Hchanged |]. split; [exact Hadded |]. split; [exact Hdeleted |].
  unfold analysis, compareLayerVersions in *.
  cbn [UnchangedCount ChangesSummary ChangedLayers AddedLayers DeletedLayers] in *.
  rewrite Hchanged, Hadded, Hdeleted. split; [unfold count_of; cbn; lia | reflexivity].
Qed.

(** Two placeholder layers, named [Layer 1] and [Layer 2]. *)
Lemma compareLayerVersions_same_witness :
  ChangesSummary
    (compareLayerVersions
       [Photoshop.placeholder_layer (H := Standin.libraries) None "a.psd" 0;
        Photoshop.placeholder_layer (H := Standin.libraries) None "a.psd" 1]
       [Photoshop.placeholder_layer (H := Standin.libraries) None "a.psd" 0;
        Photoshop.placeholder_layer (H := Standin.libraries) None "a.psd" 1])
  = "No layer changes detected".
Proof.
  apply (compareLayerVersions_same
           [Photoshop.placeholder_layer (H := Standin.libraries) None "a.psd" 0;
            Photoshop.placeholder_layer (H := Standin.libraries) None "a.psd" 1]).
  refine (bool_decide_unpack _ _). vm_compute. exact I.
Defined.

(** ** The smart delta file *)

Section SmartDeltaFile.

Context `{External}.

Lemma HasPrefix_grow (x b m : string) :
  HasPrefix x m = true -> HasPrefix (x +:+ b) m = true.
Proof.
  revert m. induction x as [|c x IH]; intros m.
  - destruct m; [intros _; apply HasPrefix_nil | discriminate].
  - destruct m as [|d m]; [reflexivity |]. rewrite append_cons. cbn [HasPrefix].
    destruct (Ascii.eqb d c); [apply IH | discriminate].
Qed.

Lemma HasPrefix_length (x m : string) : HasPrefix x m = true -> len m <= len x.
Proof.
  revert m. induction x as [|c x IH]; intros m.
  - destruct m; [reflexivity | discriminate].
  - destruct m as [|d m]; [intros _; rewrite len_String; pose proof (len_nonneg x);
                           change (len EmptyString) with 0; lia |].
    cbn [HasPrefix]. destruct (Ascii.eqb d c); [| discriminate].
    intros Hp. apply IH in Hp. rewrite !len_String. lia.
Qed.

Lemma HasPrefix_shrink (x b m : string) :
  HasPrefix (x +:+ b) m = true -> len m <= len x -> HasPrefix x m = true.
Proof.
  revert m. induction x as [|c x IH]; intros m.
  - rewrite append_nil_l. destruct m as [|d m]; [reflexivity |].
    rewrite len_String. pose proof (len_nonneg m). change (len EmptyString) with 0. lia.
  - destruct m as [|d m]; [reflexivity |]. rewrite append_cons. cbn [HasPrefix].
    destruct (Ascii.eqb d c); [| discriminate].
    rewrite !len_String. intros Hp Hlen. apply IH; [exact Hp | lia].
Qed.

Lemma Index_bounds (x m : string) : -1 <= Index x m.
Proof.
  induction x as [|c x IH]; cbn [Index].
  - destruct (HasPrefix EmptyString m); lia.
  - destruct (HasPrefix (String c x) m); [lia |].
    destruct (Z.ltb_spec (Index x m) 0); lia.
Qed.

Lemma Index_found_length (x m : string) : 0 <= Index x m -> len m <= len x.
Proof.
  induction x as [|c x IH]; cbn [Index].
  - destruct (HasPrefix EmptyString m) eqn:Hp; [| lia]. intros _. now apply HasPrefix_length.
  - destruct (HasPrefix (String c x) m) eqn:Hp; [intros _; now apply HasPrefix_length |].
    destruct (Z.ltb_spec (Index x m) 0); [lia |]. intros _. rewrite len_String.
    specialize (IH ltac:(lia)). lia.
Qed.

(** The first occurrence of [m] in [x] is its first occurrence in [x]
    followed by anything. *)
Lemma Index_append_found (x b m : string) :
  0 <= Index x m -> Index (x +:+ b) m = Index x m.
Proof.
  induction x as [|c x IH]; intros Hfound.
  - cbn [Index] in Hfound. destruct (HasPrefix EmptyString m) eqn:Hp; [| lia].
    destruct m; [| discriminate]. rewrite append_nil_l.
    destruct b; cbn [Index]; [reflexivity | now rewrite HasPrefix_nil].
  - rewrite append_cons. cbn [Index] in *. rewrite <- append_cons.
    destruct (HasPrefix (String c x) m) eqn:Hp.
    + now rewrite (HasPrefix_grow _ b m Hp).
    + destruct (Z.ltb_spec (Index x m) 0) as [Hneg | Hpos]; [lia |].
      destruct (HasPrefix (String c x +:+ b) m) eqn:Hp'.
      * apply HasPrefix_shrink in Hp'; [congruence |].
        pose proof (Index_found_length x m Hpos). rewrite len_String. lia.
      * rewrite IH by exact Hpos.
        destruct (Z.ltb_spec (Index x m) 0); [lia | reflexivity].
Qed.

(** The metadata [createSmartDeltaFile] writes. *)
Definition smart_delta_metadata (psdFile : StagedFile) (analysis : ChangeAnalysis)
    (baseVersion version : Z) : JSON :=
  JObj [("type", JStr "psd_smart_delta");
        ("from_version", JNum baseVersion);
        ("to_version", JNum version);
        ("file_path", JStr (Path psdFile));
        ("original_size", JNum (Size psdFile));
        ("timestamp", JStr (time_rfc3339 time_now));
        ("layer_analysis", json_of_analysis analysis)].

(** The file up to the marker of the payload. *)
Definition smart_delta_lines (metadataBytes : bytes) : bytes :=
  smart_delta_header +:+ LF +:+ "METADATA_LENGTH:" +:+ Itoa (len metadataBytes) +:+ LF.

Lemma createSmartDeltaFile_content (w : World) (deltaPath : StoredPath)
    (psdFile : StagedFile) (analysis : ChangeAnalysis) (baseVersion version : Z)
    (r : Repo) (f : File) :
  w !! AbsolutePath psdFile = Some f ->
  let metadataBytes :=
    json_MarshalIndent (smart_delta_metadata psdFile analysis baseVersion version) in
  let content :=
    ((smart_delta_lines metadataBytes +:+ metadataBytes) +:+ binaryDataMarker)
    +:+ lz4_compress (data f) in
  createSmartDeltaFile w deltaPath psdFile analysis baseVersion version r
  = (Ok (len content), write_file deltaPath content r).
Proof.
  intros Hf. cbv zeta. unfold createSmartDeltaFile. rewrite Hf.
  fold (smart_delta_metadata psdFile analysis baseVersion version).
  set (metadataBytes := json_MarshalIndent _).
  assert (Hshape : smart_delta_header +:+ LF +:+ "METADATA_LENGTH:"
                   +:+ Itoa (len metadataBytes) +:+ LF +:+ metadataBytes
                   +:+ binaryDataMarker
                   = (smart_delta_lines metadataBytes +:+ metadataBytes)
                     +:+ binaryDataMarker).
  { unfold smart_delta_lines. now rewrite !append_assoc. }
  cbv zeta. now rewrite Hshape.
Qed.

End SmartDeltaFile.
Section SmartDeltaRoundTrip.

Context `{External}.

Lemma Split_nonempty (s sep : string) : Split s sep <> [].
Proof.
  unfold Split. generalize 0%nat. induction s as [|c s IH]; intros skip; [discriminate |].
  cbn [Split_from]. destruct skip as [|k]; [| apply IH].
  destruct (HasPrefix (String c s) sep); [discriminate |].
  destruct (Split_from sep s 0); discriminate.
Qed.

Lemma smart_delta_split (metadataBytes rest : bytes) :
  0 <= len metadataBytes ->
  exists (line2 : string) (more : list string),
    Split ((smart_delta_lines metadataBytes +:+ rest)) LF
    = smart_delta_header :: ("METADATA_LENGTH:" +:+ Itoa (len metadataBytes))
        :: line2 :: more.
Proof.
  intros Hlen. unfold smart_delta_lines, LF.
  replace ((smart_delta_header +:+ String "010" EmptyString +:+ "METADATA_LENGTH:"
            +:+ Itoa (len metadataBytes) +:+ String "010" EmptyString) +:+ rest)
    with (smart_delta_header
          +:+ String "010" (("METADATA_LENGTH:" +:+ Itoa (len metadataBytes))
                            +:+ String "010" rest))
    by now rewrite !append_assoc, !append_cons, !append_nil_l.
  rewrite Split_byte_append by reflexivity.
  rewrite Split_byte_append
    by (rewrite has_byte_append, has_byte_Itoa by (assumption || reflexivity); reflexivity).
  pose proof (Split_nonempty rest (String "010" EmptyString)) as Hne.
  destruct (Split rest (String "010" EmptyString)) as [|line2 more]; [congruence |].
  now exists line2, more.
Qed.

End SmartDeltaRoundTrip.

(** X17. The smart delta file [createSmartDeltaFile] writes is read back by
    [restoreFromSmartDelta]: when the JSON decoder gives back the metadata
    that was encoded, the payload marker first occurs where it was written
    and the LZ4 reader gives back the bytes of the PSD file, the restore
    with an empty filter writes the PSD file under its staged path with the
    bytes it had when the delta was made, and counts one file. *)
Theorem restoreFromSmartDelta_reads_delta :
  forall (E : External) (w : World) (deltaName : string) (psdFile : StagedFile)
         (analysis : ChangeAnalysis) (baseVersion version : Z) (r : Repo) (f : File)
         (commit : Commit) (info : CompressionResult) (st : State),
    let metadata := smart_delta_metadata psdFile analysis baseVersion version in
    let metadataBytes := json_MarshalIndent metadata in
    let lines := smart_delta_lines metadataBytes +:+ metadataBytes in
    let r' := snd (createSmartDeltaFile w (Cache, deltaName) psdFile analysis
                     baseVersion version r) in
    w !! AbsolutePath psdFile = Some f ->
    CompressionInfo commit = Some info ->
    OutputFile info = deltaName ->
    json_Unmarshal metadataBytes = Some metadata ->
    Index (lines +:+ binaryDataMarker) binaryDataMarker = len lines ->
    lz4_decompress (lz4_compress (data f)) = Some (data f) ->
    len metadataBytes < 2 ^ 63 ->
    restoreFromSmartDelta r' commit [] st
    = (Ok tt,
       set_transferred (len (data f))
         (set_total 1 (add_restored (Path psdFile) (data f) st))).
Proof.
  intros E w deltaName psdFile analysis baseVersion version r f commit info st
    metadata metadataBytes lines r' Hf Hinfo Hname Hjson Hmarker Hlz4 Hsize.
  pose proof (createSmartDeltaFile_content w (Cache, deltaName) psdFile analysis
                baseVersion version r f Hf) as Hcreate.
  cbv zeta in Hcreate. fold metadata metadataBytes lines in Hcreate.
  set (payload := lz4_compress (data f)) in *.
  set (content := (lines +:+ binaryDataMarker) +:+ payload) in *.
  assert (Hfile : read_file r' (Cache, deltaName) = Some content).
  { unfold r'. rewrite Hcreate. cbn [snd]. apply read_write_file. }
  pose proof (len_nonneg metadataBytes) as Hnonneg.
  assert (Hshape : content
                   = smart_delta_lines metadataBytes
                     +:+ (metadataBytes +:+ binaryDataMarker +:+ payload)).
  { unfold content, lines. now rewrite !append_assoc. }
  destruct (smart_delta_split metadataBytes (metadataBytes +:+ binaryDataMarker +:+ payload)
              Hnonneg) as (line2 & more & Hsplit).
  rewrite <- Hshape in Hsplit.
  assert (Hstart : len smart_delta_header + 1
                   + len ("METADATA_LENGTH:" +:+ Itoa (len metadataBytes)) + 1
                   = len (smart_delta_lines metadataBytes)).
  { unfold smart_delta_lines, LF. rewrite !len_append, !len_String.
    change (len EmptyString) with 0. lia. }
  assert (Hmeta : slice content (len (smart_delta_lines metadataBytes))
                    (len (smart_delta_lines metadataBytes) + len metadataBytes)
                  = metadataBytes).
  { rewrite Hshape. apply slice_middle. }
  assert (Hlen : len content
                 = len (smart_delta_lines metadataBytes) + len metadataBytes
                   + len binaryDataMarker + len payload).
  { unfold content, lines. rewrite !len_append. lia. }
  assert (Hindex : Index content binaryDataMarker = len lines).
  { unfold content. rewrite Index_append_found; rewrite Hmarker; [reflexivity |].
    apply len_nonneg. }
  assert (Hpayload : slice_from content (len lines + len binaryDataMarker) = payload).
  { unfold content. rewrite <- len_append. apply slice_from_append. }
  unfold restoreFromSmartDelta. rewrite Hinfo, Hname. unfold fileExists.
  rewrite Hfile. cbv beta iota zeta. rewrite Hfile, Hsplit.
  rewrite String.eqb_refl. cbn [negb].
  rewrite (HasPrefix_append "METADATA_LENGTH:"). cbn [negb].
  rewrite (TrimPrefix_append "METADATA_LENGTH:"), Atoi_Itoa by lia.
  rewrite Hstart.
  pose proof (len_nonneg binaryDataMarker). pose proof (len_nonneg payload).
  destruct (Z.gtb_spec (len (smart_delta_lines metadataBytes) + len metadataBytes)
              (len content)) as [Hgt | _]; [lia |].
  rewrite Hmeta, Hjson. unfold metadata at 1, smart_delta_metadata at 1.
  cbn [json_field String.eqb Ascii.eqb Bool.eqb].
  rewrite Hindex.
  pose proof (len_nonneg lines).
  destruct (Z.eqb_spec (len lines) (-1)) as [Heq | _]; [lia |].
  rewrite Hpayload, Hlz4. reflexivity.
Qed.

(** The layered sample PSD file, written as a smart delta and read back. *)
Lemma restoreFromSmartDelta_reads_delta_witness :
  restoreFromSmartDelta (H := Standin.libraries)
    (snd (createSmartDeltaFile (H := Standin.libraries)
            (Samples.world Samples.design_2) (Cache, "v2_from_v1.psd_smart")
            (Samples.staged_file "design.psd" Samples.psd_layered)
            (compareLayerVersions [] []) 1 2 NewRepo))
    {| Hash := EmptyString; Message := EmptyString; Author := EmptyString;
       FilesCount := 1; Version := 2; Metadata := ∅; ParentHash := EmptyString;
       SnapshotZip := EmptyString;
       CompressionInfo :=
         Some {| Strategy := "psd_smart"; OutputFile := "v2_from_v1.psd_smart";
                 OriginalSize := 0; CompressedSize := 0; CompressionRatio := 0%float;
                 BaseVersion := 1; CacheLevel := "cache" |} |}
    [] Samples.fresh
  = (Ok tt,
     set_transferred (len Samples.psd_layered)
       (set_total 1 (add_restored "design.psd" Samples.psd_layered Samples.fresh))).
Proof.
  apply (restoreFromSmartDelta_reads_delta Standin.libraries
           (Samples.world Samples.design_2) "v2_from_v1.psd_smart"
           (Samples.staged_file "design.psd" Samples.psd_layered)
           (compareLayerVersions [] []) 1 2 NewRepo
           {| data := Samples.psd_layered; modtime := 5 |} _
           {| Strategy := "psd_smart"; OutputFile := "v2_from_v1.psd_smart";
              OriginalSize := 0; CompressedSize := 0; CompressionRatio := 0%float;
              BaseVersion := 1; CacheLevel := "cache" |} Samples.fresh);
    vm_compute; reflexivity.
Defined.

(** ** The layer names of a PSD file *)

(** X18. The basic information of a PSD file never counts a negative
    number of layers, and it names exactly as many layers as it counts:
    when the layer records cannot be read, the names are the default names
    of that many layers. *)
Theorem GetPSDInfo_names_count :
  forall (w : World) (filePath : string) (info : Photoshop.PSDInfo),
    Photoshop.GetPSDInfo w filePath = Ok info ->
    0 <= Photoshop.LayerCount info
    /\ Z.of_nat (length (Photoshop.LayerNames info)) = Photoshop.LayerCount info.
Proof.
  intros w filePath info. unfold Photoshop.GetPSDInfo.
  destruct (w !! filePath) as [f |]; [| discriminate].
  destruct (Photoshop.GetPSDInfo_read (data f) 0) as [res pos'] eqn:Hread.
  cbn [fst]. intros ->.
  destruct (GetPSDInfo_read_names _ _ _ _ Hread) as [Hcount Hnames].
  split; [exact Hcount |]. rewrite Hnames. now apply Z2Nat.id.
Qed.

(** The layered sample file has one layer record. *)
Lemma GetPSDInfo_names_count_witness :
  exists info,
    Photoshop.GetPSDInfo (Samples.world Samples.design_2) "/work/design.psd" = Ok info
    /\ Photoshop.LayerCount info = 1
    /\ length (Photoshop.LayerNames info) = 1%nat.
Proof.
  destruct (Photoshop.GetPSDInfo (Samples.world Samples.design_2) "/work/design.psd")
    as [info | e] eqn:Hinfo; [| vm_compute in Hinfo; discriminate].
  exists info. split; [reflexivity |].
  destruct (GetPSDInfo_names_count _ _ _ Hinfo) as [_ Hnames].
  assert (Hcount : Photoshop.LayerCount info = 1).
  { vm_compute in Hinfo. apply Ok_inj in Hinfo. now subst info. }
  split; [exact Hcount | lia].
Defined.
